(** * Vehicle tracking service: ingestion consumer, filter builder, event
    store query and query endpoint.

    Shallow embedding of
      - internal/app (App.Consume),
      - internal/repositories (TrackingFilter.Build, MongoTackingRepository),
      - internal/services (MongoTrackingService),
      - internal/handler (V1TrackingHandler.FindTrackingData).

    Go's [int] is the 64-bit two's complement integer, written as [Z] with
    its wrap-around spelled out; [float64] is the IEEE-754 datatype of
    [SpecFloat]; Go maps ([url.Values], [map[string]any], [bson.M]) are
    [gmap]s keyed by strings.  Calls into the document database and the
    message broker are recorded in explicit logs (state passing); what
    the collaborators answer is a parameter of each component ([Numerics],
    [Driver], [RequestMethods], [Broker]). *)

From Stdlib Require Import ZArith Ascii String SpecFloat.
From stdpp Require Import gmap strings list fin_maps sorting.

Local Open Scope string_scope.
Local Open Scope list_scope.

(** ** Errors and outcomes *)

(** The error values that travel through the modelled code.  [ErrNum fn s]
    is strconv's [*NumError] for function [fn] on input [s]; [ErrExternal]
    stands for an error produced by a collaborator (broker, database,
    decoder of the request body). *)
Inductive error : Type :=
  | ErrNum (fn num : string)
  | ErrUnsupportedValue
  | ErrUnmarshalType (field : string)
  | ErrInvalidID
  | ErrInvalidVehicleStatus
  | ErrInvalidFuelCondition
  | ErrMethodNotAllowed
  | ErrNotFound
  | ErrExternal (msg : string).

(** A Go call either returns a value, returns an error, or panics. *)
Inductive outcome (A : Type) : Type :=
  | Ok (a : A)
  | Fail (e : error)
  | Panic (msg : string).
Arguments Ok {A} a.
Arguments Fail {A} e.
Arguments Panic {A} msg.

Definition bind {A B} (o : outcome A) (k : A -> outcome B) : outcome B :=
  match o with
  | Ok a => k a
  | Fail e => Fail e
  | Panic m => Panic m
  end.

Definition is_Ok {A} (o : outcome A) : Prop := exists a, o = Ok a.
Definition is_Fail {A} (o : outcome A) : Prop := exists e, o = Fail e.

(** ** Go's int *)
Module GoInt.
Definition min_int : Z := - 2 ^ 63.
Definition max_int : Z := 2 ^ 63 - 1.

Definition in_range (z : Z) : bool := (min_int <=? z)%Z && (z <=? max_int)%Z.

(** Two's complement wrap-around of a mathematical integer. *)
Definition wrap (z : Z) : Z := ((z + 2 ^ 63) mod 2 ^ 64 - 2 ^ 63)%Z.

Definition sub (a b : Z) : Z := wrap (a - b).
Definition mul (a b : Z) : Z := wrap (a * b).
End GoInt.

(** ** strconv *)
Module Strconv.
Definition digit_val (c : ascii) : option Z :=
  let n := Z.of_N (N_of_ascii c) in
  if (48 <=? n)%Z && (n <=? 57)%Z then Some (n - 48)%Z else None.

Fixpoint parse_digits (acc : Z) (s : string) : option Z :=
  match s with
  | EmptyString => Some acc
  | String c s' =>
      match digit_val c with
      | Some d => parse_digits (acc * 10 + d)%Z s'
      | None => None
      end
  end.

(** [strconv.Atoi]: an optional sign, then one or more decimal digits,
    the value within the range of [int]. *)
Definition Atoi (s : string) : outcome Z :=
  let '(neg, body) :=
    match s with
    | String "-"%char r => (true, r)
    | String "+"%char r => (false, r)
    | _ => (false, s)
    end in
  match body with
  | EmptyString => Fail (ErrNum "Atoi" s)
  | _ =>
      match parse_digits 0 body with
      | None => Fail (ErrNum "Atoi" s)
      | Some n =>
          let v := if neg then (- n)%Z else n in
          if GoInt.in_range v then Ok v else Fail (ErrNum "Atoi" s)
      end
  end.
End Strconv.

(** ** bson/primitive *)
Module Primitive.
(** An ObjectID is twelve bytes. *)
Definition ObjectID : Type := list N.

Definition NilObjectID : ObjectID := replicate 12 0%N.

Definition hex_val (c : ascii) : option N :=
  let n := N_of_ascii c in
  if (48 <=? n)%N && (n <=? 57)%N then Some (n - 48)%N
  else if (97 <=? n)%N && (n <=? 102)%N then Some (n - 87)%N
  else if (65 <=? n)%N && (n <=? 70)%N then Some (n - 55)%N
  else None.

(** [hex.DecodeString]: two hexadecimal digits per byte. *)
Fixpoint hex_decode (s : string) : option (list N) :=
  match s with
  | EmptyString => Some []
  | String hi (String lo s') =>
      match hex_val hi, hex_val lo, hex_decode s' with
      | Some h, Some l, Some bs => Some ((h * 16 + l)%N :: bs)
      | _, _, _ => None
      end
  | String _ EmptyString => None
  end.

(** [primitive.ObjectIDFromHex]: exactly 24 hexadecimal digits. *)
Definition ObjectIDFromHex (s : string) : option ObjectID :=
  if Nat.eqb (String.length s) 24 then hex_decode s else None.
End Primitive.

(** ** models *)
Module Models.
Definition float64 : Type := spec_float.

(** Go's [f != 0] on a float64: false exactly for the two zeros. *)
Definition float_nonzero (f : float64) : bool :=
  match f with
  | S754_zero _ => false
  | _ => true
  end.

Definition float_finite (f : float64) : bool :=
  match f with
  | S754_zero _ | S754_finite _ _ _ => true
  | S754_infinity _ | S754_nan => false
  end.

Definition VehicleStatus : Type := string.
Definition FuelCondition : Type := string.

Definition VehicleStatuses : list VehicleStatus :=
  ["active"; "inactive"; "repair"; "sold"; "rented"].

Definition FuelConditions : list FuelCondition :=
  ["empty"; "low"; "half"; "full"].

(** Modelled from the spec: [VehicleStatus.Valid] of the models package is
    not part of the sources; the status is one of active, inactive,
    repair, sold, rented. *)
Definition VehicleStatus_Valid (s : VehicleStatus) : option error :=
  if bool_decide (s ∈ VehicleStatuses) then None
  else Some ErrInvalidVehicleStatus.

(** Modelled from the spec: [FuelCondition.Valid] of the models package is
    not part of the sources; the fuel condition is one of empty, low,
    half, full. *)
Definition FuelCondition_Valid (s : FuelCondition) : option error :=
  if bool_decide (s ∈ FuelConditions) then None
  else Some ErrInvalidFuelCondition.

(** Modelled from the spec: the persisted record shape of section 6
    ([models.TrackingData]); the creation timestamp is a number. *)
Record TrackingData : Type := mkTrackingData {
  td_ID : Primitive.ObjectID;
  td_VehicleID : Primitive.ObjectID;
  td_Location : string;
  td_Mileage : float64;
  td_Status : VehicleStatus;
  td_FuelCondition : FuelCondition;
  td_CreatedAt : Z
}.
End Models.

(** ** repositories: the filter *)
Module Repositories.
Import Primitive Models.

Record TrackingFilter : Type := mkFilter {
  Page : Z;
  PageSize : Z;
  SortField : string;
  SortOrder : string;
  VehicleID : string;
  Location : string;
  Mileage : float64;
  Status : VehicleStatus;
  FuelCondition : FuelCondition;
  vehicleID : ObjectID
}.

(** The zero value of the struct ([var filter TrackingFilter]). *)
Definition zero_filter : TrackingFilter :=
  mkFilter 0 0 "" "" "" "" (S754_zero false) "" "" NilObjectID.

Definition set_Page (v : Z) (t : TrackingFilter) : TrackingFilter :=
  mkFilter v (PageSize t) (SortField t) (SortOrder t) (VehicleID t)
    (Location t) (Mileage t) (Status t) (FuelCondition t) (vehicleID t).
Definition set_PageSize (v : Z) (t : TrackingFilter) : TrackingFilter :=
  mkFilter (Page t) v (SortField t) (SortOrder t) (VehicleID t)
    (Location t) (Mileage t) (Status t) (FuelCondition t) (vehicleID t).
Definition set_SortField (v : string) (t : TrackingFilter) : TrackingFilter :=
  mkFilter (Page t) (PageSize t) v (SortOrder t) (VehicleID t)
    (Location t) (Mileage t) (Status t) (FuelCondition t) (vehicleID t).
Definition set_SortOrder (v : string) (t : TrackingFilter) : TrackingFilter :=
  mkFilter (Page t) (PageSize t) (SortField t) v (VehicleID t)
    (Location t) (Mileage t) (Status t) (FuelCondition t) (vehicleID t).
Definition set_VehicleID (v : string) (t : TrackingFilter) : TrackingFilter :=
  mkFilter (Page t) (PageSize t) (SortField t) (SortOrder t) v
    (Location t) (Mileage t) (Status t) (FuelCondition t) (vehicleID t).
Definition set_Location (v : string) (t : TrackingFilter) : TrackingFilter :=
  mkFilter (Page t) (PageSize t) (SortField t) (SortOrder t) (VehicleID t)
    v (Mileage t) (Status t) (FuelCondition t) (vehicleID t).
Definition set_Mileage (v : float64) (t : TrackingFilter) : TrackingFilter :=
  mkFilter (Page t) (PageSize t) (SortField t) (SortOrder t) (VehicleID t)
    (Location t) v (Status t) (FuelCondition t) (vehicleID t).
Definition set_Status (v : string) (t : TrackingFilter) : TrackingFilter :=
  mkFilter (Page t) (PageSize t) (SortField t) (SortOrder t) (VehicleID t)
    (Location t) (Mileage t) v (FuelCondition t) (vehicleID t).
Definition set_FuelCondition (v : string) (t : TrackingFilter) : TrackingFilter :=
  mkFilter (Page t) (PageSize t) (SortField t) (SortOrder t) (VehicleID t)
    (Location t) (Mileage t) (Status t) v (vehicleID t).
Definition set_vehicleID (v : ObjectID) (t : TrackingFilter) : TrackingFilter :=
  mkFilter (Page t) (PageSize t) (SortField t) (SortOrder t) (VehicleID t)
    (Location t) (Mileage t) (Status t) (FuelCondition t) v.

Definition VehicleObjID (t : TrackingFilter) : ObjectID := vehicleID t.

(** The defaulting prefix of [Build]: the five assignments that cannot
    fail. *)
Definition Build_defaults (t : TrackingFilter) : TrackingFilter :=
  let t := if (Page t =? 0)%Z then set_Page 1 t else t in
  let t := if (PageSize t =? 0)%Z then set_PageSize 10 t else t in
  let t := if (100 <? PageSize t)%Z then set_PageSize 100 t else t in
  let t := if String.eqb (SortField t) "" then set_SortField "created_at" t else t in
  let t := if String.eqb (SortOrder t) "" then set_SortOrder "asc" t else t in
  t.

(** [TrackingFilter.Build].  The receiver is a pointer: the updated filter
    is returned together with the error, the assignments made before a
    failing check stay visible to the caller. *)
Definition Build (t : TrackingFilter) : TrackingFilter * option error :=
  let t := Build_defaults t in
  let step1 : TrackingFilter * option error :=
    if negb (String.eqb (VehicleID t) "") then
      match ObjectIDFromHex (VehicleID t) with
      | None => (t, Some ErrInvalidID)
      | Some id => (set_vehicleID id t, None)
      end
    else (t, None) in
  match step1 with
  | (t, Some e) => (t, Some e)
  | (t, None) =>
      match (if negb (String.eqb (Status t) "")
             then VehicleStatus_Valid (Status t) else None) with
      | Some e => (t, Some e)
      | None =>
          match (if negb (String.eqb (FuelCondition t) "")
                 then FuelCondition_Valid (FuelCondition t) else None) with
          | Some e => (t, Some e)
          | None => (t, None)
          end
      end
  end.
End Repositories.


(** ** goccy/go-json, as far as the query path uses it *)
Module Json.
Import Models Repositories.

(** The dynamic values the service stores in its [map[string]any]. *)
Inductive any : Type :=
  | AInt (z : Z)
  | AFloat (f : float64)
  | AString (s : string).

(** An encoded JSON object: its members in document order, each string
    as it reads back from the text.  Numbers keep the Go value they were
    printed from (the printed text of an int or of a finite float64 reads
    back as the same value).  A string is written rune by rune, every
    byte that starts no valid UTF-8 encoding as the escape of U+FFFD; it
    reads back as [coerce_utf8] of the string. *)
Definition json_object : Type := list (string * any).

Definition byte_in (lo hi : N) (c : ascii) : bool :=
  (lo <=? N_of_ascii c)%N && (N_of_ascii c <=? hi)%N.

(** The second, third and fourth byte of a string in the given range. *)
Definition next_in (lo hi : N) (rest : string) : bool :=
  match rest with
  | String c1 _ => byte_in lo hi c1
  | EmptyString => false
  end.

Definition third_in (rest : string) : bool :=
  match rest with
  | String _ rest' => next_in 0x80 0xBF rest'
  | EmptyString => false
  end.

Definition fourth_in (rest : string) : bool :=
  match rest with
  | String _ rest' => third_in rest'
  | EmptyString => false
  end.

(** [utf8.DecodeRuneInString] on the string [String c rest]: the width of
    the encoding at its head, [None] when the head starts no valid
    encoding (the rune error of width 1). *)
Definition rune_width (c : ascii) (rest : string) : option nat :=
  if byte_in 0x00 0x7F c then Some 1%nat
  else if byte_in 0xC2 0xDF c then
    if next_in 0x80 0xBF rest then Some 2%nat else None
  else if byte_in 0xE0 0xE0 c then
    if next_in 0xA0 0xBF rest && third_in rest then Some 3%nat else None
  else if byte_in 0xE1 0xEC c || byte_in 0xEE 0xEF c then
    if next_in 0x80 0xBF rest && third_in rest then Some 3%nat else None
  else if byte_in 0xED 0xED c then
    if next_in 0x80 0x9F rest && third_in rest then Some 3%nat else None
  else if byte_in 0xF0 0xF0 c then
    if next_in 0x90 0xBF rest && third_in rest && fourth_in rest
    then Some 4%nat else None
  else if byte_in 0xF1 0xF3 c then
    if next_in 0x80 0xBF rest && third_in rest && fourth_in rest
    then Some 4%nat else None
  else if byte_in 0xF4 0xF4 c then
    if next_in 0x80 0x8F rest && third_in rest && fourth_in rest
    then Some 4%nat else None
  else None.

(** The UTF-8 encoding of U+FFFD. *)
Definition replacement : string :=
  String (ascii_of_N 0xEF) (String (ascii_of_N 0xBF)
    (String (ascii_of_N 0xBD) EmptyString)).

(** The string with [skip] bytes of a valid encoding still to copy. *)
Fixpoint coerce_from (skip : nat) (s : string) : string :=
  match s with
  | EmptyString => EmptyString
  | String c rest =>
      match skip with
      | S n => String c (coerce_from n rest)
      | O =>
          match rune_width c rest with
          | Some w => String c (coerce_from (Nat.pred w) rest)
          | None => (replacement ++ coerce_from 0 rest)%string
          end
      end
  end.

(** A string as it comes back from its JSON text: every invalid byte
    replaced by U+FFFD. *)
Definition coerce_utf8 (s : string) : string := coerce_from 0 s.

(** Only bytes below 0x80. *)
Fixpoint is_ascii (s : string) : bool :=
  match s with
  | EmptyString => true
  | String c rest => byte_in 0x00 0x7F c && is_ascii rest
  end.

Definition coerce_any (a : any) : any :=
  match a with
  | AString s => AString (coerce_utf8 s)
  | _ => a
  end.

(** A member of a map as it is read back from the text. *)
Definition written (m : string * any) : string * any :=
  (coerce_utf8 m.1, coerce_any m.2).

(** What the libraries do with the text of a number, where the code leaves
    it to them: [ParseFloat] is [strconv.ParseFloat (s, 64)] ([None] is an
    error return); [float_as_int f] is the integer read from the printed
    text of [f] when that text is an integer literal; [int_as_float] is
    the float64 read from the decimal text of an integer. *)
Record Numerics : Type := mkNumerics {
  ParseFloat : string -> option float64;
  float_as_int : float64 -> option Z;
  int_as_float : Z -> float64
}.

(** Bytewise order on strings, the order in which the encoder emits the
    keys of a map. *)
Definition key_le (a b : string) : Prop := String.leb a b = true.

#[global] Instance key_le_dec (a b : string) : Decision (key_le a b).
Proof. unfold key_le. apply _. Defined.

Definition sorted_keys {V} (data : gmap string V) : list string :=
  merge_sort key_le (map_to_list data).*1.

(** The members of the map under the given keys, in the order of the keys. *)
Definition entries (data : gmap string any) (keys : list string) : json_object :=
  omap (fun k => pair k <$> data !! k) keys.

Definition members (data : gmap string any) : json_object :=
  entries data (sorted_keys data).

(** The encoder refuses NaN and the infinities. *)
Definition encodable (a : any) : bool :=
  match a with
  | AFloat f => float_finite f
  | _ => true
  end.

(** [json.Marshal] of a [map[string]any]: keys sorted, every value
    encodable, keys and strings coerced to valid UTF-8. *)
Definition Marshal (data : gmap string any) : outcome json_object :=
  if forallb (fun m => encodable m.2) (members data)
  then Ok (written <$> members data)
  else Fail ErrUnsupportedValue.

Definition lower_ascii (c : ascii) : ascii :=
  let n := N_of_ascii c in
  if (65 <=? n)%N && (n <=? 90)%N then ascii_of_N (n + 32) else c.

(** The decoder folds the upper-case ASCII letters of an incoming key
    before it looks the key up among the struct's tags. *)
Fixpoint fold_key (s : string) : string :=
  match s with
  | EmptyString => EmptyString
  | String c s' => String (lower_ascii c) (fold_key s')
  end.

(** The json tags of [TrackingFilter] (the unexported [vehicleID] has
    none). *)
Inductive field : Type :=
  | FPage | FPageSize | FSortField | FSortOrder | FVehicleID
  | FLocation | FMileage | FStatus | FFuelCondition.

Definition tag (f : field) : string :=
  match f with
  | FPage => "page"
  | FPageSize => "limit"
  | FSortField => "sort_by"
  | FSortOrder => "sort_order"
  | FVehicleID => "vehicle_id"
  | FLocation => "location"
  | FMileage => "mileage"
  | FStatus => "status"
  | FFuelCondition => "fuel_condition"
  end.

Definition fields : list field :=
  [FPage; FPageSize; FSortField; FSortOrder; FVehicleID;
   FLocation; FMileage; FStatus; FFuelCondition].

Definition field_of_key (k : string) : option field :=
  find (fun f => String.eqb (tag f) (fold_key k)) fields.

(** The nine query parameters of the endpoint. *)
Definition recognized_keys : list string := tag <$> fields.

Definition decode_int (num : Numerics) (name : string) (a : any) : outcome Z :=
  match a with
  | AInt z => if GoInt.in_range z then Ok z else Fail (ErrUnmarshalType name)
  | AFloat f =>
      match float_as_int num f with
      | Some z => if GoInt.in_range z then Ok z else Fail (ErrUnmarshalType name)
      | None => Fail (ErrUnmarshalType name)
      end
  | AString _ => Fail (ErrUnmarshalType name)
  end.

Definition decode_float (num : Numerics) (name : string) (a : any) : outcome float64 :=
  match a with
  | AInt z => Ok (int_as_float num z)
  | AFloat f => Ok f
  | AString _ => Fail (ErrUnmarshalType name)
  end.

Definition decode_string (name : string) (a : any) : outcome string :=
  match a with
  | AString s => Ok s
  | _ => Fail (ErrUnmarshalType name)
  end.

(** The content of a field, as a dynamic value. *)
Definition field_value (f : field) (t : TrackingFilter) : any :=
  match f with
  | FPage => AInt (Page t)
  | FPageSize => AInt (PageSize t)
  | FSortField => AString (SortField t)
  | FSortOrder => AString (SortOrder t)
  | FVehicleID => AString (VehicleID t)
  | FLocation => AString (Location t)
  | FMileage => AFloat (Mileage t)
  | FStatus => AString (Status t)
  | FFuelCondition => AString (FuelCondition t)
  end.

(** The kind of value a field takes without conversion. *)
Definition same_kind (f : field) (a : any) : bool :=
  match f, a with
  | (FPage | FPageSize), AInt _ => true
  | FMileage, AFloat _ => true
  | (FSortField | FSortOrder | FVehicleID | FLocation | FStatus
     | FFuelCondition), AString _ => true
  | _, _ => false
  end.

(** Decoding one member's value into the field its key selects. *)
Definition assign (num : Numerics) (f : field) (a : any) (t : TrackingFilter)
  : outcome TrackingFilter :=
  match f with
  | FPage => bind (decode_int num (tag f) a) (fun z => Ok (set_Page z t))
  | FPageSize => bind (decode_int num (tag f) a) (fun z => Ok (set_PageSize z t))
  | FSortField => bind (decode_string (tag f) a) (fun s => Ok (set_SortField s t))
  | FSortOrder => bind (decode_string (tag f) a) (fun s => Ok (set_SortOrder s t))
  | FVehicleID => bind (decode_string (tag f) a) (fun s => Ok (set_VehicleID s t))
  | FLocation => bind (decode_string (tag f) a) (fun s => Ok (set_Location s t))
  | FMileage => bind (decode_float num (tag f) a) (fun x => Ok (set_Mileage x t))
  | FStatus => bind (decode_string (tag f) a) (fun s => Ok (set_Status s t))
  | FFuelCondition =>
      bind (decode_string (tag f) a) (fun s => Ok (set_FuelCondition s t))
  end.

(** [json.Unmarshal] into a [TrackingFilter]: the members are read in
    order; a key that selects no field is skipped, a value of the wrong
    kind ends the decoding with an error. *)
Fixpoint Unmarshal (num : Numerics) (buf : json_object) (t : TrackingFilter)
  : outcome TrackingFilter :=
  match buf with
  | [] => Ok t
  | (k, a) :: buf' =>
      match field_of_key k with
      | None => Unmarshal num buf' t
      | Some f => bind (assign num f a t) (Unmarshal num buf')
      end
  end.
End Json.


(** ** repositories: the Mongo-backed event store *)
Module Mongo.
Import Primitive Models Repositories.

(** The bson values the repository puts into a query document. *)
#[warnings="-register-all"] Inductive bsonValue : Type :=
  | BObjectID (o : ObjectID)
  | BString (s : string)
  | BDouble (f : float64)
  | BDoc (m : gmap string bsonValue).

(** [options.FindOptions]: the three settings the repository touches. *)
Record FindOptions : Type := mkFindOptions {
  Sort : option (list (string * Z));
  Skip : option Z;
  Limit : option Z
}.

Definition options_Find : FindOptions := mkFindOptions None None None.

Definition SetSort (s : list (string * Z)) (o : FindOptions) : FindOptions :=
  mkFindOptions (Some s) (Skip o) (Limit o).
Definition SetSkip (n : Z) (o : FindOptions) : FindOptions :=
  mkFindOptions (Sort o) (Some n) (Limit o).
Definition SetLimit (n : Z) (o : FindOptions) : FindOptions :=
  mkFindOptions (Sort o) (Skip o) (Some n).

(** Driver calls on the collection, as the store sees them. *)
Inductive CollectionOp : Type :=
  | OpInsertOne (d : TrackingData)
  | OpFind (filter : gmap string bsonValue) (opts : FindOptions).

(** The collection: the persisted documents and the calls received. *)
Record Collection : Type := mkCollection {
  docs : list TrackingData;
  ops : list CollectionOp
}.

(** The database's side of the driver calls: the identifier (or error) an
    insert is answered with, and the documents (or error) a find is
    answered with, cursor decoding included.  [TrackingData_Build] is
    [models.TrackingData.Build], called before the insert. *)
Record Driver : Type := mkDriver {
  TrackingData_Build : TrackingData -> outcome TrackingData;
  InsertOne_result : Collection -> TrackingData -> outcome ObjectID;
  Find_result :
    Collection -> gmap string bsonValue -> FindOptions -> outcome (list TrackingData)
}.

Definition set_ID (id : ObjectID) (d : TrackingData) : TrackingData :=
  mkTrackingData id (td_VehicleID d) (td_Location d) (td_Mileage d)
    (td_Status d) (td_FuelCondition d) (td_CreatedAt d).

(** [collection.InsertOne]. *)
Definition InsertOne (drv : Driver) (c : Collection) (d : TrackingData)
  : outcome ObjectID * Collection :=
  match InsertOne_result drv c d with
  | Ok id => (Ok id, mkCollection (docs c ++ [set_ID id d]) (ops c ++ [OpInsertOne d]))
  | r => (r, mkCollection (docs c) (ops c ++ [OpInsertOne d]))
  end.

(** [collection.Find] followed by the cursor loop. *)
Definition Find (drv : Driver) (c : Collection)
  (filter : gmap string bsonValue) (opts : FindOptions)
  : outcome (list TrackingData) * Collection :=
  (Find_result drv c filter opts,
   mkCollection (docs c) (ops c ++ [OpFind filter opts])).

(** [MongoTackingRepository.CreateTrackingData]; on success the record
    carries the inserted identifier. *)
Definition CreateTrackingData (drv : Driver) (trackingData : TrackingData)
  (c : Collection) : outcome TrackingData * Collection :=
  match TrackingData_Build drv trackingData with
  | Ok built =>
      match InsertOne drv c built with
      | (Ok id, c') => (Ok (set_ID id built), c')
      | (Fail e, c') => (Fail e, c')
      | (Panic m, c') => (Panic m, c')
      end
  | Fail e => (Fail e, c)
  | Panic m => (Panic m, c)
  end.

(** The query document of a built filter: one entry per present field. *)
Definition bsonMFilter (filter : TrackingFilter) : gmap string bsonValue :=
  let m : gmap string bsonValue := ∅ in
  let m := if negb (String.eqb (VehicleID filter) "")
           then <["vehicle_id" := BObjectID (VehicleObjID filter)]> m else m in
  let m := if negb (String.eqb (Location filter) "")
           then <["location" :=
                    BDoc (<["$regex" := BString ("^" ++ Location filter)%string]>
                          (<["$options" := BString "i"]> ∅))]> m
           else m in
  let m := if float_nonzero (Mileage filter)
           then <["mileage" := BDoc (<["$gte" := BDouble (Mileage filter)]> ∅)]> m
           else m in
  let m := if negb (String.eqb (Status filter) "")
           then <["status" := BString (Status filter)]> m else m in
  let m := if negb (String.eqb (FuelCondition filter) "")
           then <["fuel_condition" := BString (FuelCondition filter)]> m else m in
  m.

(** The characters with a meaning in a regular expression, those
    [regexp.QuoteMeta] escapes. *)
Definition regex_special (c : ascii) : bool :=
  existsb (Ascii.eqb c) (list_ascii_of_string "\.+*?()|[]{}^$").

Fixpoint QuoteMeta (s : string) : string :=
  match s with
  | EmptyString => EmptyString
  | String c rest =>
      if regex_special c then String "\" (String c (QuoteMeta rest))
      else String c (QuoteMeta rest)
  end.

(** A text without a character that has a meaning in a regular
    expression. *)
Definition regex_literal (s : string) : bool :=
  forallb (fun c => negb (regex_special c)) (list_ascii_of_string s).

(** The spec's words for the location predicate, to compare with the
    entry [bsonMFilter] builds: a case-insensitive prefix match, that is
    the regular expression that matches the texts starting with the given
    one -- the anchor followed by the text taken literally -- with the
    option i. *)
Definition spec_location_prefix_match (location : string) : bsonValue :=
  BDoc (<["$regex" := BString ("^" ++ QuoteMeta location)%string]>
          (<["$options" := BString "i"]> ∅)).

(** The sort direction: -1 for the order "desc", 1 otherwise. *)
Definition sort_direction (filter : TrackingFilter) : Z :=
  if String.eqb (SortOrder filter) "desc" then (-1)%Z else 1%Z.

(** The find options of a built filter. *)
Definition findOptions (filter : TrackingFilter) : FindOptions :=
  let o := options_Find in
  let o := if negb (String.eqb (SortField filter) "")
           then SetSort [(SortField filter, sort_direction filter)] o else o in
  let o := SetSkip (GoInt.mul (GoInt.sub (Page filter) 1) (PageSize filter)) o in
  let o := SetLimit (PageSize filter) o in
  o.

(** [MongoTackingRepository.FindTrackingData].  A nil filter queries with
    the empty document and default options; otherwise the filter is built
    first and a build error is returned before the collection is asked. *)
Definition FindTrackingData (drv : Driver) (filter : option TrackingFilter)
  (c : Collection) : outcome (list TrackingData) * Collection :=
  match filter with
  | None => Find drv c ∅ options_Find
  | Some filter =>
      match Build filter with
      | (_, Some err) => (Fail err, c)
      | (filter, None) => Find drv c (bsonMFilter filter) (findOptions filter)
      end
  end.
End Mongo.


(** The [TrackingRepository] interface, over the state [R] of the store
    behind it.  [repo_Create] returns the record as the caller's pointer
    holds it after the call. *)
Class TrackingRepository (R : Type) : Type := {
  repo_Create : Models.TrackingData -> R -> outcome Models.TrackingData * R;
  repo_Find :
    option Repositories.TrackingFilter -> R -> outcome (list Models.TrackingData) * R
}.

#[global] Instance MongoTackingRepository (drv : Mongo.Driver)
  : TrackingRepository Mongo.Collection := {
  repo_Create := Mongo.CreateTrackingData drv;
  repo_Find := Mongo.FindTrackingData drv
}.

(** ** services *)
Module Services.
Import Primitive Models Repositories Json.

(** Modelled from the spec: [models.TrackingDataRequest] is not part of
    the sources; a submission carries the vehicle id, the location, the
    mileage, the status and the fuel condition. *)
Record TrackingDataRequest : Type := mkRequest {
  req_VehicleID : string;
  req_Location : string;
  req_Mileage : float64;
  req_Status : string;
  req_FuelCondition : string
}.

(** The two methods of the request the service calls:
    [TrackingDataRequest.Validate] and [TrackingDataRequest.ToTrackingData]. *)
Record RequestMethods : Type := mkRequestMethods {
  Validate : TrackingDataRequest -> option error;
  ToTrackingData : TrackingDataRequest -> outcome TrackingData
}.

(** [MongoTrackingService.TrackVehicle]. *)
Definition TrackVehicle {R} `{TrackingRepository R} (rm : RequestMethods)
  (req : TrackingDataRequest) (r : R) : outcome unit * R :=
  match Validate rm req with
  | Some err => (Fail err, r)
  | None =>
      match ToTrackingData rm req with
      | Fail err => (Fail err, r)
      | Panic m => (Panic m, r)
      | Ok trackingData =>
          match repo_Create trackingData r with
          | (Ok _, r') => (Ok tt, r')
          | (Fail err, r') => (Fail err, r')
          | (Panic m, r') => (Panic m, r')
          end
      end
  end.

(** One iteration of the loop over the query: [value[0]] converted
    according to the key.  Indexing an empty value list panics. *)
Definition convert_entry (num : Numerics) (key : string) (value : list string)
  : outcome any :=
  match value with
  | [] => Panic "index out of range [0] with length 0"
  | v0 :: _ =>
      if String.eqb key "page" || String.eqb key "limit" then
        bind (Strconv.Atoi v0) (fun converted => Ok (AInt converted))
      else if String.eqb key "mileage" then
        match ParseFloat num v0 with
        | Some converted => Ok (AFloat converted)
        | None => Fail (ErrNum "ParseFloat" v0)
        end
      else Ok (AString v0)
  end.

Definition entry_ok (num : Numerics) (kv : string * list string) : Prop :=
  is_Ok (convert_entry num kv.1 kv.2).

(** The loop [for key, value := range query], over the entries in the
    order the runtime visits them; it returns at the first entry that
    fails. *)
Fixpoint convert_loop (num : Numerics) (entries : list (string * list string))
  (data : gmap string any) : outcome (gmap string any) :=
  match entries with
  | [] => Ok data
  | (key, value) :: rest =>
      bind (convert_entry num key value)
           (fun a => convert_loop num rest (<[key := a]> data))
  end.

(** Go leaves the iteration order of a map unspecified; the model visits
    the entries in the order of [map_to_list].  Whether the loop fails, and
    the map it builds, do not depend on the order. *)
Definition convert (num : Numerics) (query : gmap string (list string))
  : outcome (gmap string any) :=
  convert_loop num (map_to_list query) ∅.

(** The first half of [MongoTrackingService.FindTrackingData]: the query
    becomes a [TrackingFilter] through the generic map and its JSON
    encoding. *)
Definition decode_data (num : Numerics) (data : gmap string any)
  : outcome TrackingFilter :=
  bind (Marshal data) (fun buf => Unmarshal num buf zero_filter).

Definition to_filter (num : Numerics) (query : gmap string (list string))
  : outcome TrackingFilter :=
  bind (convert num query) (decode_data num).

(** The map the loop builds when no entry fails: every key of the query
    with its converted first value. *)
Definition converted (num : Numerics) (query : gmap string (list string))
  : gmap string any :=
  map_imap (fun key value =>
              match convert_entry num key value with
              | Ok a => Some a
              | _ => None
              end) query.

(** [MongoTrackingService.FindTrackingData]. *)
Definition FindTrackingData {R} `{TrackingRepository R} (num : Numerics)
  (query : gmap string (list string)) (r : R)
  : outcome (list TrackingData) * R :=
  match to_filter num query with
  | Ok filter => repo_Find (Some filter) r
  | Fail err => (Fail err, r)
  | Panic m => (Panic m, r)
  end.

(** The filter builder as a whole: the service's conversion followed by
    the [Build] that the repository runs before it queries. *)
Definition resolve (num : Numerics) (query : gmap string (list string))
  : outcome TrackingFilter :=
  bind (to_filter num query) (fun filter =>
    match Build filter with
    | (_, Some err) => Fail err
    | (filter, None) => Ok filter
    end).

(** [url.Values.Add]: append a value to the list under the key. *)
Definition Values_Add (key value : string) (query : gmap string (list string))
  : gmap string (list string) :=
  <[key := default [] (query !! key) ++ [value]]> query.

(** The values [url.ParseQuery] produces: no key with an empty list. *)
Definition parsed_values (query : gmap string (list string)) : Prop :=
  forall key, query !! key <> Some [].
End Services.

(** The [TrackingService] interface, over the state [S] behind it. *)
Class TrackingService (S : Type) : Type := {
  svc_TrackVehicle : Services.TrackingDataRequest -> S -> outcome unit * S;
  svc_FindTrackingData :
    gmap string (list string) -> S -> outcome (list Models.TrackingData) * S
}.

#[global] Instance MongoTrackingService {R} `{TrackingRepository R}
  (rm : Services.RequestMethods) (num : Json.Numerics) : TrackingService R := {
  svc_TrackVehicle := Services.TrackVehicle rm;
  svc_FindTrackingData := Services.FindTrackingData num
}.


(** ** handler: the query endpoint *)
Module Handler.
Import Models.

(** The part of [http.Request] the handler reads. *)
Record Request : Type := mkHttpRequest {
  Method : string;
  Query : gmap string (list string)
}.

Definition MethodGet : string := "GET".

Definition StatusOK : Z := 200.
Definition StatusBadRequest : Z := 400.
Definition StatusNotFound : Z := 404.
Definition StatusMethodNotAllowed : Z := 405.

(** What is written to the response. *)
Inductive Envelope : Type :=
  | ErrorEnvelope (err : error)
  | SuccessEnvelope (data : list TrackingData) (message : string).

Record Response : Type := mkResponse {
  StatusCode : Z;
  Written : option Envelope
}.

(** Modelled from the spec: [common.HandleError] is not part of the
    sources; it answers with the given status and the error. *)
Definition HandleError (status : Z) (err : error) : Response :=
  mkResponse status (Some (ErrorEnvelope err)).

(** Modelled from the spec: [common.DefaultSuccessResponse] is not part of
    the sources; the success envelope holds the data list and a message. *)
Definition DefaultSuccessResponse (data : list TrackingData) (message : string)
  : Envelope :=
  SuccessEnvelope data message.

Inductive LogLine : Type :=
  | LogEncodeFailed (err : error).

(** [json.NewEncoder(w).Encode]: no status was set before, so the
    response goes out with 200; when the encoder fails nothing is written
    and the caller gets the error. *)
Definition Encode (encode_result : Envelope -> option error) (v : Envelope)
  : Response * option error :=
  match encode_result v with
  | None => (mkResponse StatusOK (Some v), None)
  | Some err => (mkResponse StatusOK None, Some err)
  end.

Definition methodWasNotAllowed : Response :=
  HandleError StatusMethodNotAllowed ErrMethodNotAllowed.

(** [V1TrackingHandler.FindTrackingData].  A panic of the service leaves
    the handler without a response of its own. *)
Definition FindTrackingData {S} `{TrackingService S}
  (encode_result : Envelope -> option error) (r : Request) (s : S)
  : outcome (Response * list LogLine) * S :=
  if negb (String.eqb (Method r) MethodGet) then
    (Ok (methodWasNotAllowed, []), s)
  else
    match svc_FindTrackingData (Query r) s with
    | (Fail err, s') => (Ok (HandleError StatusBadRequest err, []), s')
    | (Panic m, s') => (Panic m, s')
    | (Ok vehicles, s') =>
        if Nat.eqb (length vehicles) 0 then
          (Ok (HandleError StatusNotFound ErrNotFound, []), s')
        else
          match Encode encode_result
                  (DefaultSuccessResponse vehicles
                     "successfully fetched tracking data") with
          | (resp, Some err) => (Ok (resp, [LogEncodeFailed err]), s')
          | (resp, None) => (Ok (resp, []), s')
          end
    end.
End Handler.

(** ** app: the ingestion consumer *)
Module App.
Import Services.

(** Modelled from the spec: [common.ApplicationJSON] is not part of the
    sources; the content type of the republished message. *)
Definition ApplicationJSON : string := "application/json".

(** [amqp.Delivery]: the body and the tag its acknowledgment refers to. *)
Record Delivery : Type := mkDelivery {
  Body : list Byte.byte;
  DeliveryTag : Z
}.

(** [amqp.Publishing]: the two fields the consumer sets. *)
Record Publishing : Type := mkPublishing {
  ContentType : string;
  PBody : list Byte.byte
}.

(** Calls made on the broker. *)
Inductive BrokerCall : Type :=
  | Nack (tag : Z) (multiple requeue : bool)
  | Ack (tag : Z) (multiple : bool)
  | PublishWithContext (exchange key : string) (mandatory immediate : bool)
      (msg : Publishing).

Inductive LogLine : Type :=
  | LogUnmarshalFailed (err : error)
  | LogReceived (trackingData : TrackingDataRequest)
  | LogTrackFailed (err : error)
  | LogNackFailed (err : error)
  | LogPublishFailed (err : error)
  | LogAckFailed (err : error).

(** The collaborators of the consumer: the decoding of a body into a
    submission ([json.Unmarshal]) and the broker's answers to the calls. *)
Record Broker : Type := mkBroker {
  Unmarshal_request : list Byte.byte -> outcome TrackingDataRequest;
  Nack_result : Z -> bool -> bool -> option error;
  Ack_result : Z -> bool -> option error;
  Publish_result : string -> Publishing -> option error
}.

(** [config.EnvConfig], the field the consumer reads. *)
Record EnvConfig : Type := mkEnvConfig {
  VehicleQueue : string
}.

(** What one goroutine did: its broker calls and its log lines, in
    program order. *)
Record Trace : Type := mkTrace {
  calls : list BrokerCall;
  logs : list LogLine
}.

(** The goroutine [go func(body []byte) { ... }(msg.Body)]: it holds the
    body it was started with. *)
Record PublishTask : Type := mkPublishTask {
  task_body : list Byte.byte
}.

(** The run of the republishing goroutine. *)
Definition run_publish (cfg : EnvConfig) (b : Broker) (t : PublishTask) : Trace :=
  let msg := mkPublishing ApplicationJSON (task_body t) in
  let call := PublishWithContext "" (VehicleQueue cfg) false false msg in
  match Publish_result b (VehicleQueue cfg) msg with
  | Some err => mkTrace [call] [LogPublishFailed err]
  | None => mkTrace [call] []
  end.

(** [msg.Nack (false, false)] with the logging around it. *)
Definition nack (b : Broker) (msg : Delivery) : Trace :=
  match Nack_result b (DeliveryTag msg) false false with
  | Some err => mkTrace [Nack (DeliveryTag msg) false false] [LogNackFailed err]
  | None => mkTrace [Nack (DeliveryTag msg) false false] []
  end.

(** [msg.Ack (false)] with the logging around it. *)
Definition ack (b : Broker) (msg : Delivery) : Trace :=
  match Ack_result b (DeliveryTag msg) false with
  | Some err => mkTrace [Ack (DeliveryTag msg) false] [LogAckFailed err]
  | None => mkTrace [Ack (DeliveryTag msg) false] []
  end.

Definition log_then (l : LogLine) (t : Trace) : Trace :=
  mkTrace (calls t) (l :: logs t).

(** The outcome of the goroutine started for one delivery: its own trace,
    the goroutines it started, and how often it called the service. *)
Record Handled (S : Type) : Type := mkHandled {
  trace : Trace;
  spawned : list PublishTask;
  track_calls : list TrackingDataRequest;
  state : S
}.
Arguments mkHandled {S} _ _ _ _.
Arguments trace {S} _.
Arguments spawned {S} _.
Arguments track_calls {S} _.
Arguments state {S} _.

(** The body of [go func(msg amqp.Delivery, channel *amqp.Channel)] in
    [App.Consume].  A panic inside the decoder or the service ends the
    goroutine without any acknowledgment. *)
Definition handle {S} `{TrackingService S} (b : Broker) (msg : Delivery) (s : S)
  : Handled S :=
  match Unmarshal_request b (Body msg) with
  | Fail err =>
      mkHandled (log_then (LogUnmarshalFailed err) (nack b msg)) [] [] s
  | Panic _ => mkHandled (mkTrace [] []) [] [] s
  | Ok trackingData =>
      match svc_TrackVehicle trackingData s with
      | (Fail err, s') =>
          mkHandled
            (log_then (LogReceived trackingData)
               (log_then (LogTrackFailed err) (nack b msg)))
            [] [trackingData] s'
      | (Panic _, s') =>
          mkHandled (mkTrace [] [LogReceived trackingData]) [] [trackingData] s'
      | (Ok _, s') =>
          mkHandled
            (log_then (LogReceived trackingData) (ack b msg))
            [mkPublishTask (Body msg)] [trackingData] s'
      end
  end.

(** [App.Consume]: one goroutine per delivery.  The goroutines share the
    service; [schedule] is the order in which they reach it. *)
Fixpoint Consume {S} `{TrackingService S} (b : Broker)
  (schedule : list Delivery) (s : S) : list (Delivery * Handled S) * S :=
  match schedule with
  | [] => ([], s)
  | msg :: rest =>
      let h := handle b msg s in
      let '(hs, s') := Consume b rest (state h) in
      ((msg, h) :: hs, s')
  end.
End App.


(** ** Concrete collaborators, for closed examples *)
Module Fixtures.
Import Primitive Models Repositories Json Services.

(** A [ParseFloat] restricted to plain decimal integers and "NaN". *)
Definition plain_ParseFloat (s : string) : option float64 :=
  match Strconv.Atoi s with
  | Ok Z0 => Some (S754_zero false)
  | Ok (Zpos p) => Some (S754_finite false p 0)
  | Ok (Zneg p) => Some (S754_finite true p 0)
  | _ => if String.eqb s "NaN" then Some S754_nan else None
  end.

Definition plain_numerics : Numerics :=
  mkNumerics plain_ParseFloat
    (fun f => match f with
              | S754_zero _ => Some 0%Z
              | S754_finite false p 0 => Some (Zpos p)
              | S754_finite true p 0 => Some (Zneg p)
              | _ => None
              end)
    (fun z => match z with
              | Z0 => S754_zero false
              | Zpos p => S754_finite false p 0
              | Zneg p => S754_finite true p 0
              end).

(** A database that accepts every insert, numbers the identifiers, and
    answers every find with all documents. *)
Definition plain_driver : Mongo.Driver :=
  Mongo.mkDriver
    (fun d => Ok d)
    (fun c _ => Ok (replicate 12 (N.of_nat (S (length (Mongo.docs c))))))
    (fun c _ _ => Ok (Mongo.docs c)).

Definition float_negative (f : float64) : bool :=
  match f with
  | S754_finite true _ _ | S754_infinity true => true
  | _ => false
  end.

(** Modelled from the spec: the constraints of a submission are the
    vehicle id format, a non-negative mileage and the two enumerations. *)
Definition spec_Validate (req : TrackingDataRequest) : option error :=
  match ObjectIDFromHex (req_VehicleID req) with
  | None => Some ErrInvalidID
  | Some _ =>
      if float_negative (req_Mileage req) then Some (ErrExternal "mileage")
      else match VehicleStatus_Valid (req_Status req) with
           | Some e => Some e
           | None => FuelCondition_Valid (req_FuelCondition req)
           end
  end.

Definition spec_ToTrackingData (req : TrackingDataRequest) : outcome TrackingData :=
  match ObjectIDFromHex (req_VehicleID req) with
  | None => Fail ErrInvalidID
  | Some id =>
      Ok (mkTrackingData NilObjectID id (req_Location req) (req_Mileage req)
            (req_Status req) (req_FuelCondition req) 0)
  end.

Definition spec_methods : RequestMethods :=
  mkRequestMethods spec_Validate spec_ToTrackingData.

Definition good_request : TrackingDataRequest :=
  mkRequest "1735cc0f1af72af5f7cdcdee" "Location 1" (S754_finite false 5 0)
    "active" "full".

Definition bad_request : TrackingDataRequest :=
  mkRequest "1735cc0f1af72af5f7cdcdee" "Location 1" (S754_finite false 5 0)
    "bogus" "full".

(** A decoder that knows three bodies: the empty one does not decode, a
    one-byte body is [good_request], any other is [bad_request].  The
    broker accepts acknowledgments and refuses every publish. *)
Definition plain_broker : App.Broker :=
  App.mkBroker
    (fun body => match body with
                 | [] => Fail (ErrExternal "unexpected end of JSON input")
                 | [_] => Ok good_request
                 | _ => Ok bad_request
                 end)
    (fun _ _ _ => None)
    (fun _ _ => None)
    (fun _ _ => Some (ErrExternal "channel closed")).

Definition empty_collection : Mongo.Collection := Mongo.mkCollection [] [].

(** Parameter bags. *)
Definition location_bag : gmap string (list string) :=
  <["location" := ["Yangon"]]> ∅.

Definition paging_bag : gmap string (list string) :=
  <["page" := ["3"]]> (<["limit" := ["500"]]> ∅).

Definition negative_bag : gmap string (list string) :=
  <["page" := ["-1"]]> (<["limit" := ["-5"]]> ∅).

Definition bogus_status_bag : gmap string (list string) :=
  <["status" := ["bogus"]]> ∅.

Definition empty_values_bag : gmap string (list string) :=
  <["vehicle_id" := [""]]> (<["status" := [""]]> ∅).

Definition limit_bag : gmap string (list string) :=
  <["limit" := ["5"]]> ∅.

Definition plain_repository : TrackingRepository Mongo.Collection :=
  MongoTackingRepository plain_driver.

Definition plain_service : TrackingService Mongo.Collection :=
  @MongoTrackingService _ plain_repository spec_methods plain_numerics.

Definition one_document : Mongo.Collection :=
  Mongo.mkCollection
    [mkTrackingData (replicate 12 1%N) (replicate 12 2%N) "Location 1"
       (S754_finite false 5 0) "active" "full" 0] [].
End Fixtures.


(** ** Reading the outcome of a handled delivery *)
Module Ingestion.
Import Services App.

(** The goroutine of the delivery made the positive acknowledgment. *)
Definition acked {S} (h : Handled S) : bool :=
  match calls (trace h) with
  | [Ack _ _] => true
  | _ => false
  end.

(** The body of the delivery does not decode. *)
Definition undecodable (b : Broker) (msg : Delivery) : bool :=
  match Unmarshal_request b (Body msg) with
  | Fail _ => true
  | _ => false
  end.
End Ingestion.


(** ** app: construction, startup and shutdown *)
Module Lifecycle.
Import App.

(** Modelled from the spec: [config.EnvConfig] is not part of the sources;
    the configuration the core consumes is the database connection
    string, the broker connection string and the two queue names; [Run]
    reads the host and the port of the server as well.  The outbound
    queue name is the field of [App.EnvConfig]. *)
Record RunConfig : Type := mkRunConfig {
  consumer_config : EnvConfig;
  DatabaseURL : string;
  RabbitmqUrl : string;
  TrackingQueue : string;
  Host : string;
  Port : string
}.

(** The errors that reach the shutdown channel: the package's own
    [ErrConfigMissing], or an error of a library. *)
Inductive appError : Type :=
  | ErrConfigMissing
  | LibraryError (e : error).

(** A channel of errors: the values buffered (a nil error is [None]) and
    whether it was closed. *)
Record Chan : Type := mkChan {
  buffer : list (option appError);
  closed : bool
}.

(** [make(chan error, 1)]. *)
Definition make_chan : Chan := mkChan [] false.

Definition capacity : nat := 1.

(** A channel operation is done, blocks, or panics. *)
Inductive chanStep (A : Type) : Type :=
  | Done (a : A)
  | Blocks
  | Panics.
Arguments Done {A} a.
Arguments Blocks {A}.
Arguments Panics {A}.

(** [c <- v] with no receiver waiting: a send on a closed channel panics,
    a send on a full buffer blocks. *)
Definition send (c : Chan) (v : option appError) : chanStep Chan :=
  if closed c then Panics
  else if Nat.ltb (length (buffer c)) capacity
       then Done (mkChan (buffer c ++ [v]) false)
       else Blocks.

(** [<-c]: the oldest buffered value; on an empty channel the zero value
    when it is closed, and otherwise the receive blocks. *)
Definition recv (c : Chan) : chanStep (option appError * Chan) :=
  match buffer c with
  | v :: rest => Done (v, mkChan rest (closed c))
  | [] => if closed c then Done (None, c) else Blocks
  end.

(** [close(c)]: closing a closed channel panics. *)
Definition close (c : Chan) : chanStep Chan :=
  if closed c then Panics else Done (mkChan (buffer c) true).

(** The fields of [App]; a connection is known by the address it was
    opened to.  The exit channel belongs to the goroutine of [NewApp]. *)
Record AppState : Type := mkApp {
  validator : option unit;
  cfg : option RunConfig;
  db : option string;
  rabbitConn : option string;
  shutdown : Chan
}.

(** [NewApp]: only the shutdown channel is set. *)
Definition NewApp : AppState := mkApp None None None None make_chan.

Definition SetValidator (v : unit) (a : AppState) : AppState :=
  mkApp (Some v) (cfg a) (db a) (rabbitConn a) (shutdown a).

Definition SetConfig (c : RunConfig) (a : AppState) : AppState :=
  mkApp (validator a) (Some c) (db a) (rabbitConn a) (shutdown a).

Definition set_db (d : option string) (a : AppState) : AppState :=
  mkApp (validator a) (cfg a) d (rabbitConn a) (shutdown a).

Definition set_rabbitConn (r : option string) (a : AppState) : AppState :=
  mkApp (validator a) (cfg a) (db a) r (shutdown a).

Definition set_shutdown (c : Chan) (a : AppState) : AppState :=
  mkApp (validator a) (cfg a) (db a) (rabbitConn a) c.

(** What the libraries answer during startup and shutdown ([None] is
    success), and whether an error is [http.ErrServerClosed]. *)
Record Platform : Type := mkPlatform {
  Connect_result : string -> option error;
  Channel_result : string -> option error;
  QueueDeclare_result : string -> option error;
  Consume_result : string -> option error;
  Disconnect_result : string -> option error;
  Close_result : string -> option error;
  IsServerClosed : error -> bool
}.

(** The library calls of [Run], with the arguments the code passes. *)
Inductive RunCall : Type :=
  | CallConnect (uri : string)
  | CallNewRabbitConnection (url : string)
  | CallChannel
  | CallQueueDeclare (name : string) (durable autoDelete exclusive noWait : bool)
  | CallConsume (queue consumer : string)
      (autoAck exclusive noLocal noWait : bool).

(** The goroutines [Run] starts. *)
Inductive Goroutine : Type :=
  | GoConsume (queue : string) (c : EnvConfig)
  | GoListenAndServe (addr : string).

Inductive status : Type :=
  | Returned
  | Blocked
  | Panicked.

Record RunResult : Type := mkRunResult {
  run_status : status;
  run_app : AppState;
  run_calls : list RunCall;
  run_started : list Goroutine
}.

(** [a.shutdown <- err; return]. *)
Definition report (err : appError) (a : AppState) (calls : list RunCall)
  : RunResult :=
  match send (shutdown a) (Some err) with
  | Done c => mkRunResult Returned (set_shutdown c a) calls []
  | Blocks => mkRunResult Blocked a calls []
  | Panics => mkRunResult Panicked a calls []
  end.

(** [App.Run].  [mongo.Connect] leaves a nil client on error;
    [common.NewRabbitConnection] always leaves a connection. *)
Definition Run (pf : Platform) (a : AppState) : RunResult :=
  match cfg a with
  | None => report ErrConfigMissing a []
  | Some c =>
      let calls := [CallConnect (DatabaseURL c)] in
      match Connect_result pf (DatabaseURL c) with
      | Some err => report (LibraryError err) (set_db None a) calls
      | None =>
          let a := set_db (Some (DatabaseURL c)) a in
          let a := set_rabbitConn (Some (RabbitmqUrl c)) a in
          let calls := calls ++ [CallNewRabbitConnection (RabbitmqUrl c);
                                 CallChannel] in
          match Channel_result pf (RabbitmqUrl c) with
          | Some err => report (LibraryError err) a calls
          | None =>
              let calls :=
                calls ++ [CallQueueDeclare (TrackingQueue c)
                            true false false false] in
              match QueueDeclare_result pf (TrackingQueue c) with
              | Some err => report (LibraryError err) a calls
              | None =>
                  let calls :=
                    calls ++ [CallConsume (TrackingQueue c) ""
                                false false false false] in
                  match Consume_result pf (TrackingQueue c) with
                  | Some err => report (LibraryError err) a calls
                  | None =>
                      mkRunResult Returned a calls
                        [GoConsume (TrackingQueue c) (consumer_config c);
                         GoListenAndServe (Host c ++ ":" ++ Port c)%string]
                  end
              end
          end
      end
  end.

(** The goroutine of the server, when [http.ListenAndServe] returns
    [err]: the error is sent unless it is [http.ErrServerClosed]. *)
Definition server_exit (pf : Platform) (err : error) (a : AppState)
  : chanStep AppState :=
  if IsServerClosed pf err then Done a
  else match send (shutdown a) (Some (LibraryError err)) with
       | Done c => Done (set_shutdown c a)
       | Blocks => Blocks
       | Panics => Panics
       end.

(** The goroutine of [NewApp], when a termination signal arrives: a nil
    error is sent. *)
Definition on_signal (a : AppState) : chanStep AppState :=
  match send (shutdown a) None with
  | Done c => Done (set_shutdown c a)
  | Blocks => Blocks
  | Panics => Panics
  end.

(** The calls of the deferred functions of [Shutdown]. *)
Inductive ShutdownCall : Type :=
  | CallClose (conn : string)
  | CallDisconnect (client : string).

Inductive ShutdownLog : Type :=
  | LogCloseFailed (err : error)
  | LogDisconnectFailed (err : error).

Record ShutdownResult : Type := mkShutdownResult {
  sd_status : status;
  sd_error : option appError;
  sd_calls : list ShutdownCall;
  sd_logs : list ShutdownLog;
  sd_app : AppState
}.

Definition close_rabbit (pf : Platform) (conn : option string)
  : list ShutdownCall * list ShutdownLog :=
  match conn with
  | None => ([], [])
  | Some url =>
      match Close_result pf url with
      | Some err => ([CallClose url], [LogCloseFailed err])
      | None => ([CallClose url], [])
      end
  end.

Definition disconnect_db (pf : Platform) (client : option string)
  : list ShutdownCall * list ShutdownLog :=
  match client with
  | None => ([], [])
  | Some uri =>
      match Disconnect_result pf uri with
      | Some err => ([CallDisconnect uri], [LogDisconnectFailed err])
      | None => ([CallDisconnect uri], [])
      end
  end.

(** [App.Shutdown]: the receive, then the deferred functions in reverse
    order of their registration: the broker connection, the database
    client, the close of the channel.  The client and the connection are
    those the app held when [Shutdown] was entered. *)
Definition Shutdown (pf : Platform) (a : AppState) : ShutdownResult :=
  match recv (shutdown a) with
  | Blocks => mkShutdownResult Blocked None [] [] a
  | Panics => mkShutdownResult Panicked None [] [] a
  | Done (v, c) =>
      let '(calls1, logs1) := close_rabbit pf (rabbitConn a) in
      let '(calls2, logs2) := disconnect_db pf (db a) in
      match close c with
      | Done c' =>
          mkShutdownResult Returned v (calls1 ++ calls2) (logs1 ++ logs2)
            (set_shutdown c' a)
      | _ =>
          mkShutdownResult Panicked v (calls1 ++ calls2) (logs1 ++ logs2)
            (set_shutdown c a)
      end
  end.

(** The library calls of a startup that goes all the way. *)
Definition full_startup (c : RunConfig) : list RunCall :=
  [CallConnect (DatabaseURL c);
   CallNewRabbitConnection (RabbitmqUrl c);
   CallChannel;
   CallQueueDeclare (TrackingQueue c) true false false false;
   CallConsume (TrackingQueue c) "" false false false false].

(** The releases of an app: the broker connection first, then the
    database client, each when the app holds one. *)
Definition releases (a : AppState) : list ShutdownCall :=
  match rabbitConn a with Some url => [CallClose url] | None => [] end ++
  match db a with Some uri => [CallDisconnect uri] | None => [] end.

(** A platform on which everything succeeds, one whose broker refuses the
    channel, and a configuration. *)
Definition good_platform : Platform :=
  mkPlatform (fun _ => None) (fun _ => None) (fun _ => None) (fun _ => None)
    (fun _ => None) (fun _ => None)
    (fun e => match e with
              | ErrExternal "http: Server closed" => true
              | _ => false
              end).


Definition sample_config : RunConfig :=
  mkRunConfig (mkEnvConfig "vehicle") "mongodb://db" "amqp://broker"
    "tracking" "0.0.0.0" "10002".
End Lifecycle.


(** ** More concrete collaborators, for closed examples *)
Module MoreFixtures.
Import Primitive Models Repositories Json Services Fixtures.

(** A database whose find always fails. *)
Definition failing_driver : Mongo.Driver :=
  Mongo.mkDriver
    (fun d => Ok d)
    (fun c _ => Ok (replicate 12 (N.of_nat (S (length (Mongo.docs c))))))
    (fun _ _ _ => Fail (ErrExternal "server selection timeout")).

Definition vehicle_bag : gmap string (list string) :=
  <["vehicle_id" := ["1735cc0f1af72af5f7cdcdee"]]> ∅.

Definition capital_status_bag : gmap string (list string) :=
  <["Status" := ["sold"]]> ∅.

(** The bytes of [?location=Y%FFn]: the second byte starts no valid
    UTF-8 encoding. *)
Definition broken_location : string :=
  String "Y" (String (ascii_of_N 0xFF) (String "n" EmptyString)).

Definition carried_bag : gmap string (list string) :=
  <["location" := [broken_location; "Mandalay"]]>
    (<["Location" := ["Bago"]]> (<["limit" := ["0"]]> ∅)).

(** The entries of [paging_bag], limit first and page first. *)
Definition limit_first : list (string * list string) :=
  [("limit", ["500"]); ("page", ["3"])].

Definition page_first : list (string * list string) :=
  [("page", ["3"]); ("limit", ["500"])].

(** A schedule of three deliveries: one that does not decode, a valid
    one, and one the service rejects. *)
Definition mixed_schedule : list App.Delivery :=
  [App.mkDelivery [] 3; App.mkDelivery [Byte.x7b] 7;
   App.mkDelivery [Byte.x7b; Byte.x7d] 4].

Definition wildcard_bag : gmap string (list string) :=
  <["location" := [".*"]]> ∅.

Definition large_page_bag : gmap string (list string) :=
  <["page" := ["4611686018427387905"]]> (<["limit" := ["3"]]> ∅).

Definition second_page : TrackingFilter :=
  mkFilter 2 5 "" "" "" "" (S754_zero false) "" "" NilObjectID.

Definition failing_service : TrackingService Mongo.Collection :=
  @MongoTrackingService _ (MongoTackingRepository failing_driver)
    spec_methods plain_numerics.
End MoreFixtures.


(** * Properties *)

(** ** The ingestion consumer *)
Section ConsumerProperties.
Import Services App.
Context {S : Type} `{TrackingService S}.
Variable cfg : EnvConfig.
Variable b : Broker.

Lemma calls_log_then l t : calls (log_then l t) = calls t.
Proof. reflexivity. Qed.

Lemma calls_nack msg : calls (nack b msg) = [Nack (DeliveryTag msg) false false].
Proof. unfold nack. destruct (Nack_result b _ _ _); reflexivity. Qed.

Lemma calls_ack msg : calls (ack b msg) = [Ack (DeliveryTag msg) false].
Proof. unfold ack. destruct (Ack_result b _ _); reflexivity. Qed.

Lemma calls_run_publish t :
  calls (run_publish cfg b t) =
  [PublishWithContext "" (VehicleQueue cfg) false false
     (mkPublishing ApplicationJSON (task_body t))].
Proof. unfold run_publish. destruct (Publish_result b _ _); reflexivity. Qed.

(** The goroutine of a delivery whose body decodes and whose track call
    succeeds. *)
Lemma handle_success (msg : Delivery) (s s' : S) (req : TrackingDataRequest) :
  Unmarshal_request b (Body msg) = Ok req ->
  svc_TrackVehicle req s = (Ok tt, s') ->
  spawned (handle b msg s) = [mkPublishTask (Body msg)] /\
  Forall (fun t => calls (run_publish cfg b t) =
                   [PublishWithContext "" (VehicleQueue cfg) false false
                      (mkPublishing "application/json" (Body msg))])
         (spawned (handle b msg s)) /\
  calls (trace (handle b msg s)) = [Ack (DeliveryTag msg) false].
Proof.
  intros Hdec Htrack. unfold handle. rewrite Hdec, Htrack. cbn [spawned trace].
  repeat split.
  - constructor; [apply calls_run_publish | constructor].
  - rewrite calls_log_then. apply calls_ack.
Qed.

(** The goroutine of a delivery whose body does not decode, and of one
    whose track call returns an error. *)
Lemma handle_failure (msg : Delivery) (s : S) :
  (forall err, Unmarshal_request b (Body msg) = Fail err ->
     calls (trace (handle b msg s)) = [Nack (DeliveryTag msg) false false] /\
     spawned (handle b msg s) = [] /\
     track_calls (handle b msg s) = [] /\
     state (handle b msg s) = s) /\
  (forall req err s',
     Unmarshal_request b (Body msg) = Ok req ->
     svc_TrackVehicle req s = (Fail err, s') ->
     calls (trace (handle b msg s)) = [Nack (DeliveryTag msg) false false] /\
     spawned (handle b msg s) = []).
Proof.
  split.
  - intros err Hdec. unfold handle. rewrite Hdec. cbn.
    rewrite calls_nack. auto.
  - intros req err s' Hdec Htrack. unfold handle. rewrite Hdec, Htrack. cbn.
    rewrite calls_nack. auto.
Qed.

Lemma Consume_cons (msg : Delivery) (rest : list Delivery) (s : S) :
  (Consume b (msg :: rest) s).1 =
    (msg, handle b msg s) :: (Consume b rest (state (handle b msg s))).1 /\
  (Consume b (msg :: rest) s).2 =
    (Consume b rest (state (handle b msg s))).2.
Proof.
  cbn [Consume].
  destruct (Consume b rest (state (handle b msg s))) as [hs s'].
  split; reflexivity.
Qed.

(** [Consume] starts one goroutine for every delivery of the schedule, in
    the order of the schedule. *)
Lemma Consume_deliveries (schedule : list Delivery) (s : S) :
  (Consume b schedule s).1.*1 = schedule.
Proof.
  revert s. induction schedule as [|msg rest IH]; intros s; [reflexivity|].
  rewrite (proj1 (Consume_cons msg rest s)). cbn [fmap list_fmap fst].
  rewrite IH. reflexivity.
Qed.

(** The goroutine of the i-th delivery runs [handle] on the state the
    service is in after the deliveries scheduled before it, and leaves the
    state in which the next one finds the service. *)
Lemma Consume_lookup (schedule : list Delivery) (s : S) (i : nat)
    (msg : Delivery) :
  schedule !! i = Some msg ->
  (Consume b schedule s).1 !! i =
    Some (msg, handle b msg (Consume b (take i schedule) s).2) /\
  (Consume b (take (Datatypes.S i) schedule) s).2 =
    state (handle b msg (Consume b (take i schedule) s).2).
Proof.
  revert s i. induction schedule as [|m rest IH]; intros s i Hi;
    [discriminate|].
  destruct i as [|i].
  - injection Hi as ->. rewrite (proj1 (Consume_cons msg rest s)).
    split; reflexivity.
  - cbn [lookup list_lookup] in Hi.
    rewrite (proj1 (Consume_cons m rest s)).
    change (take (Datatypes.S (Datatypes.S i)) (m :: rest))
      with (m :: take (Datatypes.S i) rest).
    change (take (Datatypes.S i) (m :: rest)) with (m :: take i rest).
    rewrite !(proj2 (Consume_cons m _ s)).
    exact (IH (state (handle b m s)) i Hi).
Qed.

(** C1. [Consume] starts a goroutine for every delivery of the schedule.
    For every delivery of the schedule whose body decodes and whose track
    call succeeds, in the state the service is in when the delivery
    reaches it, that goroutine starts exactly one republishing goroutine,
    which publishes the body of the delivery, unchanged, to the vehicle
    queue with content type application/json; and the only broker call of
    the delivery's goroutine is the positive acknowledgment of the
    delivery.  The broker [b], hence the answer to the publish, is
    arbitrary. *)
Theorem consume_success_republishes_and_acks (schedule : list Delivery)
    (s s' : S) (i : nat) (msg : Delivery) (req : TrackingDataRequest) :
  schedule !! i = Some msg ->
  Unmarshal_request b (Body msg) = Ok req ->
  svc_TrackVehicle req (Consume b (take i schedule) s).2 = (Ok tt, s') ->
  (Consume b schedule s).1.*1 = schedule /\
  exists h,
    (Consume b schedule s).1 !! i = Some (msg, h) /\
    spawned h = [mkPublishTask (Body msg)] /\
    Forall (fun t => calls (run_publish cfg b t) =
                     [PublishWithContext "" (VehicleQueue cfg) false false
                        (mkPublishing "application/json" (Body msg))])
           (spawned h) /\
    calls (trace h) = [Ack (DeliveryTag msg) false] /\
    (Consume b (take (Datatypes.S i) schedule) s).2 = s'.
Proof.
  intros Hi Hdec Htrack. split; [apply Consume_deliveries|].
  destruct (Consume_lookup schedule s i msg Hi) as [Hlook Hstate].
  exists (handle b msg (Consume b (take i schedule) s).2).
  split; [exact Hlook|].
  destruct (handle_success msg _ s' req Hdec Htrack) as (Hsp & Hpub & Hack).
  split; [exact Hsp|]. split; [exact Hpub|]. split; [exact Hack|].
  rewrite Hstate. unfold handle. rewrite Hdec, Htrack. reflexivity.
Qed.

(** C2. [Consume] starts a goroutine for every delivery of the schedule.
    A delivery of the schedule whose body does not decode, and one whose
    track call returns an error, is answered with Nack (multiple = false,
    requeue = false) and nothing else: no Ack, no republishing goroutine.
    When the body does not decode the service is not called, and the
    state in which the next delivery finds the service is the one before
    this delivery. *)
Theorem consume_failure_nacks_without_requeue (schedule : list Delivery)
    (s : S) (i : nat) (msg : Delivery) :
  schedule !! i = Some msg ->
  (Consume b schedule s).1.*1 = schedule /\
  (forall err, Unmarshal_request b (Body msg) = Fail err ->
     exists h,
       (Consume b schedule s).1 !! i = Some (msg, h) /\
       calls (trace h) = [Nack (DeliveryTag msg) false false] /\
       spawned h = [] /\
       track_calls h = [] /\
       (Consume b (take (Datatypes.S i) schedule) s).2 =
         (Consume b (take i schedule) s).2) /\
  (forall req err s',
     Unmarshal_request b (Body msg) = Ok req ->
     svc_TrackVehicle req (Consume b (take i schedule) s).2 = (Fail err, s') ->
     exists h,
       (Consume b schedule s).1 !! i = Some (msg, h) /\
       calls (trace h) = [Nack (DeliveryTag msg) false false] /\
       spawned h = []).
Proof.
  intros Hi. split; [apply Consume_deliveries|].
  destruct (Consume_lookup schedule s i msg Hi) as [Hlook Hstate].
  destruct (handle_failure msg (Consume b (take i schedule) s).2)
    as [Hdecode Htrack].
  split.
  - intros err Hdec. destruct (Hdecode err Hdec) as (Hc & Hsp & Htc & Hst).
    exists (handle b msg (Consume b (take i schedule) s).2).
    rewrite Hstate, Hst. auto.
  - intros req err s' Hdec Ht. destruct (Htrack req err s' Hdec Ht) as [Hc Hsp].
    exists (handle b msg (Consume b (take i schedule) s).2). auto.
Qed.

End ConsumerProperties.

(** ** The domain service: track *)
Section TrackProperties.
Import Services.
Context {R : Type} `{TrackingRepository R}.
Variable rm : RequestMethods.

(** C8. A submission that [Validate] rejects makes [TrackVehicle] return
    the validation error with the state of the repository, whatever it
    records, exactly as before: the repository's create is not reached.
    The same holds for a submission that passes [Validate] and is refused
    by [ToTrackingData]. *)
Theorem track_invalid_leaves_store (req : TrackingDataRequest) (r : R)
    (err : error) :
  (Validate rm req = Some err -> TrackVehicle rm req r = (Fail err, r)) /\
  (Validate rm req = None -> ToTrackingData rm req = Fail err ->
   TrackVehicle rm req r = (Fail err, r)).
Proof.
  unfold TrackVehicle. split.
  - intros Hv. rewrite Hv. reflexivity.
  - intros Hv Ht. rewrite Hv, Ht. reflexivity.
Qed.

(** [TrackVehicle] reaches the repository only with a submission that
    passed both. *)
Lemma track_reaches_repository (req : TrackingDataRequest) (r r' : R)
    (o : outcome unit) :
  TrackVehicle rm req r = (o, r') -> r' <> r ->
  Validate rm req = None /\ exists d, ToTrackingData rm req = Ok d.
Proof.
  unfold TrackVehicle. intros Ht Hne.
  destruct (Validate rm req); [injection Ht as _ Hr; congruence|].
  split; [reflexivity|].
  destruct (ToTrackingData rm req) as [d| |];
    [eauto | injection Ht as _ Hr; congruence..].
Qed.
End TrackProperties.

(** With the Mongo repository a rejected record never reaches the
    collection either: [models.TrackingData.Build] runs before the
    insert. *)
Lemma create_unbuilt_leaves_collection (drv : Mongo.Driver)
    (d : Models.TrackingData) (c : Mongo.Collection) (err : error) :
  Mongo.TrackingData_Build drv d = Fail err ->
  Mongo.CreateTrackingData drv d c = (Fail err, c).
Proof. intros Hb. unfold Mongo.CreateTrackingData. rewrite Hb. reflexivity. Qed.

(** ** The query endpoint *)
Section EndpointProperties.
Import Handler.
Context {S : Type} `{TrackingService S}.
Variable encode_result : Envelope -> option error.

(** C9. The endpoint answers 405 when the method is not GET; for a GET it
    answers 400 with the error when the service returns one, 404 when the
    service returns an empty list, and 200 when the list is not empty, the
    success envelope of the list and the message being what is encoded
    (and written, unless the encoder itself fails, which is logged). *)
Theorem endpoint_status_codes (r : Request) (s : S) :
  (Method r <> "GET" ->
     FindTrackingData encode_result r s =
       (Ok (mkResponse 405 (Some (ErrorEnvelope ErrMethodNotAllowed)), []), s)) /\
  (Method r = "GET" ->
     (forall err s', svc_FindTrackingData (Query r) s = (Fail err, s') ->
        FindTrackingData encode_result r s =
          (Ok (mkResponse 400 (Some (ErrorEnvelope err)), []), s')) /\
     (forall s', svc_FindTrackingData (Query r) s = (Ok [], s') ->
        FindTrackingData encode_result r s =
          (Ok (mkResponse 404 (Some (ErrorEnvelope ErrNotFound)), []), s')) /\
     (forall vehicles s',
        svc_FindTrackingData (Query r) s = (Ok vehicles, s') ->
        vehicles <> [] ->
        exists resp logs,
          FindTrackingData encode_result r s = (Ok (resp, logs), s') /\
          StatusCode resp = 200%Z /\
          match encode_result
                  (SuccessEnvelope vehicles "successfully fetched tracking data") with
          | None =>
              Written resp =
                Some (SuccessEnvelope vehicles "successfully fetched tracking data")
              /\ logs = []
          | Some e => Written resp = None /\ logs = [LogEncodeFailed e]
          end)).
Proof.
  unfold FindTrackingData, MethodGet. split.
  - intros Hm. apply String.eqb_neq in Hm. rewrite Hm. reflexivity.
  - intros Hm. apply String.eqb_eq in Hm. rewrite Hm. cbn [negb].
    split; [|split].
    + intros err s' Hs. rewrite Hs. reflexivity.
    + intros s' Hs. rewrite Hs. reflexivity.
    + intros vehicles s' Hs Hne. rewrite Hs.
      destruct vehicles as [|v vs]; [congruence|]. cbn [length Nat.eqb].
      unfold Encode, DefaultSuccessResponse.
      destruct (encode_result _) as [e|]; eexists _, _; cbn; eauto.
Qed.
End EndpointProperties.

(** ** The filter's Build *)
Section BuildProperties.
Import Primitive Models Repositories.

Ltac build_defaults_cases t :=
  destruct t; unfold Build_defaults; cbn;
  repeat (match goal with
          | |- context [if ?c then _ else _] =>
              lazymatch c with
              | context [if _ then _ else _] => fail
              | _ => destruct c eqn:?
              end
          end; cbn in *);
  auto 10; congruence.

Lemma Build_defaults_Page t :
  Page (Build_defaults t) = if (Page t =? 0)%Z then 1%Z else Page t.
Proof. build_defaults_cases t. Qed.

Lemma Build_defaults_PageSize t :
  PageSize (Build_defaults t) =
  let n := if (PageSize t =? 0)%Z then 10%Z else PageSize t in
  if (100 <? n)%Z then 100%Z else n.
Proof. build_defaults_cases t. Qed.

Lemma Build_defaults_SortField t :
  SortField (Build_defaults t) =
  if String.eqb (SortField t) "" then "created_at" else SortField t.
Proof. build_defaults_cases t. Qed.

Lemma Build_defaults_SortOrder t :
  SortOrder (Build_defaults t) =
  if String.eqb (SortOrder t) "" then "asc" else SortOrder t.
Proof. build_defaults_cases t. Qed.

Lemma Build_defaults_rest t :
  VehicleID (Build_defaults t) = VehicleID t /\
  Location (Build_defaults t) = Location t /\
  Mileage (Build_defaults t) = Mileage t /\
  Status (Build_defaults t) = Status t /\
  FuelCondition (Build_defaults t) = FuelCondition t /\
  vehicleID (Build_defaults t) = vehicleID t.
Proof. build_defaults_cases t. Qed.

(** What a successful [Build] leaves in the filter. *)
Lemma Build_ok t t' :
  Build t = (t', None) ->
  Page t' = Page (Build_defaults t) /\
  PageSize t' = PageSize (Build_defaults t) /\
  SortField t' = SortField (Build_defaults t) /\
  SortOrder t' = SortOrder (Build_defaults t) /\
  VehicleID t' = VehicleID t /\
  Location t' = Location t /\
  Mileage t' = Mileage t /\
  Status t' = Status t /\
  FuelCondition t' = FuelCondition t /\
  (VehicleID t <> "" -> ObjectIDFromHex (VehicleID t) = Some (vehicleID t')) /\
  (Status t <> "" -> Status t ∈ VehicleStatuses) /\
  (FuelCondition t <> "" -> FuelCondition t ∈ FuelConditions).
Proof.
  unfold Build.
  destruct (Build_defaults_rest t) as (Hv & Hl & Hm & Hs & Hf & Hid).
  set (d := Build_defaults t) in *. clearbody d.
  destruct (String.eqb_spec (VehicleID d) "") as [Ev|Ev]; cbn [negb].
  - destruct (String.eqb_spec (Status d) "") as [Es|Es]; cbn [negb];
      [|unfold VehicleStatus_Valid; case_bool_decide; [|discriminate]];
      (destruct (String.eqb_spec (FuelCondition d) "") as [Ef|Ef]; cbn [negb];
       [|unfold FuelCondition_Valid; case_bool_decide; [|discriminate]]);
      intros [= <-]; repeat split; try congruence.
  - destruct (ObjectIDFromHex (VehicleID d)) as [id|] eqn:Eid; [|discriminate].
    cbn [Status FuelCondition set_vehicleID].
    destruct (String.eqb_spec (Status d) "") as [Es|Es]; cbn [negb];
      [|unfold VehicleStatus_Valid; case_bool_decide; [|discriminate]];
      (destruct (String.eqb_spec (FuelCondition d) "") as [Ef|Ef]; cbn [negb];
       [|unfold FuelCondition_Valid; case_bool_decide; [|discriminate]]);
      intros [= <-]; cbn; repeat split; try congruence.
Qed.

(** When [Build] fails: the reasons. *)
Lemma Build_fails_iff t :
  (exists t' err, Build t = (t', Some err)) <->
  (VehicleID t <> "" /\ ObjectIDFromHex (VehicleID t) = None) \/
  (Status t <> "" /\ Status t ∉ VehicleStatuses) \/
  (FuelCondition t <> "" /\ FuelCondition t ∉ FuelConditions).
Proof.
  unfold Build.
  destruct (Build_defaults_rest t) as (Hv & Hl & Hm & Hs & Hf & Hid).
  set (d := Build_defaults t) in *. clearbody d.
  rewrite <- Hv, <- Hs, <- Hf.
  destruct (String.eqb_spec (VehicleID d) "") as [Ev|Ev]; cbn [negb];
    [|destruct (ObjectIDFromHex (VehicleID d)) as [id|] eqn:Eid;
      cbn [Status FuelCondition set_vehicleID]];
    try (split; [intros _; left; split; congruence | eauto]);
    (destruct (String.eqb_spec (Status d) "") as [Es|Es]; cbn [negb];
     [|unfold VehicleStatus_Valid; case_bool_decide]);
    try (split; [intros _; right; left; split; congruence | eauto]);
    (destruct (String.eqb_spec (FuelCondition d) "") as [Ef|Ef]; cbn [negb];
     [|unfold FuelCondition_Valid; case_bool_decide]);
    try (split; [intros _; right; right; split; congruence | eauto]);
    (split; [intros (? & ? & [=]) | intros [[? ?]|[[? ?]|[? ?]]]; congruence]).
Qed.

(** The error of [Build] is decided by the vehicle id, the status and the
    fuel condition alone. *)
Lemma Build_error t :
  (Build t).2 =
  if negb (String.eqb (VehicleID t) "") &&
     negb (bool_decide (is_Some (ObjectIDFromHex (VehicleID t))))
  then Some ErrInvalidID
  else match (if negb (String.eqb (Status t) "")
              then VehicleStatus_Valid (Status t) else None) with
       | Some e => Some e
       | None => if negb (String.eqb (FuelCondition t) "")
                 then FuelCondition_Valid (FuelCondition t) else None
       end.
Proof.
  unfold Build.
  destruct (Build_defaults_rest t) as (Hv & Hl & Hm & Hs & Hf & Hid).
  set (d := Build_defaults t) in *. clearbody d.
  rewrite <- Hv, <- Hs, <- Hf.
  destruct (negb (String.eqb (VehicleID d) "")); cbn [andb].
  - destruct (ObjectIDFromHex (VehicleID d)) as [id|]; cbn; [|reflexivity].
    destruct (if negb (String.eqb (Status d) "")
              then VehicleStatus_Valid (Status d) else None); [reflexivity|].
    destruct (if negb (String.eqb (FuelCondition d) "")
              then FuelCondition_Valid (FuelCondition d) else None);
      reflexivity.
  - destruct (if negb (String.eqb (Status d) "")
              then VehicleStatus_Valid (Status d) else None); [reflexivity|].
    destruct (if negb (String.eqb (FuelCondition d) "")
              then FuelCondition_Valid (FuelCondition d) else None);
      reflexivity.
Qed.
End BuildProperties.

(** ** The event store: find *)
Section FindProperties.
Import Primitive Models Repositories Mongo.
Variable drv : Driver.

Lemma wrap_mul_sub (p n : Z) :
  GoInt.mul (GoInt.sub p 1) n = GoInt.wrap ((p - 1) * n).
Proof.
  unfold GoInt.mul, GoInt.sub, GoInt.wrap.
  f_equal. replace ((p - 1 + 2 ^ 63) mod 2 ^ 64 - 2 ^ 63)%Z
    with ((p - 1) - 2 ^ 64 * (((p - 1) + 2 ^ 63) / 2 ^ 64))%Z.
  2:{ rewrite (Z.mod_eq (p - 1 + 2 ^ 63) (2 ^ 64)) by lia. lia. }
  replace (((p - 1) - 2 ^ 64 * ((p - 1 + 2 ^ 63) / 2 ^ 64)) * n + 2 ^ 63)%Z
    with (((p - 1) * n + 2 ^ 63) + (- ((p - 1 + 2 ^ 63) / 2 ^ 64) * n) * 2 ^ 64)%Z
    by lia.
  apply Z.mod_add. lia.
Qed.

Lemma wrap_in_range (z : Z) :
  (GoInt.min_int <= z <= GoInt.max_int)%Z -> GoInt.wrap z = z.
Proof.
  unfold GoInt.min_int, GoInt.max_int, GoInt.wrap. intros Hz.
  rewrite Z.mod_small by lia. lia.
Qed.

Lemma QuoteMeta_literal (s : string) :
  regex_literal s = true -> QuoteMeta s = s.
Proof.
  unfold regex_literal. induction s as [|c rest IH]; [reflexivity|].
  cbn [list_ascii_of_string forallb QuoteMeta]. intros Hl.
  apply andb_prop in Hl. destruct Hl as [Hc Hrest].
  apply negb_true_iff in Hc. rewrite Hc, (IH Hrest). reflexivity.
Qed.

Lemma bsonMFilter_lookup_other (t : TrackingFilter) (k : string) :
  k ∉ ["vehicle_id"; "location"; "mileage"; "status"; "fuel_condition"] ->
  bsonMFilter t !! k = None.
Proof.
  intros Hk. unfold bsonMFilter.
  repeat match goal with |- context [if ?c then _ else _] => destruct c end;
    repeat (rewrite lookup_insert_ne by (intros <-; apply Hk; set_solver));
    apply lookup_empty.
Qed.

(** C7, amended. For a filter on which [Build] succeeds, find asks the
    collection exactly once, with the query document that has one entry
    for each present field and no other entry -- vehicle_id: the
    identifier decoded from the filter's hex string; location: the
    regular expression ^<location> with option i, the location put in as
    it is, which is the case-insensitive prefix match of the spec whenever
    the location holds no character with a meaning in a regular
    expression; mileage: $gte of the filter's mileage; status and
    fuel_condition: the filter's strings -- where present means a
    non-empty string or a non-zero mileage; it sorts on the built sort
    field, whatever its name; skip is (Page - 1) * PageSize of the built
    filter in Go's int arithmetic, which is the exact product whenever
    that fits the int range, and limit is the built PageSize. *)
Theorem find_predicate_sort_pagination (t t' : TrackingFilter) (c : Collection) :
  Build t = (t', None) ->
  let pred := bsonMFilter t' in
  let opts := findOptions t' in
  FindTrackingData drv (Some t) c =
    (Find_result drv c pred opts,
     mkCollection (docs c) (ops c ++ [OpFind pred opts])) /\
  pred !! "vehicle_id" =
    (if bool_decide (VehicleID t = "") then None
     else BObjectID <$> ObjectIDFromHex (VehicleID t)) /\
  pred !! "location" =
    (if bool_decide (Location t = "") then None
     else Some (BDoc (<["$regex" := BString ("^" ++ Location t)%string]>
                       (<["$options" := BString "i"]> ∅)))) /\
  (Location t <> "" -> regex_literal (Location t) = true ->
   pred !! "location" = Some (spec_location_prefix_match (Location t))) /\
  pred !! "mileage" =
    (if float_nonzero (Mileage t)
     then Some (BDoc (<["$gte" := BDouble (Mileage t)]> ∅)) else None) /\
  pred !! "status" =
    (if bool_decide (Status t = "") then None else Some (BString (Status t))) /\
  pred !! "fuel_condition" =
    (if bool_decide (FuelCondition t = "") then None
     else Some (BString (FuelCondition t))) /\
  (forall k,
     k ∉ ["vehicle_id"; "location"; "mileage"; "status"; "fuel_condition"] ->
     pred !! k = None) /\
  Sort opts =
    Some [(if bool_decide (SortField t = "") then "created_at" else SortField t,
           sort_direction t')] /\
  Skip opts = Some (GoInt.wrap ((Page t' - 1) * PageSize t')) /\
  ((GoInt.min_int <= (Page t' - 1) * PageSize t' <= GoInt.max_int)%Z ->
   Skip opts = Some ((Page t' - 1) * PageSize t')%Z) /\
  Limit opts = Some (PageSize t') /\
  Page t' = (if bool_decide (Page t = 0%Z) then 1%Z else Page t) /\
  PageSize t' =
    (if bool_decide (PageSize t = 0%Z) then 10%Z
     else if bool_decide (100 < PageSize t)%Z then 100%Z else PageSize t).
Proof.
  intros HB pred opts.
  destruct (Build_ok _ _ HB)
    as (HP & HPS & HSF & HSO & HV & HL & HM & HS & HF & Hid & _ & _).
  split; [unfold FindTrackingData; rewrite HB; reflexivity|].
  subst pred opts. unfold bsonMFilter, VehicleObjID.
  rewrite HV, HL, HM, HS, HF.
  assert (Hv : (if bool_decide (VehicleID t = "") then None
                else BObjectID <$> ObjectIDFromHex (VehicleID t)) =
               (if negb (String.eqb (VehicleID t) "")
                then Some (BObjectID (vehicleID t')) else None)).
  { case_bool_decide as E.
    - rewrite E. reflexivity.
    - rewrite (Hid E). apply String.eqb_neq in E. rewrite E. reflexivity. }
  rewrite Hv. clear Hv Hid.
  assert (Heqb : forall s : string,
            bool_decide (s = "") = String.eqb s "").
  { intros s. case_bool_decide as E.
    - rewrite E. reflexivity.
    - apply String.eqb_neq in E. rewrite E. reflexivity. }
  rewrite !Heqb.
  assert (Hloc :
    (let m : gmap string bsonValue := ∅ in
     let m := if negb (String.eqb (VehicleID t) "")
              then <["vehicle_id" := BObjectID (vehicleID t')]> m else m in
     let m := if negb (String.eqb (Location t) "")
              then <["location" :=
                       BDoc (<["$regex" := BString ("^" ++ Location t)%string]>
                             (<["$options" := BString "i"]> ∅))]> m
              else m in
     let m := if float_nonzero (Mileage t)
              then <["mileage" := BDoc (<["$gte" := BDouble (Mileage t)]> ∅)]> m
              else m in
     let m := if negb (String.eqb (Status t) "")
              then <["status" := BString (Status t)]> m else m in
     let m := if negb (String.eqb (FuelCondition t) "")
              then <["fuel_condition" := BString (FuelCondition t)]> m
              else m in
     m) !! "location" =
    (if String.eqb (Location t) "" then None
     else Some (BDoc (<["$regex" := BString ("^" ++ Location t)%string]>
                       (<["$options" := BString "i"]> ∅))))).
  { cbv zeta.
    destruct (String.eqb (VehicleID t) ""), (String.eqb (Location t) ""),
      (float_nonzero (Mileage t)), (String.eqb (Status t) ""),
      (String.eqb (FuelCondition t) ""); cbn [negb];
      repeat (rewrite lookup_insert_ne by discriminate);
      first [apply lookup_insert_eq | apply lookup_empty]. }
  split; [|split; [|split; [|split; [|split; [|split; [|split]]]]]].
  3:{ intros Hne Hlit. cbv zeta in Hloc |- *. rewrite Hloc.
      apply String.eqb_neq in Hne. rewrite Hne.
      unfold spec_location_prefix_match.
      rewrite (QuoteMeta_literal _ Hlit). reflexivity. }
  1-5: destruct (String.eqb (VehicleID t) ""), (String.eqb (Location t) ""),
         (float_nonzero (Mileage t)), (String.eqb (Status t) ""),
         (String.eqb (FuelCondition t) ""); cbn [negb];
       repeat (rewrite lookup_insert_ne by discriminate);
       first [apply lookup_insert_eq | apply lookup_empty].
  - intros k Hk. rewrite <- (bsonMFilter_lookup_other t' k Hk).
    unfold bsonMFilter, VehicleObjID. rewrite HV, HL, HM, HS, HF. reflexivity.
  - unfold findOptions. cbn [Skip Limit Sort SetSkip SetLimit].
    rewrite wrap_mul_sub.
    split; [|split; [|split; [|split; [|split]]]].
    + assert (HSF' := Build_defaults_SortField t). rewrite <- HSF in HSF'.
      destruct (String.eqb_spec (SortField t) "") as [E|E]; rewrite HSF'.
      * reflexivity.
      * apply String.eqb_neq in E. rewrite E. reflexivity.
    + reflexivity.
    + intros Hr. rewrite wrap_in_range by exact Hr. reflexivity.
    + reflexivity.
    + rewrite HP, Build_defaults_Page. case_bool_decide as E.
      * rewrite E. reflexivity.
      * apply Z.eqb_neq in E. rewrite E. reflexivity.
    + rewrite HPS, Build_defaults_PageSize. cbn zeta.
      case_bool_decide as E.
      * rewrite E. reflexivity.
      * apply Z.eqb_neq in E. rewrite E.
        case_bool_decide as E2.
        -- apply Z.ltb_lt in E2. rewrite E2. reflexivity.
        -- apply Z.ltb_nlt in E2. rewrite E2. reflexivity.
Qed.

(** C10. [Build] never looks at the sort order beyond defaulting the
    empty string: replacing the sort order of a filter by any string
    leaves the error of [Build] as it was.  On a built filter find sorts
    with direction -1 (descending) exactly when the sort order is the
    string desc, and with direction 1 (ascending) for every other
    string. *)
Theorem sort_order_never_validated (t : TrackingFilter) (c : Collection) :
  (forall order : string, (Build (set_SortOrder order t)).2 = (Build t).2) /\
  (forall t', Build t = (t', None) ->
     FindTrackingData drv (Some t) c =
       Find drv c (bsonMFilter t') (findOptions t') /\
     Sort (findOptions t') =
       Some [(SortField t',
              if bool_decide (SortOrder t' = "desc") then (-1)%Z else 1%Z)] /\
     (SortOrder t' = "desc" <-> SortOrder t = "desc")).
Proof.
  split.
  - intros order. rewrite !Build_error. reflexivity.
  - intros t' HB.
    destruct (Build_ok _ _ HB) as (_ & _ & HSF & HSO & _).
    split; [unfold FindTrackingData; rewrite HB; reflexivity|].
    split.
    + unfold findOptions, sort_direction. cbn [Sort SetSkip SetLimit].
      assert (Hne : String.eqb (SortField t') "" = false).
      { rewrite HSF, Build_defaults_SortField.
        destruct (String.eqb_spec (SortField t) "") as [E|E]; [reflexivity|].
        apply String.eqb_neq. exact E. }
      rewrite Hne. cbn. case_bool_decide as E.
      * rewrite E. reflexivity.
      * apply String.eqb_neq in E. rewrite E. reflexivity.
    + rewrite HSO, Build_defaults_SortOrder.
      destruct (String.eqb_spec (SortOrder t) "") as [E|E]; [|reflexivity].
      rewrite E. split; discriminate.
Qed.
End FindProperties.

(** ** Strings through the JSON text *)
Section Utf8Properties.
Import Primitive Models Json.

Lemma coerce_from_ascii (s : string) :
  is_ascii s = true -> coerce_from 0 s = s.
Proof.
  induction s as [|c rest IH]; [reflexivity|]. cbn [is_ascii coerce_from].
  intros Ha. apply andb_prop in Ha. destruct Ha as [Hc Hrest].
  unfold rune_width. rewrite Hc. cbn [Nat.pred]. rewrite (IH Hrest).
  reflexivity.
Qed.

Lemma coerce_ascii (s : string) : is_ascii s = true -> coerce_utf8 s = s.
Proof. apply coerce_from_ascii. Qed.

Lemma coerce_from_ascii_inv (n : nat) (s : string) :
  is_ascii (coerce_from n s) = true -> coerce_from n s = s.
Proof.
  revert n. induction s as [|c rest IH]; intros n; [reflexivity|].
  cbn [coerce_from]. destruct n as [|n].
  - destruct (rune_width c rest) as [w|].
    + cbn [is_ascii]. intros Ha. apply andb_prop in Ha.
      destruct Ha as [_ Hrest]. rewrite (IH _ Hrest). reflexivity.
    + cbn. discriminate.
  - cbn [is_ascii]. intros Ha. apply andb_prop in Ha.
    destruct Ha as [_ Hrest]. rewrite (IH _ Hrest). reflexivity.
Qed.

Lemma coerce_ascii_inv (s : string) :
  is_ascii (coerce_utf8 s) = true -> coerce_utf8 s = s.
Proof. apply coerce_from_ascii_inv. Qed.

(** A string that reads back as an ASCII string is that string. *)
Lemma coerce_eq_ascii (a s : string) :
  is_ascii a = true -> coerce_utf8 s = a <-> s = a.
Proof.
  intros Ha. split.
  - intros Hs. rewrite <- Hs in Ha. apply coerce_from_ascii_inv in Ha.
    unfold coerce_utf8 in Hs. congruence.
  - intros ->. apply coerce_ascii. exact Ha.
Qed.

Lemma coerce_empty (s : string) : coerce_utf8 s = "" <-> s = "".
Proof. apply (coerce_eq_ascii ""). reflexivity. Qed.

Lemma coerce_elem_of (l : list string) (s : string) :
  Forall (fun a => is_ascii a = true) l -> coerce_utf8 s ∈ l <-> s ∈ l.
Proof.
  intros Hl. rewrite Forall_forall in Hl. split; intros Hin.
  - assert (Hs : coerce_utf8 s = s)
      by (apply coerce_from_ascii_inv, Hl; exact Hin).
    rewrite Hs in Hin. exact Hin.
  - rewrite coerce_ascii by (apply Hl; exact Hin). exact Hin.
Qed.

Lemma VehicleStatuses_ascii :
  Forall (fun a => is_ascii a = true) VehicleStatuses.
Proof. repeat constructor. Qed.

Lemma FuelConditions_ascii :
  Forall (fun a => is_ascii a = true) FuelConditions.
Proof. repeat constructor. Qed.

Lemma lower_ascii_byte_in (c : ascii) :
  byte_in 0x00 0x7F (lower_ascii c) = byte_in 0x00 0x7F c.
Proof. destruct c as [[] [] [] [] [] [] [] []]; reflexivity. Qed.

Lemma is_ascii_fold_key (s : string) : is_ascii (fold_key s) = is_ascii s.
Proof.
  induction s as [|c rest IH]; [reflexivity|].
  cbn [fold_key is_ascii]. rewrite lower_ascii_byte_in, IH. reflexivity.
Qed.

Lemma fold_key_coerce (a k : string) :
  is_ascii a = true -> fold_key (coerce_utf8 k) = a <-> fold_key k = a.
Proof.
  intros Ha. split; intros Hk.
  - assert (Hc : coerce_utf8 k = k).
    { apply coerce_from_ascii_inv. rewrite <- is_ascii_fold_key.
      unfold coerce_utf8 in Hk. rewrite Hk. exact Ha. }
    rewrite Hc in Hk. exact Hk.
  - rewrite coerce_ascii; [exact Hk|].
    rewrite <- is_ascii_fold_key, Hk. exact Ha.
Qed.

Lemma is_ascii_tag (f : field) : is_ascii (tag f) = true.
Proof. destruct f; reflexivity. Qed.

(** The key as it is read back selects the field the key selects. *)
Lemma field_of_key_coerce (k : string) :
  field_of_key (coerce_utf8 k) = field_of_key k.
Proof.
  assert (H : forall f, String.eqb (tag f) (fold_key (coerce_utf8 k)) =
                        String.eqb (tag f) (fold_key k)).
  { intros f. apply eq_true_iff_eq. rewrite !String.eqb_eq.
    split; intros Hk; symmetry; symmetry in Hk;
      apply (fold_key_coerce (tag f) k (is_ascii_tag f)); exact Hk. }
  unfold field_of_key, fields. cbn [find]. rewrite !H. reflexivity.
Qed.

Lemma hex_val_ascii (c : ascii) (n : N) :
  hex_val c = Some n -> byte_in 0x00 0x7F c = true.
Proof. destruct c as [[] [] [] [] [] [] [] []]; vm_compute; congruence. Qed.

Lemma hex_decode_ascii (s : string) :
  is_Some (hex_decode s) -> is_ascii s = true.
Proof.
  remember (String.length s) as n eqn:Hn. revert s Hn.
  induction n as [n IH] using lt_wf_ind. intros s Hn Hs.
  destruct s as [|hi [|lo s']]; [reflexivity | | ].
  - cbn in Hs. destruct Hs as [? [=]].
  - cbn [hex_decode] in Hs. cbn [is_ascii].
    destruct (hex_val hi) as [h|] eqn:Eh; [|destruct Hs as [? [=]]].
    destruct (hex_val lo) as [l|] eqn:El; [|destruct Hs as [? [=]]].
    destruct (hex_decode s') as [bs|] eqn:Es; [|destruct Hs as [? [=]]].
    rewrite (hex_val_ascii _ _ Eh), (hex_val_ascii _ _ El). cbn [andb].
    apply (IH (String.length s')); [subst n; cbn; lia | reflexivity |].
    rewrite Es. eauto.
Qed.

Lemma ObjectIDFromHex_ascii (s : string) :
  is_Some (ObjectIDFromHex s) -> is_ascii s = true.
Proof.
  unfold ObjectIDFromHex.
  destruct (Nat.eqb _ _); [apply hex_decode_ascii | intros [? [=]]].
Qed.

Lemma coerce_eqb_empty (s : string) :
  String.eqb (coerce_utf8 s) "" = String.eqb s "".
Proof.
  apply eq_true_iff_eq. rewrite !String.eqb_eq. apply coerce_empty.
Qed.

(** An identifier decodes from the string read back exactly when it
    decodes from the string. *)
Lemma ObjectIDFromHex_coerce (s : string) :
  ObjectIDFromHex (coerce_utf8 s) = ObjectIDFromHex s.
Proof.
  assert (Hasc := ObjectIDFromHex_ascii).
  destruct (ObjectIDFromHex (coerce_utf8 s)) as [id|] eqn:E1.
  - assert (Hs : coerce_utf8 s = s).
    { apply coerce_from_ascii_inv, Hasc. unfold coerce_utf8 in E1.
      rewrite E1. eauto. }
    rewrite Hs in E1. congruence.
  - destruct (ObjectIDFromHex s) as [id|] eqn:E2; [|reflexivity].
    rewrite coerce_ascii in E1 by (apply Hasc; rewrite E2; eauto).
    congruence.
Qed.
End Utf8Properties.

(** ** The order of the encoded keys *)
Section KeyOrder.
Import Json.

Lemma string_compare_refl (a : string) : String.compare a a = Eq.
Proof.
  induction a as [|c a IH]; cbn; [reflexivity|].
  unfold Ascii.compare. rewrite N.compare_refl. exact IH.
Qed.

Lemma string_compare_trans_le (a b c : string) :
  String.compare a b <> Gt -> String.compare b c <> Gt ->
  String.compare a c <> Gt.
Proof.
  revert b c. induction a as [|x a IH]; intros [|y b] [|z c]; cbn;
    try congruence.
  unfold Ascii.compare.
  destruct (N.compare_spec (N_of_ascii x) (N_of_ascii y)) as [Exy|Lxy|Gxy];
    destruct (N.compare_spec (N_of_ascii y) (N_of_ascii z)) as [Eyz|Lyz|Gyz];
    try congruence; intros Hab Hbc.
  - rewrite Exy, Eyz, N.compare_refl. eapply IH; eassumption.
  - rewrite Exy. apply N.compare_lt_iff in Lyz. rewrite Lyz. discriminate.
  - rewrite <- Eyz. apply N.compare_lt_iff in Lxy. rewrite Lxy. discriminate.
  - assert (L : (N_of_ascii x < N_of_ascii z)%N) by lia.
    apply N.compare_lt_iff in L. rewrite L. discriminate.
Qed.

Lemma key_le_alt (a b : string) : key_le a b <-> String.compare a b <> Gt.
Proof.
  unfold key_le, String.leb. destruct (String.compare a b); split; congruence.
Qed.

#[local] Instance key_le_trans : Transitive key_le.
Proof.
  intros a b c. rewrite !key_le_alt. apply string_compare_trans_le.
Qed.

#[local] Instance key_le_total : Total key_le.
Proof. intros a b. apply String.leb_total. Qed.

#[local] Instance key_le_antisym : AntiSymm (=) key_le.
Proof. intros a b. apply String.leb_antisym. Qed.

Lemma lower_ascii_ge (c : ascii) :
  lower_ascii c = c \/ (N_of_ascii c < N_of_ascii (lower_ascii c))%N.
Proof.
  unfold lower_ascii.
  destruct ((65 <=? N_of_ascii c)%N && (N_of_ascii c <=? 90)%N) eqn:E;
    [right|left; reflexivity].
  apply andb_true_iff in E. destruct E as [E1 E2].
  apply N.leb_le in E1, E2.
  rewrite N_ascii_embedding by lia. lia.
Qed.

(** A key never sorts after its folded form: among the keys that select
    one field, the tag itself comes last. *)
Lemma key_le_fold_key (k : string) : key_le k (fold_key k).
Proof.
  apply key_le_alt. induction k as [|c k IH]; cbn; [discriminate|].
  destruct (lower_ascii_ge c) as [E|L].
  - rewrite E. unfold Ascii.compare. rewrite N.compare_refl. exact IH.
  - unfold Ascii.compare. apply N.compare_lt_iff in L. rewrite L. discriminate.
Qed.

Lemma sorted_keys_sorted {V} (data : gmap string V) :
  StronglySorted key_le (sorted_keys data).
Proof. unfold sorted_keys. apply StronglySorted_merge_sort; apply _. Qed.

Lemma sorted_keys_perm {V} (data : gmap string V) :
  sorted_keys data ≡ₚ (map_to_list data).*1.
Proof. unfold sorted_keys. apply merge_sort_Permutation. Qed.

Lemma sorted_keys_NoDup {V} (data : gmap string V) : NoDup (sorted_keys data).
Proof. rewrite sorted_keys_perm. apply NoDup_fst_map_to_list. Qed.

Lemma elem_of_sorted_keys {V} (data : gmap string V) (k : string) :
  k ∈ sorted_keys data <-> is_Some (data !! k).
Proof.
  rewrite sorted_keys_perm, list_elem_of_fmap. split.
  - intros [[k' v] [-> Hin]]. apply elem_of_map_to_list in Hin. eauto.
  - intros [v Hv]. exists (k, v). split; [reflexivity|].
    apply elem_of_map_to_list. exact Hv.
Qed.

Lemma sorted_keys_fmap {V W} (g : V -> W) (data : gmap string V) :
  sorted_keys (g <$> data) = sorted_keys data.
Proof.
  apply (StronglySorted_unique key_le); try apply sorted_keys_sorted.
  rewrite !sorted_keys_perm, map_to_list_fmap, <- list_fmap_compose.
  reflexivity.
Qed.

(** Adding a fresh key puts it at its place among the sorted keys and
    leaves the others where they were. *)
Lemma sorted_keys_insert_fresh {V} (data : gmap string V) (k : string) (v : V) :
  data !! k = None ->
  exists l1 l2,
    sorted_keys (<[k := v]> data) = l1 ++ (k :: l2) /\
    sorted_keys data = l1 ++ l2 /\ (k ∉ l1) /\ (k ∉ l2).
Proof.
  intros Hk.
  assert (Hin : k ∈ sorted_keys (<[k := v]> data)).
  { apply elem_of_sorted_keys. rewrite lookup_insert_eq. eauto. }
  apply list_elem_of_split in Hin. destruct Hin as (l1 & l2 & Hsplit).
  exists l1, l2. split; [exact Hsplit|].
  assert (Hnd := sorted_keys_NoDup (<[k := v]> data)).
  rewrite Hsplit in Hnd. apply NoDup_app in Hnd.
  destruct Hnd as (_ & Hdisj & Hnd2). apply NoDup_cons in Hnd2.
  destruct Hnd2 as [Hk2 _].
  assert (Hk1 : k ∉ l1) by (intros Hin; apply (Hdisj k Hin); left).
  split; [|split; assumption].
  apply (StronglySorted_unique key_le).
  - apply sorted_keys_sorted.
  - assert (Hs := sorted_keys_sorted (<[k := v]> data)).
    rewrite Hsplit in Hs. apply StronglySorted_app in Hs.
    destruct Hs as (Hs12 & Hs1 & Hs2).
    apply StronglySorted_app. split; [|split; [exact Hs1|]].
    + intros x1 x2 H1 H2. apply Hs12; [exact H1|]. right. exact H2.
    + apply StronglySorted_inv in Hs2. apply Hs2.
  - apply (Permutation_cons_inv (a := k)).
    rewrite Permutation_middle, <- Hsplit, !sorted_keys_perm.
    rewrite map_to_list_insert by exact Hk. reflexivity.
Qed.

(** When a map holds a key that is its own folded form, none of the keys
    sorted after it folds to it. *)
Lemma sorted_keys_split_tag {V} (data : gmap string V) (k : string) :
  is_Some (data !! k) ->
  exists l1 l2,
    sorted_keys data = l1 ++ (k :: l2) /\ (k ∉ l1) /\ (k ∉ l2) /\
    forall k', k' ∈ l2 -> fold_key k' <> k.
Proof.
  intros Hk. apply elem_of_sorted_keys in Hk.
  apply list_elem_of_split in Hk. destruct Hk as (l1 & l2 & Hsplit).
  exists l1, l2. split; [exact Hsplit|].
  assert (Hnd := sorted_keys_NoDup data).
  rewrite Hsplit in Hnd. apply NoDup_app in Hnd.
  destruct Hnd as (_ & Hdisj & Hnd2). apply NoDup_cons in Hnd2.
  destruct Hnd2 as [Hk2 _].
  split; [intros Hin; apply (Hdisj k Hin); left|].
  split; [exact Hk2|].
  intros k' Hin Hfold.
  assert (Hs := sorted_keys_sorted data).
  rewrite Hsplit in Hs. apply StronglySorted_app in Hs.
  destruct Hs as (_ & _ & Hs2). apply StronglySorted_inv in Hs2.
  destruct Hs2 as [_ Hall]. rewrite Forall_forall in Hall.
  assert (Hle : key_le k k') by (apply Hall; exact Hin).
  assert (Hge : key_le k' k) by (rewrite <- Hfold; apply key_le_fold_key).
  assert (k = k') by (apply (anti_symm key_le); assumption).
  subst k'. contradiction.
Qed.
End KeyOrder.

(** ** Encoding and decoding the generic map *)
Section JsonProperties.
Import Repositories Json.
Variable num : Numerics.

Lemma elem_of_entries (data : gmap string any) (l : list string) k a :
  (k, a) ∈ entries data l <-> k ∈ l /\ data !! k = Some a.
Proof.
  unfold entries. rewrite list_elem_of_omap. split.
  - intros (k' & Hin & Heq). destruct (data !! k') as [a'|] eqn:E;
      cbn in Heq; [|discriminate].
    injection Heq as <- <-. auto.
  - intros [Hin Hk]. exists k. rewrite Hk. auto.
Qed.

Lemma entries_app (data : gmap string any) (l1 l2 : list string) :
  entries data (l1 ++ l2) = entries data l1 ++ entries data l2.
Proof. unfold entries. apply omap_app. Qed.

Lemma entries_insert_ne (data : gmap string any) k a (l : list string) :
  k ∉ l -> entries (<[k := a]> data) l = entries data l.
Proof.
  induction l as [|k' l IH]; intros Hk; [reflexivity|].
  apply not_elem_of_cons in Hk. destruct Hk as [Hne Hk].
  unfold entries in *. cbn. rewrite lookup_insert_ne by exact Hne.
  rewrite (IH Hk). reflexivity.
Qed.

Lemma elem_of_members (data : gmap string any) k a :
  (k, a) ∈ members data <-> data !! k = Some a.
Proof.
  unfold members. rewrite elem_of_entries, elem_of_sorted_keys. split.
  - intros [_ Hk]. exact Hk.
  - intros Hk. split; [eauto | exact Hk].
Qed.

Lemma members_insert_fresh (data : gmap string any) k a :
  data !! k = None ->
  exists M1 M2,
    members (<[k := a]> data) = M1 ++ (k, a) :: M2 /\ members data = M1 ++ M2.
Proof.
  intros Hk.
  destruct (sorted_keys_insert_fresh data k a Hk)
    as (l1 & l2 & H1 & H0 & Hk1 & Hk2).
  exists (entries data l1), (entries data l2). unfold members.
  rewrite H1, H0, !entries_app. split; [|reflexivity].
  rewrite (entries_insert_ne _ _ _ _ Hk1). f_equal.
  unfold entries at 1. cbn. rewrite lookup_insert_eq. cbn.
  f_equal. apply (entries_insert_ne _ _ _ _ Hk2).
Qed.

Lemma members_split_tag (data : gmap string any) k a :
  data !! k = Some a ->
  exists M1 M2,
    members data = M1 ++ (k, a) :: M2 /\
    forall k' a', (k', a') ∈ M2 -> fold_key k' <> k.
Proof.
  intros Hk.
  destruct (sorted_keys_split_tag data k (ex_intro _ a Hk))
    as (l1 & l2 & Hsplit & _ & _ & Hfold).
  exists (entries data l1), (entries data l2). unfold members.
  rewrite Hsplit, entries_app. split.
  - f_equal. unfold entries at 1. cbn. rewrite Hk. reflexivity.
  - intros k' a' Hin. apply elem_of_entries in Hin. apply Hfold, Hin.
Qed.

Lemma entries_fmap (g : any -> any) (data : gmap string any) (l : list string) :
  entries (g <$> data) l = prod_map id g <$> entries data l.
Proof.
  induction l as [|k l IH]; [reflexivity|].
  unfold entries in *. cbn [omap list_omap]. rewrite lookup_fmap, IH.
  destruct (data !! k); reflexivity.
Qed.

Lemma members_fmap (g : any -> any) (data : gmap string any) :
  members (g <$> data) = prod_map id g <$> members data.
Proof. unfold members. rewrite sorted_keys_fmap. apply entries_fmap. Qed.

Lemma encodable_coerce (a : any) : encodable (coerce_any a) = encodable a.
Proof. destruct a; reflexivity. Qed.

Lemma forallb_encodable_coerce (ms : json_object) :
  forallb (fun m => encodable m.2) (prod_map id coerce_any <$> ms) =
  forallb (fun m => encodable m.2) ms.
Proof.
  induction ms as [|[k a] ms IH]; [reflexivity|].
  cbn. rewrite encodable_coerce. f_equal. exact IH.
Qed.

Lemma field_of_key_fold (k : string) (f : field) :
  field_of_key k = Some f <-> fold_key k = tag f.
Proof.
  unfold field_of_key. split.
  - intros Hf. apply find_some in Hf. destruct Hf as [_ Heq].
    apply String.eqb_eq in Heq. congruence.
  - intros Hk. rewrite Hk. destruct f; reflexivity.
Qed.

Lemma field_of_key_tag (f : field) : field_of_key (tag f) = Some f.
Proof. destruct f; reflexivity. Qed.

Lemma Unmarshal_app (b1 b2 : json_object) (t : TrackingFilter) :
  Unmarshal num (b1 ++ b2) t = bind (Unmarshal num b1 t) (Unmarshal num b2).
Proof.
  revert t. induction b1 as [|[k a] b1 IH]; intros t; [reflexivity|].
  cbn [Unmarshal app]. destruct (field_of_key k) as [f|]; [|apply IH].
  destruct (assign num f a t) as [t1| |]; cbn [bind]; [apply IH | reflexivity..].
Qed.

(** Decoding the text is decoding the members with their strings read
    back: the key read back selects the field of the key. *)
Lemma Unmarshal_written (ms : json_object) (t : TrackingFilter) :
  Unmarshal num (written <$> ms) t =
  Unmarshal num (prod_map id coerce_any <$> ms) t.
Proof.
  revert t. induction ms as [|[k a] ms IH]; intros t; [reflexivity|].
  cbn [fmap list_fmap written prod_map fst snd id Unmarshal].
  rewrite field_of_key_coerce. destruct (field_of_key k) as [f|]; [|apply IH].
  destruct (assign num f (coerce_any a) t); cbn [bind]; [apply IH|reflexivity..].
Qed.

Lemma assign_other (f f' : field) a t t' :
  assign num f a t = Ok t' -> f' <> f -> field_value f' t' = field_value f' t.
Proof.
  intros Ha Hne. destruct f; cbn in Ha;
    match type of Ha with
    | bind ?d _ = _ => destruct d; cbn in Ha; try discriminate
    end;
    injection Ha as <-; destruct f'; try reflexivity; congruence.
Qed.

Lemma assign_same (f : field) a t t' :
  assign num f a t = Ok t' -> same_kind f a = true -> field_value f t' = a.
Proof.
  intros Ha Hk. destruct f, a; cbn in Hk; try discriminate; cbn in Ha;
    try (destruct (GoInt.in_range z); cbn in Ha; [|discriminate]);
    injection Ha as <-; reflexivity.
Qed.

Lemma same_kind_coerce (f : field) (a : any) :
  same_kind f (coerce_any a) = same_kind f a.
Proof. destruct f, a; reflexivity. Qed.

Lemma assign_string_fails (f : field) s t :
  f ∈ [FPage; FPageSize; FMileage] -> assign num f (AString s) t =
                                      Fail (ErrUnmarshalType (tag f)).
Proof.
  intros Hf. repeat (apply elem_of_cons in Hf; destruct Hf as [->|Hf]);
    try reflexivity. inversion Hf.
Qed.

(** Decoding leaves a field alone that no member selects. *)
Lemma Unmarshal_preserves (F : field) (buf : json_object) t t' :
  Unmarshal num buf t = Ok t' ->
  (forall k a, (k, a) ∈ buf -> field_of_key k <> Some F) ->
  field_value F t' = field_value F t.
Proof.
  revert t. induction buf as [|[k a] buf IH]; intros t Hu Hsel.
  - cbn [Unmarshal app bind] in Hu. congruence.
  - cbn [Unmarshal app bind] in Hu.
    assert (Hrest : forall k0 a0, (k0, a0) ∈ buf -> field_of_key k0 <> Some F)
      by (intros; apply (Hsel k0 a0); right; assumption).
    destruct (field_of_key k) as [f|] eqn:Ef; [|apply IH; assumption].
    destruct (assign num f a t) as [t1| |] eqn:Ea; cbn [Unmarshal app bind] in Hu; try discriminate.
    rewrite (IH t1 Hu Hrest). eapply assign_other; [exact Ea|].
    intros ->. apply (Hsel k a); [left|exact Ef].
Qed.

(** A successful decoding has decoded every member that selects a field. *)
Lemma Unmarshal_selected (buf : json_object) t t' k a f :
  Unmarshal num buf t = Ok t' -> (k, a) ∈ buf -> field_of_key k = Some f ->
  exists t1 t2, assign num f a t1 = Ok t2.
Proof.
  revert t. induction buf as [|[k0 a0] buf IH]; intros t Hu Hin Hf.
  - inversion Hin.
  - cbn [Unmarshal app bind] in Hu. apply elem_of_cons in Hin. destruct Hin as [[= <- <-]|Hin].
    + rewrite Hf in Hu.
      destruct (assign num f a t) as [t1| |] eqn:Ea; cbn [Unmarshal app bind] in Hu;
        try discriminate. eauto.
    + destruct (field_of_key k0) as [f0|]; [|eapply IH; eassumption].
      destruct (assign num f0 a0 t) as [t1| |]; cbn [Unmarshal app bind] in Hu; try discriminate.
      eapply IH; eassumption.
Qed.

(** The last member that selects a field decides its content. *)
Lemma Unmarshal_last (F : field) (b1 b2 : json_object) k a t t' :
  Unmarshal num (b1 ++ (k, a) :: b2) t = Ok t' ->
  field_of_key k = Some F ->
  (forall k' a', (k', a') ∈ b2 -> field_of_key k' <> Some F) ->
  exists t1 t2, assign num F a t1 = Ok t2 /\
                field_value F t' = field_value F t2.
Proof.
  intros Hu Hf Hsel. rewrite Unmarshal_app in Hu.
  destruct (Unmarshal num b1 t) as [t1| |]; cbn [Unmarshal app bind] in Hu; try discriminate.
  rewrite Hf in Hu.
  destruct (assign num F a t1) as [t2| |] eqn:Ea; cbn [Unmarshal app bind] in Hu; try discriminate.
  exists t1, t2. split; [exact Ea|].
  eapply Unmarshal_preserves; eassumption.
Qed.

(** A member whose key selects no field does not matter. *)
Lemma Unmarshal_skip (b1 b2 : json_object) k a t :
  field_of_key k = None ->
  Unmarshal num (b1 ++ (k, a) :: b2) t = Unmarshal num (b1 ++ b2) t.
Proof.
  intros Hf. rewrite !Unmarshal_app. cbn [Unmarshal]. rewrite Hf. reflexivity.
Qed.
End JsonProperties.

(** ** The service's conversion of the query *)
Section ConvertProperties.
Import Repositories Json Services.
Variable num : Numerics.

Lemma convert_loop_spec (l : list (string * list string)) (data : gmap string any) :
  NoDup l.*1 ->
  match convert_loop num l data with
  | Ok d =>
      Forall (entry_ok num) l /\
      forall k, d !! k =
                match (list_to_map l : gmap string (list string)) !! k with
                | Some vs => match convert_entry num k vs with
                             | Ok a => Some a
                             | _ => None
                             end
                | None => data !! k
                end
  | _ => ~ Forall (entry_ok num) l
  end.
Proof.
  revert data. induction l as [|[k0 v0] l IH]; intros data Hnd.
  - cbn. split; [constructor|]. intros k. rewrite lookup_empty. reflexivity.
  - cbn [fmap list_fmap fst] in Hnd. apply NoDup_cons in Hnd.
    destruct Hnd as [Hk0 Hnd]. cbn [convert_loop].
    destruct (convert_entry num k0 v0) as [a| |] eqn:Ea; cbn [bind].
    + specialize (IH (<[k0 := a]> data) Hnd).
      destruct (convert_loop num l (<[k0 := a]> data)) as [d| |].
      * destruct IH as [Hall Hlk]. split.
        -- constructor; [exists a; exact Ea | exact Hall].
        -- intros k. rewrite Hlk. cbn [list_to_map foldr uncurry fst snd].
           destruct (decide (k = k0)) as [->|Hne].
           ++ rewrite (not_elem_of_list_to_map_1 _ _ Hk0), !lookup_insert_eq, Ea.
              reflexivity.
           ++ rewrite !lookup_insert_ne by congruence. reflexivity.
      * intros Hall. apply Forall_cons in Hall. apply IH, Hall.
      * intros Hall. apply Forall_cons in Hall. apply IH, Hall.
    + intros Hall. apply Forall_cons in Hall. destruct Hall as [[a Ha] _].
      cbn in Ha. congruence.
    + intros Hall. apply Forall_cons in Hall. destruct Hall as [[a Ha] _].
      cbn in Ha. congruence.
Qed.

Lemma entries_ok_iff (query : gmap string (list string)) :
  Forall (entry_ok num) (map_to_list query) <->
  forall k vs, query !! k = Some vs -> is_Ok (convert_entry num k vs).
Proof.
  rewrite Forall_forall. split.
  - intros Hall k vs Hk. apply (Hall (k, vs)).
    apply elem_of_map_to_list. exact Hk.
  - intros Hq [k vs] Hin. apply elem_of_map_to_list in Hin.
    apply Hq. exact Hin.
Qed.

Lemma lookup_converted (query : gmap string (list string)) (k : string) :
  converted num query !! k =
  match query !! k with
  | Some vs => match convert_entry num k vs with
               | Ok a => Some a
               | _ => None
               end
  | None => None
  end.
Proof.
  unfold converted. rewrite map_lookup_imap.
  destruct (query !! k); reflexivity.
Qed.

(** The loop succeeds exactly when every entry converts, and then it has
    built [converted]. *)
Lemma convert_Ok_iff (query : gmap string (list string)) (d : gmap string any) :
  convert num query = Ok d <->
  (forall k vs, query !! k = Some vs -> is_Ok (convert_entry num k vs)) /\
  d = converted num query.
Proof.
  unfold convert. rewrite <- entries_ok_iff.
  assert (Hspec := convert_loop_spec (map_to_list query) ∅
                     (NoDup_fst_map_to_list query)).
  rewrite list_to_map_to_list in Hspec.
  assert (Heq : forall d0,
            (forall k, d0 !! k =
                       match query !! k with
                       | Some vs => match convert_entry num k vs with
                                    | Ok a => Some a
                                    | _ => None
                                    end
                       | None => (∅ : gmap string any) !! k
                       end) -> d0 = converted num query).
  { intros d0 Hd0. apply map_eq. intros k.
    rewrite Hd0, lookup_converted, lookup_empty. reflexivity. }
  destruct (convert_loop num (map_to_list query) ∅) as [d0| |].
  - destruct Hspec as [Hall Hlk]. split.
    + intros [= <-]. split; [exact Hall | apply Heq, Hlk].
    + intros [_ ->]. f_equal. apply Heq, Hlk.
  - split; [discriminate | intros [Hall _]; contradiction].
  - split; [discriminate | intros [Hall _]; contradiction].
Qed.

Lemma Atoi_no_panic (s : string) (m : string) : Strconv.Atoi s <> Panic m.
Proof.
  unfold Strconv.Atoi.
  destruct s as [|c s]; [discriminate|].
  repeat match goal with
         | |- context [match ?x with _ => _ end] => destruct x
         end; discriminate.
Qed.

Lemma convert_entry_panic (k : string) (vs : list string) (m : string) :
  convert_entry num k vs = Panic m -> vs = [].
Proof.
  destruct vs as [|v0 vs]; [reflexivity|]. cbn [convert_entry].
  destruct (String.eqb k "page" || String.eqb k "limit").
  - destruct (Strconv.Atoi v0) eqn:E; cbn; try discriminate.
    intros [= ->]. exfalso. exact (Atoi_no_panic _ _ E).
  - destruct (String.eqb k "mileage"); [|discriminate].
    destruct (ParseFloat num v0); discriminate.
Qed.

Lemma convert_loop_panic (l : list (string * list string))
    (data : gmap string any) (m : string) :
  convert_loop num l data = Panic m ->
  exists kv, kv ∈ l /\ convert_entry num kv.1 kv.2 = Panic m.
Proof.
  revert data. induction l as [|[k0 v0] l IH]; intros data; [discriminate|].
  cbn [convert_loop].
  destruct (convert_entry num k0 v0) as [a| |] eqn:Ea; cbn [bind].
  - intros Hp. destruct (IH _ Hp) as (kv & Hin & Hkv).
    exists kv. split; [right; exact Hin | exact Hkv].
  - discriminate.
  - intros [= ->]. exists (k0, v0). split; [left | exact Ea].
Qed.

(** On the values of a parsed query the loop does not panic. *)
Lemma convert_no_panic (query : gmap string (list string)) (m : string) :
  parsed_values query -> convert num query <> Panic m.
Proof.
  intros Hp Hc. apply convert_loop_panic in Hc.
  destruct Hc as ([k vs] & Hin & Hkv). apply elem_of_map_to_list in Hin.
  apply convert_entry_panic in Hkv. cbn in Hkv. subst vs.
  exact (Hp k Hin).
Qed.

Lemma Unmarshal_no_panic (buf : json_object) t (m : string) :
  Unmarshal num buf t <> Panic m.
Proof.
  revert t. induction buf as [|[k a] buf IH]; intros t; [discriminate|].
  cbn [Unmarshal]. destruct (field_of_key k) as [f|]; [|apply IH].
  destruct (assign num f a t) as [t1| |] eqn:Ea; cbn [bind];
    [apply IH | discriminate |].
  exfalso. destruct f, a; cbn in Ea;
    repeat match type of Ea with
           | context [match ?x with _ => _ end] => destruct x; cbn in Ea
           end; discriminate.
Qed.

(** The decoding of a map, in terms of the map with its strings read
    back. *)
Lemma decode_data_coerce (d : gmap string any) :
  decode_data num d =
  if forallb (fun m => encodable m.2) (members (coerce_any <$> d))
  then Unmarshal num (members (coerce_any <$> d)) zero_filter
  else Fail ErrUnsupportedValue.
Proof.
  unfold decode_data, Marshal.
  rewrite members_fmap, forallb_encodable_coerce.
  destruct (forallb _ _); cbn [bind]; [apply Unmarshal_written | reflexivity].
Qed.

Lemma decode_data_no_panic (d : gmap string any) (m : string) :
  decode_data num d <> Panic m.
Proof.
  rewrite decode_data_coerce.
  destruct (forallb _ _); [apply Unmarshal_no_panic | discriminate].
Qed.

Lemma decode_data_Ok (d : gmap string any) t :
  decode_data num d = Ok t ->
  Unmarshal num (members (coerce_any <$> d)) zero_filter = Ok t.
Proof.
  rewrite decode_data_coerce.
  destruct (forallb _ _); [auto | discriminate].
Qed.

Lemma lookup_coerce_converted (query : gmap string (list string)) (k : string) :
  (coerce_any <$> converted num query) !! k =
  match query !! k with
  | Some vs => match convert_entry num k vs with
               | Ok a => Some (coerce_any a)
               | _ => None
               end
  | None => None
  end.
Proof.
  rewrite lookup_fmap, lookup_converted.
  destruct (query !! k) as [vs|]; [|reflexivity].
  destruct (convert_entry num k vs); reflexivity.
Qed.
End ConvertProperties.

(** ** From the query to the fields of the filter *)
Section FilterFields.
Import Repositories Json Services.
Variable num : Numerics.

Lemma convert_entry_other (k : string) (vs : list string) :
  k ∉ ["page"; "limit"; "mileage"] ->
  convert_entry num k vs =
  match vs with
  | [] => Panic "index out of range [0] with length 0"
  | v0 :: _ => Ok (AString v0)
  end.
Proof.
  intros Hk. destruct vs as [|v0 vs]; [reflexivity|]. cbn [convert_entry].
  assert (H1 : String.eqb k "page" = false)
    by (apply String.eqb_neq; intros ->; apply Hk; set_solver).
  assert (H2 : String.eqb k "limit" = false)
    by (apply String.eqb_neq; intros ->; apply Hk; set_solver).
  assert (H3 : String.eqb k "mileage" = false)
    by (apply String.eqb_neq; intros ->; apply Hk; set_solver).
  rewrite H1, H2, H3. reflexivity.
Qed.

Lemma convert_entry_tag_kind (F : field) (vs : list string) (a : any) :
  convert_entry num (tag F) vs = Ok a -> same_kind F a = true.
Proof.
  destruct vs as [|v0 vs]; [discriminate|].
  destruct F; cbn [tag convert_entry];
    match goal with
    | |- context [String.eqb ?x ?y || String.eqb ?x ?z] =>
        let b := eval vm_compute in (String.eqb x y || String.eqb x z) in
        change (String.eqb x y || String.eqb x z) with b; cbv iota
    end;
    try match goal with
    | |- context [String.eqb ?x "mileage"] =>
        let b := eval vm_compute in (String.eqb x "mileage") in
        change (String.eqb x "mileage") with b; cbv iota
    end;
    try (destruct (Strconv.Atoi v0); cbn [bind]);
    try (destruct (ParseFloat num v0));
    intros [= <-] || discriminate; reflexivity.
Qed.

(** A key that selects a field without being its tag is none of the three
    keys the loop converts to a number. *)
Lemma variant_key_not_numeric (k : string) (F : field) :
  fold_key k = tag F -> k <> tag F -> k ∉ ["page"; "limit"; "mileage"].
Proof.
  intros Hf Hne Hin.
  repeat (apply elem_of_cons in Hin; destruct Hin as [->|Hin]);
    try (match type of Hf with
         | fold_key ?s = _ =>
             let r := eval vm_compute in (fold_key s) in
             change (fold_key s) with r in Hf
         end; congruence).
  inversion Hin.
Qed.

Lemma to_filter_Ok_iff (query : gmap string (list string)) (t : TrackingFilter) :
  to_filter num query = Ok t <->
  (forall k vs, query !! k = Some vs -> is_Ok (convert_entry num k vs)) /\
  decode_data num (converted num query) = Ok t.
Proof.
  unfold to_filter. destruct (convert num query) as [d| |] eqn:E; cbn [bind].
  - apply convert_Ok_iff in E. destruct E as [Hall ->].
    split; [auto | intros [_ Hd]; exact Hd].
  - split; [discriminate|]. intros [Hall _].
    assert (convert num query = Ok (converted num query))
      by (apply convert_Ok_iff; auto). congruence.
  - split; [discriminate|]. intros [Hall _].
    assert (convert num query = Ok (converted num query))
      by (apply convert_Ok_iff; auto). congruence.
Qed.

(** The value under a tag reaches the field of the tag. *)
Lemma to_filter_tag (F : field) (query : gmap string (list string)) t vs :
  to_filter num query = Ok t -> query !! tag F = Some vs ->
  exists a, convert_entry num (tag F) vs = Ok a /\
            field_value F t = coerce_any a.
Proof.
  intros Ht Hq. apply to_filter_Ok_iff in Ht. destruct Ht as [Hall Hd].
  destruct (Hall _ _ Hq) as [a Ha]. exists a. split; [exact Ha|].
  apply decode_data_Ok in Hd.
  assert (Hk : (coerce_any <$> converted num query) !! tag F =
               Some (coerce_any a))
    by (rewrite lookup_coerce_converted, Hq, Ha; reflexivity).
  destruct (members_split_tag _ _ _ Hk) as (M1 & M2 & Hm & Hfold).
  rewrite Hm in Hd.
  destruct (Unmarshal_last num F M1 M2 _ _ _ _ Hd (field_of_key_tag F))
    as (t1 & t2 & Hassign & Hfv).
  { intros k' a' Hin Hsel. apply field_of_key_fold in Hsel.
    exact (Hfold _ _ Hin Hsel). }
  rewrite Hfv. eapply assign_same; [exact Hassign|].
  rewrite same_kind_coerce. eapply convert_entry_tag_kind. exact Ha.
Qed.


(** A numeric field whose tag is not in the query keeps its zero value:
    another spelling of the tag carries a string, which does not decode
    into a number. *)
Lemma to_filter_numeric_absent (F : field) (query : gmap string (list string)) t :
  F ∈ [FPage; FPageSize; FMileage] -> query !! tag F = None ->
  to_filter num query = Ok t ->
  field_value F t = field_value F zero_filter.
Proof.
  intros HF Hq Ht. apply to_filter_Ok_iff in Ht. destruct Ht as [_ Hd].
  apply decode_data_Ok in Hd.
  eapply Unmarshal_preserves; [exact Hd|].
  intros k a Hin Hsel.
  destruct (Unmarshal_selected num _ _ _ _ _ _ Hd Hin Hsel) as (t1 & t2 & Ha).
  apply elem_of_members in Hin. rewrite lookup_coerce_converted in Hin.
  destruct (query !! k) as [vs|] eqn:Ek; [|discriminate].
  assert (Hne : k <> tag F) by (intros ->; congruence).
  apply field_of_key_fold in Hsel.
  rewrite (convert_entry_other k vs (variant_key_not_numeric k F Hsel Hne)) in Hin.
  destruct vs as [|v0 vs]; [discriminate|]. injection Hin as <-.
  cbn [coerce_any] in Ha.
  rewrite (assign_string_fails num F _ t1 HF) in Ha. discriminate.
Qed.

Lemma forallb_middle {A} (p : A -> bool) (l1 l2 : list A) (x : A) :
  p x = true -> forallb p (l1 ++ x :: l2) = forallb p (l1 ++ l2).
Proof.
  intros Hx. rewrite !forallb_app. cbn. rewrite Hx. reflexivity.
Qed.

(** A string under a key that selects no field changes nothing in what is
    decoded. *)
Lemma decode_data_insert_irrelevant (data : gmap string any) (k x : string) :
  data !! k = None -> field_of_key k = None ->
  decode_data num (<[k := AString x]> data) = decode_data num data.
Proof.
  intros Hk Hf.
  assert (Hk' : (coerce_any <$> data) !! k = None)
    by (rewrite lookup_fmap, Hk; reflexivity).
  destruct (members_insert_fresh _ k (AString (coerce_utf8 x)) Hk')
    as (M1 & M2 & H1 & H0).
  rewrite !decode_data_coerce, fmap_insert. cbn [coerce_any].
  rewrite H1, H0.
  rewrite forallb_middle by reflexivity.
  destruct (forallb _ (M1 ++ M2)); [|reflexivity].
  apply Unmarshal_skip. exact Hf.
Qed.

Lemma irrelevant_key_not_numeric (k : string) :
  field_of_key k = None -> k ∉ ["page"; "limit"; "mileage"].
Proof.
  intros Hf Hin.
  repeat (apply elem_of_cons in Hin; destruct Hin as [->|Hin]);
    try discriminate. inversion Hin.
Qed.

(** Adding a value under a key that selects no field leaves the decoded
    filter as it was. *)
Lemma to_filter_Values_Add (query : gmap string (list string)) (k v : string) t :
  field_of_key k = None -> query !! k <> Some [] ->
  to_filter num (Values_Add k v query) = Ok t <-> to_filter num query = Ok t.
Proof.
  intros Hf Hne. rewrite !to_filter_Ok_iff.
  assert (Hnn := irrelevant_key_not_numeric k Hf).
  unfold Values_Add.
  destruct (query !! k) as [[|x xs]|] eqn:Ek; [congruence| |]; cbn [default from_option id app].
  - assert (Hc : converted num (<[k := x :: xs ++ [v]]> query) =
                 converted num query).
    { apply map_eq. intros k'. rewrite !lookup_converted.
      destruct (decide (k' = k)) as [->|Hk'].
      - rewrite lookup_insert_eq, Ek, !convert_entry_other by exact Hnn.
        reflexivity.
      - rewrite lookup_insert_ne by congruence. reflexivity. }
    rewrite Hc. split; intros [Hall Hd]; (split; [|exact Hd]).
    + intros k' vs Hk'. destruct (decide (k' = k)) as [->|Hk'k].
      * rewrite convert_entry_other by exact Hnn.
        rewrite Ek in Hk'. injection Hk' as <-. eexists; reflexivity.
      * apply Hall. rewrite lookup_insert_ne by congruence. exact Hk'.
    + intros k' vs Hk'. destruct (decide (k' = k)) as [->|Hk'k].
      * rewrite lookup_insert_eq in Hk'. injection Hk' as <-.
        rewrite convert_entry_other by exact Hnn. eexists; reflexivity.
      * rewrite lookup_insert_ne in Hk' by congruence. apply Hall, Hk'.
  - assert (Hc : converted num (<[k := [v]]> query) =
                 <[k := AString v]> (converted num query)).
    { apply map_eq. intros k'. rewrite lookup_converted.
      destruct (decide (k' = k)) as [->|Hk'].
      - rewrite !lookup_insert_eq, convert_entry_other by exact Hnn.
        reflexivity.
      - rewrite !lookup_insert_ne by congruence.
        rewrite lookup_converted. reflexivity. }
    rewrite Hc, decode_data_insert_irrelevant;
      [|rewrite lookup_converted, Ek; reflexivity | exact Hf].
    split; intros [Hall Hd]; (split; [|exact Hd]).
    + intros k' vs Hk'. destruct (decide (k' = k)) as [->|Hk'k];
        [congruence|].
      apply Hall. rewrite lookup_insert_ne by congruence. exact Hk'.
    + intros k' vs Hk'. destruct (decide (k' = k)) as [->|Hk'k].
      * rewrite lookup_insert_eq in Hk'. injection Hk' as <-.
        rewrite convert_entry_other by exact Hnn. eexists; reflexivity.
      * rewrite lookup_insert_ne in Hk' by congruence. apply Hall, Hk'.
Qed.
End FilterFields.

(** ** The filter builder *)
Section FilterBuilder.
Import Primitive Models Repositories Json Services.
Variable num : Numerics.

Lemma resolve_Ok_inv (query : gmap string (list string)) (f : TrackingFilter) :
  resolve num query = Ok f ->
  exists t, to_filter num query = Ok t /\ Build t = (f, None).
Proof.
  unfold resolve. destruct (to_filter num query) as [t| |]; cbn [bind];
    try discriminate.
  destruct (Build t) as [t' [e|]] eqn:EB; [discriminate|].
  intros [= <-]. eauto.
Qed.

Lemma resolve_no_panic (query : gmap string (list string)) (m : string) :
  parsed_values query -> resolve num query <> Panic m.
Proof.
  intros Hp. unfold resolve, to_filter.
  destruct (convert num query) as [d| |] eqn:Ec; cbn [bind]; try discriminate.
  - destruct (decode_data num d) as [t| |] eqn:Ed; cbn [bind];
      try discriminate.
    + destruct (Build t) as [t' [e|]]; discriminate.
    + intros [= ->]. exact (decode_data_no_panic num d _ Ed).
  - intros [= ->]. exact (convert_no_panic num query _ Hp Ec).
Qed.

Lemma field_unrecognized (k : string) :
  fold_key k ∉ recognized_keys <-> field_of_key k = None.
Proof.
  split.
  - intros Hk. destruct (field_of_key k) as [f|] eqn:Ef; [|reflexivity].
    exfalso. apply Hk. apply field_of_key_fold in Ef. rewrite Ef.
    unfold recognized_keys. apply list_elem_of_fmap. exists f.
    split; [reflexivity|]. destruct f; set_solver.
  - intros Hf Hin. unfold recognized_keys in Hin.
    apply list_elem_of_fmap in Hin. destruct Hin as (f & Hk & _).
    apply field_of_key_fold in Hk. congruence.
Qed.


(** C4, amended. On every bag that resolves, the page size is at most 100
    and neither the page nor the page size is 0; when the page supplied
    under the key page is not negative (or none is supplied) the page is at
    least 1, and when the value supplied under the key limit is not
    negative (or none is supplied) the page size is between 1 and 100. *)
Theorem resolved_pagination_bounds (query : gmap string (list string))
    (f : TrackingFilter) :
  resolve num query = Ok f ->
  (PageSize f <= 100)%Z /\ Page f <> 0%Z /\ PageSize f <> 0%Z /\
  ((forall v vs n, query !! "page" = Some (v :: vs) ->
                   Strconv.Atoi v = Ok n -> (0 <= n)%Z) ->
   (1 <= Page f)%Z) /\
  ((forall v vs n, query !! "limit" = Some (v :: vs) ->
                   Strconv.Atoi v = Ok n -> (0 <= n)%Z) ->
   (1 <= PageSize f <= 100)%Z).
Proof.
  intros Hr. destruct (resolve_Ok_inv _ _ Hr) as (t & Ht & HB).
  destruct (Build_ok _ _ HB) as (HP & HPS & _).
  rewrite HP, HPS, Build_defaults_Page, Build_defaults_PageSize. cbn zeta.
  assert (Hpage : forall F key, F ∈ [FPage; FPageSize] -> key = tag F ->
            (forall v vs n, query !! key = Some (v :: vs) ->
                            Strconv.Atoi v = Ok n -> (0 <= n)%Z) ->
            exists n, field_value F t = AInt n /\ (0 <= n)%Z).
  { intros F key HF -> Hnn.
    destruct (query !! tag F) as [vs|] eqn:Eq.
    - destruct (to_filter_tag num F query t vs Ht Eq) as (a & Ha & Hv).
      rewrite Hv. destruct vs as [|v vs]; [discriminate|].
      assert (Hc : convert_entry num (tag F) (v :: vs) =
                   bind (Strconv.Atoi v) (fun z => Ok (AInt z))).
      { repeat (apply elem_of_cons in HF; destruct HF as [->|HF]);
          try reflexivity. inversion HF. }
      rewrite Hc in Ha. destruct (Strconv.Atoi v) as [n| |] eqn:En;
        cbn in Ha; try discriminate.
      injection Ha as <-. exists n. split; [reflexivity|].
      eapply Hnn; [reflexivity | exact En].
    - exists 0%Z. split; [|lia].
      rewrite (to_filter_numeric_absent num F query t); [| |exact Eq|exact Ht].
      + repeat (apply elem_of_cons in HF; destruct HF as [->|HF]);
          try reflexivity. inversion HF.
      + repeat (apply elem_of_cons in HF; destruct HF as [->|HF]);
          [left | right; left | inversion HF]. }
  split; [|split; [|split; [|split]]].
  - destruct (PageSize t =? 0)%Z; cbn; [lia|].
    destruct (100 <? PageSize t)%Z eqn:E2; [lia|].
    apply Z.ltb_nlt in E2. lia.
  - destruct (Page t =? 0)%Z eqn:E; [lia | apply Z.eqb_neq in E; exact E].
  - destruct (PageSize t =? 0)%Z eqn:E; cbn; [lia|].
    apply Z.eqb_neq in E. destruct (100 <? PageSize t)%Z; lia.
  - intros Hnn.
    destruct (Hpage FPage "page" ltac:(set_solver) eq_refl Hnn) as (n & Hn & Hge).
    cbn in Hn. injection Hn as Hn. rewrite Hn.
    destruct (n =? 0)%Z eqn:E; [lia | apply Z.eqb_neq in E; lia].
  - intros Hnn.
    destruct (Hpage FPageSize "limit" ltac:(set_solver) eq_refl Hnn)
      as (n & Hn & Hge).
    cbn in Hn. injection Hn as Hn. rewrite Hn.
    destruct (n =? 0)%Z eqn:E; cbn; [split; lia|].
    apply Z.eqb_neq in E. destruct (100 <? n)%Z eqn:E2; [split; lia|].
    apply Z.ltb_nlt in E2. split; lia.
Qed.

(** X19. A value added under a key whose lower-cased form is none of the
    nine parameter names changes nothing: on a bag that does not hold the
    empty list under that key, the extended bag resolves exactly when the
    bag does, and to the same filter. *)
Theorem unselected_key_ignored (query : gmap string (list string))
    (k v : string) (f : TrackingFilter) :
  fold_key k ∉ recognized_keys ->
  query !! k <> Some [] ->
  resolve num (Values_Add k v query) = Ok f <-> resolve num query = Ok f.
Proof.
  intros Hk Hne. apply field_unrecognized in Hk.
  assert (Ht := fun t => to_filter_Values_Add num query k v t Hk Hne).
  unfold resolve.
  destruct (to_filter num (Values_Add k v query)) as [t1| |] eqn:E1;
    destruct (to_filter num query) as [t0| |] eqn:E0; cbn [bind];
    try (split; discriminate).
  - destruct (Ht t1) as [Hx _]. specialize (Hx eq_refl).
    injection Hx as ->. reflexivity.
  - destruct (Ht t1) as [Hx _]. specialize (Hx eq_refl). discriminate.
  - destruct (Ht t1) as [Hx _]. specialize (Hx eq_refl). discriminate.
  - destruct (Ht t0) as [_ Hx]. specialize (Hx eq_refl). discriminate.
  - destruct (Ht t0) as [_ Hx]. specialize (Hx eq_refl). discriminate.
Qed.
End FilterBuilder.

(** ** The query path: service and store together *)
Section QueryPath.
Import Primitive Models Repositories Json Services.
Variable num : Numerics.
Variable drv : Mongo.Driver.

(** The query path asks the collection exactly when the bag resolves, and
    then with the document and options of the resolved filter. *)
Lemma FindTrackingData_resolve (query : gmap string (list string))
    (c : Mongo.Collection) :
  @FindTrackingData _ (MongoTackingRepository drv) num query c =
  match resolve num query with
  | Ok f => Mongo.Find drv c (Mongo.bsonMFilter f) (Mongo.findOptions f)
  | Fail err => (Fail err, c)
  | Panic m => (Panic m, c)
  end.
Proof.
  unfold FindTrackingData, resolve.
  destruct (to_filter num query) as [t| |]; cbn [bind]; try reflexivity.
  cbn [repo_Find MongoTackingRepository]. unfold Mongo.FindTrackingData.
  destruct (Build t) as [t' [e|]]; reflexivity.
Qed.

Lemma convert_entry_string_tag (F : field) (v : string) (vs : list string) :
  F ∈ [FVehicleID; FStatus; FFuelCondition] ->
  convert_entry num (tag F) (v :: vs) = Ok (AString v).
Proof.
  intros HF. repeat (apply elem_of_cons in HF; destruct HF as [->|HF]);
    try reflexivity. inversion HF.
Qed.

(** C5, amended. On the values of a parsed query, the build fails with an
    error, and the query path returns that error with the collection not
    asked, whenever the value of page or limit is not an integer, the
    value of mileage is not a float, a non-empty value of vehicle_id is not
    a hex identifier, or a non-empty value of status or fuel_condition is
    not one of the enumerated values. *)
Theorem malformed_parameter_fails (query : gmap string (list string))
    (c : Mongo.Collection) :
  parsed_values query ->
  (exists v vs, query !! "page" = Some (v :: vs) /\ ~ is_Ok (Strconv.Atoi v)) \/
  (exists v vs, query !! "limit" = Some (v :: vs) /\ ~ is_Ok (Strconv.Atoi v)) \/
  (exists v vs, query !! "mileage" = Some (v :: vs) /\ ParseFloat num v = None) \/
  (exists v vs, query !! "vehicle_id" = Some (v :: vs) /\
                v <> "" /\ ObjectIDFromHex v = None) \/
  (exists v vs, query !! "status" = Some (v :: vs) /\
                v <> "" /\ v ∉ VehicleStatuses) \/
  (exists v vs, query !! "fuel_condition" = Some (v :: vs) /\
                v <> "" /\ v ∉ FuelConditions) ->
  exists err,
    resolve num query = Fail err /\
    @FindTrackingData _ (MongoTackingRepository drv) num query c = (Fail err, c).
Proof.
  intros Hp Hbad.
  assert (Hnot : forall f, resolve num query <> Ok f).
  { intros f Hr. destruct (resolve_Ok_inv _ _ _ Hr) as (t & Ht & HB).
    destruct (Build_ok _ _ HB)
      as (_ & _ & _ & _ & _ & _ & _ & _ & _ & Hid & Hst & Hfc).
    destruct Hbad as [(v & vs & Hq & Hv)|[(v & vs & Hq & Hv)|[(v & vs & Hq & Hv)|
                    [(v & vs & Hq & Hne & Hv)|[(v & vs & Hq & Hne & Hv)|
                     (v & vs & Hq & Hne & Hv)]]]]].
    - destruct (to_filter_tag num FPage query t _ Ht Hq) as (a & Ha & _).
      cbn in Ha. destruct (Strconv.Atoi v) as [n| |]; cbn in Ha;
        try discriminate. apply Hv. eexists; reflexivity.
    - destruct (to_filter_tag num FPageSize query t _ Ht Hq) as (a & Ha & _).
      cbn in Ha. destruct (Strconv.Atoi v) as [n| |]; cbn in Ha;
        try discriminate. apply Hv. eexists; reflexivity.
    - destruct (to_filter_tag num FMileage query t _ Ht Hq) as (a & Ha & _).
      cbn in Ha. rewrite Hv in Ha. discriminate.
    - destruct (to_filter_tag num FVehicleID query t _ Ht Hq) as (a & Ha & Hf).
      rewrite convert_entry_string_tag in Ha by set_solver.
      injection Ha as <-. cbn in Hf. injection Hf as Hf.
      rewrite Hf, ObjectIDFromHex_coerce, coerce_empty in Hid.
      rewrite (Hid Hne) in Hv. discriminate.
    - destruct (to_filter_tag num FStatus query t _ Ht Hq) as (a & Ha & Hf).
      rewrite convert_entry_string_tag in Ha by set_solver.
      injection Ha as <-. cbn in Hf. injection Hf as Hf.
      rewrite Hf, coerce_empty,
        (coerce_elem_of _ _ VehicleStatuses_ascii) in Hst.
      exact (Hv (Hst Hne)).
    - destruct (to_filter_tag num FFuelCondition query t _ Ht Hq)
        as (a & Ha & Hf).
      rewrite convert_entry_string_tag in Ha by set_solver.
      injection Ha as <-. cbn in Hf. injection Hf as Hf.
      rewrite Hf, coerce_empty,
        (coerce_elem_of _ _ FuelConditions_ascii) in Hfc.
      exact (Hv (Hfc Hne)). }
  rewrite FindTrackingData_resolve.
  destruct (resolve num query) as [f|err|m] eqn:Er.
  - exfalso. exact (Hnot f eq_refl).
  - exists err. split; reflexivity.
  - exfalso. exact (resolve_no_panic num query m Hp Er).
Qed.
End QueryPath.

(** The endpoint over the Mongo-backed service answers 400 to a GET whose
    query does not resolve, without asking the collection. *)
Lemma endpoint_rejects_unresolved_filter (num : Json.Numerics)
    (drv : Mongo.Driver) (rm : Services.RequestMethods)
    (encode_result : Handler.Envelope -> option error)
    (query : gmap string (list string)) (c : Mongo.Collection) (err : error) :
  Services.resolve num query = Fail err ->
  @Handler.FindTrackingData _
     (@MongoTrackingService _ (MongoTackingRepository drv) rm num)
     encode_result (Handler.mkHttpRequest "GET" query) c =
  (Ok (Handler.mkResponse 400 (Some (Handler.ErrorEnvelope err)), []), c).
Proof.
  intros Hr. unfold Handler.FindTrackingData. cbn [Handler.Method negb].
  change (String.eqb "GET" Handler.MethodGet) with true. cbn [negb].
  cbn [svc_FindTrackingData MongoTrackingService Handler.Query].
  rewrite FindTrackingData_resolve, Hr. reflexivity.
Qed.

(** * Closed examples *)
Section Examples.
Import Primitive Models Repositories Json Services Fixtures.

(** The claim of C4 as stated fails: a negative page and a negative limit
    pass through the build unchanged. *)
Lemma negative_page_and_limit_pass_through :
  exists f,
    resolve plain_numerics negative_bag = Ok f /\
    Page f = (-1)%Z /\ PageSize f = (-5)%Z /\
    ~ (1 <= Page f)%Z /\ ~ (1 <= PageSize f <= 100)%Z.
Proof.
  eexists. split; [vm_compute; reflexivity|]. cbn.
  repeat split; try reflexivity; lia.
Qed.

(** The claim of C5 as stated fails: an empty vehicle_id is no hex
    identifier and an empty status is no enumerated value, yet the build
    succeeds and the collection is asked. *)
Lemma empty_vehicle_id_and_status_accepted :
  ObjectIDFromHex "" = None /\ ("" ∉ VehicleStatuses) /\
  exists f,
    resolve plain_numerics empty_values_bag = Ok f /\
    (@FindTrackingData _ plain_repository plain_numerics
       empty_values_bag empty_collection).2 =
    Mongo.mkCollection []
      [Mongo.OpFind (Mongo.bsonMFilter f) (Mongo.findOptions f)].
Proof.
  split; [reflexivity|]. split.
  - unfold VehicleStatuses. intros Hin.
    repeat (apply elem_of_cons in Hin; destruct Hin as [Hin|Hin];
            [discriminate|]).
    inversion Hin.
  - eexists. split; [vm_compute; reflexivity|].
    unfold plain_repository. rewrite FindTrackingData_resolve.
    vm_compute. reflexivity.
Qed.

(** The claim of C7 as stated fails twice.  The location .* goes into the
    regular expression as it is: the entry of the query document is the
    expression ^.* and not the prefix match on the text .* of the spec.
    And the page 4611686018427387905 with the limit 3 resolves, and find
    then skips -4611686018427387904 documents, which is not (page - 1)
    times the page size. *)
Lemma metacharacters_and_large_pages :
  (exists f,
     resolve plain_numerics MoreFixtures.wildcard_bag = Ok f /\
     Mongo.bsonMFilter f !! "location" =
       Some (Mongo.BDoc (<["$regex" := Mongo.BString "^.*"]>
                           (<["$options" := Mongo.BString "i"]> ∅))) /\
     Mongo.bsonMFilter f !! "location" <>
       Some (Mongo.spec_location_prefix_match ".*")) /\
  (exists f,
     resolve plain_numerics MoreFixtures.large_page_bag = Ok f /\
     Page f = 4611686018427387905%Z /\ PageSize f = 3%Z /\
     Mongo.Skip (Mongo.findOptions f) = Some (-4611686018427387904)%Z /\
     Mongo.Skip (Mongo.findOptions f) <>
       Some ((Page f - 1) * PageSize f)%Z).
Proof.
  split.
  - destruct (resolve plain_numerics MoreFixtures.wildcard_bag)
      as [f|e|m] eqn:Hr; [|exfalso; vm_compute in Hr; discriminate..].
    exists f. split; [reflexivity|].
    assert (Hf : f = mkFilter 1 10 "created_at" "asc" "" ".*"
                       (S754_zero false) "" "" NilObjectID)
      by (vm_compute in Hr; injection Hr as <-; reflexivity).
    rewrite Hf.
    assert (Hl : Mongo.bsonMFilter
                   (mkFilter 1 10 "created_at" "asc" "" ".*"
                      (S754_zero false) "" "" NilObjectID) !! "location" =
                 Some (Mongo.BDoc (<["$regex" := Mongo.BString "^.*"]>
                                     (<["$options" := Mongo.BString "i"]> ∅))))
      by reflexivity.
    split; [exact Hl|]. rewrite Hl. discriminate.
  - destruct (resolve plain_numerics MoreFixtures.large_page_bag)
      as [f|e|m] eqn:Hr; [|exfalso; vm_compute in Hr; discriminate..].
    exists f.
    assert (Hf : f = mkFilter 4611686018427387905 3 "created_at" "asc" "" ""
                       (S754_zero false) "" "" NilObjectID)
      by (vm_compute in Hr; injection Hr as <-; reflexivity).
    rewrite Hf. repeat split; try reflexivity. cbn. discriminate.
Qed.

(** C6. The service means to ignore the parameters it does not support,
    and does not: Page is none of the nine parameter names, the empty bag
    resolves, and the empty bag extended with Page=2 does not -- the loop
    takes the key for a string parameter, the decoder takes it for the
    page and refuses the string. *)
Lemma capitalized_page_key_rejected :
  ("Page" ∉ recognized_keys) /\
  is_Ok (resolve plain_numerics ∅) /\
  resolve plain_numerics (Values_Add "Page" "2" ∅) =
    Fail (ErrUnmarshalType "page").
Proof.
  split; [|split].
  - unfold recognized_keys. cbn. intros Hin.
    repeat (apply elem_of_cons in Hin; destruct Hin as [Hin|Hin];
            [discriminate|]).
    inversion Hin.
  - eexists. vm_compute. reflexivity.
  - vm_compute. reflexivity.
Qed.

(** A schedule of three deliveries on the empty collection: the second,
    decodable and valid, gets one republishing goroutine with the body and
    one Ack, although the broker refuses the publish, and leaves the
    collection the service left. *)
Lemma consume_success_witness :
  (@App.Consume _ plain_service plain_broker MoreFixtures.mixed_schedule
     empty_collection).1.*1 = MoreFixtures.mixed_schedule /\
  exists h,
    (@App.Consume _ plain_service plain_broker MoreFixtures.mixed_schedule
       empty_collection).1 !! 1%nat = Some (App.mkDelivery [Byte.x7b] 7, h) /\
    App.spawned h = [App.mkPublishTask [Byte.x7b]] /\
    Forall (fun t =>
              App.calls (App.run_publish (App.mkEnvConfig "vehicle")
                           plain_broker t) =
              [App.PublishWithContext "" "vehicle" false false
                 (App.mkPublishing "application/json" [Byte.x7b])])
           (App.spawned h) /\
    App.calls (App.trace h) = [App.Ack 7 false] /\
    (@App.Consume _ plain_service plain_broker
       (take 2 MoreFixtures.mixed_schedule) empty_collection).2 =
      (@svc_TrackVehicle _ plain_service good_request empty_collection).2.
Proof.
  apply (@consume_success_republishes_and_acks _ plain_service
           (App.mkEnvConfig "vehicle") plain_broker
           MoreFixtures.mixed_schedule empty_collection
           (@svc_TrackVehicle _ plain_service good_request empty_collection).2
           1%nat (App.mkDelivery [Byte.x7b] 7) good_request);
    reflexivity.
Defined.

(** In the same schedule the undecodable delivery and the delivery with an
    invalid status get one Nack without requeue each, nothing else. *)
Lemma consume_failure_witness :
  (exists h,
     (@App.Consume _ plain_service plain_broker MoreFixtures.mixed_schedule
        empty_collection).1 !! 0%nat = Some (App.mkDelivery [] 3, h) /\
     App.calls (App.trace h) = [App.Nack 3 false false] /\
     App.spawned h = [] /\
     App.track_calls h = [] /\
     (@App.Consume _ plain_service plain_broker
        (take 1 MoreFixtures.mixed_schedule) empty_collection).2 =
       (@App.Consume _ plain_service plain_broker
          (take 0 MoreFixtures.mixed_schedule) empty_collection).2) /\
  (exists h,
     (@App.Consume _ plain_service plain_broker MoreFixtures.mixed_schedule
        empty_collection).1 !! 2%nat =
       Some (App.mkDelivery [Byte.x7b; Byte.x7d] 4, h) /\
     App.calls (App.trace h) = [App.Nack 4 false false] /\
     App.spawned h = []).
Proof.
  split.
  - exact (proj1 (proj2 (@consume_failure_nacks_without_requeue _ plain_service
                           plain_broker MoreFixtures.mixed_schedule
                           empty_collection 0%nat (App.mkDelivery [] 3)
                           eq_refl))
             (ErrExternal "unexpected end of JSON input") eq_refl).
  - exact (proj2 (proj2 (@consume_failure_nacks_without_requeue _ plain_service
                           plain_broker MoreFixtures.mixed_schedule
                           empty_collection 2%nat
                           (App.mkDelivery [Byte.x7b; Byte.x7d] 4) eq_refl))
             bad_request ErrInvalidVehicleStatus
             (@App.Consume _ plain_service plain_broker
                (take 2 MoreFixtures.mixed_schedule) empty_collection).2
             eq_refl eq_refl).
Defined.

(** A submission with an unknown status is rejected before the store. *)
Lemma track_invalid_witness :
  spec_Validate bad_request = Some ErrInvalidVehicleStatus /\
  @TrackVehicle _ plain_repository spec_methods bad_request one_document =
    (Fail ErrInvalidVehicleStatus, one_document).
Proof.
  split; [reflexivity|].
  apply (proj1 (@track_invalid_leaves_store _ plain_repository spec_methods
                  bad_request one_document ErrInvalidVehicleStatus)).
  reflexivity.
Defined.


(** Page 3 and limit 500 resolve to page 3 and page size 100. *)
Lemma resolved_pagination_witness :
  exists f,
    resolve plain_numerics paging_bag = Ok f /\
    (PageSize f <= 100)%Z /\ Page f <> 0%Z /\ PageSize f <> 0%Z /\
    (1 <= Page f)%Z /\ (1 <= PageSize f <= 100)%Z.
Proof.
  eexists. split; [vm_compute; reflexivity|].
  destruct (resolved_pagination_bounds plain_numerics paging_bag _
              ltac:(vm_compute; reflexivity))
    as (H1 & H2 & H3 & H4 & H5).
  assert (Hpage : forall v vs n, paging_bag !! "page" = Some (v :: vs) ->
                    Strconv.Atoi v = Ok n -> (0 <= n)%Z).
  { intros v vs n Hq. vm_compute in Hq. injection Hq as <- <-.
    vm_compute. intros [= <-]. discriminate. }
  assert (Hlimit : forall v vs n, paging_bag !! "limit" = Some (v :: vs) ->
                     Strconv.Atoi v = Ok n -> (0 <= n)%Z).
  { intros v vs n Hq. vm_compute in Hq. injection Hq as <- <-.
    vm_compute. intros [= <-]. discriminate. }
  exact (conj H1 (conj H2 (conj H3 (conj (H4 Hpage) (H5 Hlimit))))).
Defined.

Lemma parsed_values_singleton (k : string) (v : string) :
  parsed_values (<[k := [v]]> ∅).
Proof.
  intros key. destruct (decide (key = k)) as [->|Hne].
  - rewrite lookup_insert_eq. discriminate.
  - rewrite lookup_insert_ne by congruence. rewrite lookup_empty. discriminate.
Defined.

(** The status bogus is refused, and the collection is not asked. *)
Lemma malformed_parameter_witness :
  exists err,
    resolve plain_numerics bogus_status_bag = Fail err /\
    @FindTrackingData _ (MongoTackingRepository plain_driver) plain_numerics
      bogus_status_bag one_document = (Fail err, one_document).
Proof.
  apply (malformed_parameter_fails plain_numerics plain_driver
           bogus_status_bag one_document
           (parsed_values_singleton "status" "bogus")).
  do 4 right. left. exists "bogus", []. split; [reflexivity|].
  split; [discriminate|]. vm_compute. intros Hin.
  repeat (apply elem_of_cons in Hin; destruct Hin as [Hin|Hin];
          [discriminate|]).
  inversion Hin.
Defined.

(** The parameter utm_source is ignored. *)
Lemma unselected_key_witness :
  resolve plain_numerics (Values_Add "utm_source" "mail" limit_bag) =
  resolve plain_numerics limit_bag.
Proof.
  assert (Hk : fold_key "utm_source" ∉ recognized_keys).
  { vm_compute. intros Hin.
    repeat (apply elem_of_cons in Hin; destruct Hin as [Hin|Hin];
            [discriminate|]).
    inversion Hin. }
  assert (Hne : limit_bag !! "utm_source" <> Some []) by discriminate.
  destruct (resolve plain_numerics limit_bag) as [f| |] eqn:E;
    [|vm_compute in E; discriminate..].
  apply (unselected_key_ignored plain_numerics _ "utm_source" "mail" f Hk Hne).
  exact E.
Defined.

(** Page 3 of size 10 on locations starting with Yan, sorted by location
    descending: skip 20, limit 10. *)
Lemma find_witness :
  let t := mkFilter 3 0 "location" "desc" "" "Yan" (S754_zero false) "" ""
             NilObjectID in
  exists t',
    Build t = (t', None) /\
    Mongo.Skip (Mongo.findOptions t') = Some 20%Z /\
    Mongo.Limit (Mongo.findOptions t') = Some 10%Z /\
    Mongo.Sort (Mongo.findOptions t') = Some [("location", (-1)%Z)] /\
    Mongo.bsonMFilter t' !! "vehicle_id" = None /\
    Mongo.bsonMFilter t' !! "location" =
      Some (Mongo.spec_location_prefix_match "Yan").
Proof.
  intros t. eexists. split; [reflexivity|].
  destruct (find_predicate_sort_pagination plain_driver t _ empty_collection
              eq_refl)
    as (_ & Hv & _ & Hprefix & _ & _ & _ & _ & Hsort & _ & Hskip & Hlimit & _).
  split; [|split; [|split; [|split]]].
  - apply Hskip. vm_compute. split; discriminate.
  - exact Hlimit.
  - exact Hsort.
  - exact Hv.
  - apply Hprefix; [discriminate | reflexivity].
Defined.

(** The sort order DESC is accepted and sorts ascending. *)
Lemma sort_order_witness :
  let t := mkFilter 1 10 "location" "DESC" "" "" (S754_zero false) "" ""
             NilObjectID in
  (Build t).2 = None /\
  Mongo.Sort (Mongo.findOptions (Build t).1) = Some [("location", 1%Z)].
Proof.
  intros t. split; [reflexivity|].
  destruct (sort_order_never_validated plain_driver t empty_collection)
    as [_ Hfind].
  destruct (Hfind (Build t).1 eq_refl) as (_ & Hsort & _).
  exact Hsort.
Defined.

(** The four answers of the endpoint. *)
Lemma endpoint_witness :
  let enc : Handler.Envelope -> option error := fun _ => None in
  (@Handler.FindTrackingData _ plain_service enc
     (Handler.mkHttpRequest "POST" ∅) one_document).1 =
    Ok (Handler.mkResponse 405
          (Some (Handler.ErrorEnvelope ErrMethodNotAllowed)), []) /\
  (@Handler.FindTrackingData _ plain_service enc
     (Handler.mkHttpRequest "GET" bogus_status_bag) one_document).1 =
    Ok (Handler.mkResponse 400
          (Some (Handler.ErrorEnvelope ErrInvalidVehicleStatus)), []) /\
  (@Handler.FindTrackingData _ plain_service enc
     (Handler.mkHttpRequest "GET" ∅) empty_collection).1 =
    Ok (Handler.mkResponse 404 (Some (Handler.ErrorEnvelope ErrNotFound)), []) /\
  (exists resp,
     (@Handler.FindTrackingData _ plain_service enc
        (Handler.mkHttpRequest "GET" ∅) one_document).1 = Ok (resp, []) /\
     Handler.StatusCode resp = 200%Z /\
     Handler.Written resp =
       Some (Handler.SuccessEnvelope (Mongo.docs one_document)
               "successfully fetched tracking data")).
Proof.
  intros enc.
  assert (H200 : @svc_FindTrackingData _ plain_service ∅ one_document =
                 (Ok (Mongo.docs one_document),
                  Mongo.mkCollection (Mongo.docs one_document)
                    [Mongo.OpFind ∅
                       (Mongo.mkFindOptions (Some [("created_at", 1%Z)])
                          (Some 0%Z) (Some 10%Z))]))
    by (vm_compute; reflexivity).
  assert (H400 : @svc_FindTrackingData _ plain_service bogus_status_bag
                   one_document = (Fail ErrInvalidVehicleStatus, one_document))
    by (vm_compute; reflexivity).
  assert (H404 : @svc_FindTrackingData _ plain_service ∅ empty_collection =
                 (Ok [],
                  Mongo.mkCollection []
                    [Mongo.OpFind ∅
                       (Mongo.mkFindOptions (Some [("created_at", 1%Z)])
                          (Some 0%Z) (Some 10%Z))]))
    by (vm_compute; reflexivity).
  split; [|split; [|split]].
  - destruct (@endpoint_status_codes _ plain_service enc
                (Handler.mkHttpRequest "POST" ∅) one_document) as [Hpost _].
    rewrite Hpost by discriminate. reflexivity.
  - destruct (@endpoint_status_codes _ plain_service enc
                (Handler.mkHttpRequest "GET" bogus_status_bag) one_document)
      as [_ Hget].
    destruct (Hget eq_refl) as (Hbad & _ & _).
    rewrite (Hbad _ _ H400). reflexivity.
  - destruct (@endpoint_status_codes _ plain_service enc
                (Handler.mkHttpRequest "GET" ∅) empty_collection)
      as [_ Hget].
    destruct (Hget eq_refl) as (_ & Hnone & _).
    rewrite (Hnone _ H404). reflexivity.
  - destruct (@endpoint_status_codes _ plain_service enc
                (Handler.mkHttpRequest "GET" ∅) one_document)
      as [_ Hget].
    destruct (Hget eq_refl) as (_ & _ & Hsome).
    destruct (Hsome _ _ H200 ltac:(discriminate))
      as (resp & logs & Hresp & Hcode & Hwritten).
    cbn in Hwritten. destruct Hwritten as [Hw ->].
    exists resp. rewrite Hresp. auto.
Defined.
End Examples.

(** * Further properties of the code *)

(** Membership in a list that is written out. *)
Ltac list_mem :=
  solve [repeat first [apply elem_of_cons; left; reflexivity
                      | apply elem_of_cons; right]].

(** ** The consumer, delivery by delivery and over a schedule *)
Section ConsumerShapes.
Import Services App Ingestion.
Context {S : Type} `{TrackingService S}.
Variable b : Broker.

(** X1. Whatever the decoder, the service and the broker answer, the
    goroutine of a delivery calls the service at most once and the broker
    at most once: either Nack on the delivery's own tag with multiple and
    requeue both false and no republishing goroutine, or Ack on the
    delivery's own tag with multiple false and exactly one republishing
    goroutine holding the delivery's body; it makes no broker call only
    when the decoder or the service panicked. *)
Theorem handle_acknowledges_at_most_once (msg : Delivery) (s : S) :
  (length (track_calls (handle b msg s)) <= 1)%nat /\
  ((calls (trace (handle b msg s)) = [Nack (DeliveryTag msg) false false] /\
    spawned (handle b msg s) = []) \/
   (calls (trace (handle b msg s)) = [Ack (DeliveryTag msg) false] /\
    spawned (handle b msg s) = [mkPublishTask (Body msg)]) \/
   (calls (trace (handle b msg s)) = [] /\
    spawned (handle b msg s) = [] /\
    ((exists m, Unmarshal_request b (Body msg) = Panic m) \/
     (exists req m s', Unmarshal_request b (Body msg) = Ok req /\
                       svc_TrackVehicle req s = (Panic m, s'))))).
Proof.
  unfold handle.
  destruct (Unmarshal_request b (Body msg)) as [req|err|m] eqn:Ed.
  - destruct (svc_TrackVehicle req s) as [[u|err|m] s'] eqn:Et;
      cbn [track_calls trace spawned length]; (split; [lia|]).
    + right; left. rewrite calls_log_then, calls_ack. auto.
    + left. rewrite !calls_log_then, calls_nack. auto.
    + right; right. cbn. eauto 10.
  - cbn [track_calls trace spawned length]. split; [lia|].
    left. rewrite calls_log_then, calls_nack. auto.
  - cbn. split; [lia|]. right; right. eauto 10.
Qed.

Lemma handle_undecodable_state (msg : Delivery) (s : S) :
  undecodable b msg = true -> state (handle b msg s) = s.
Proof.
  unfold undecodable, handle.
  destruct (Unmarshal_request b (Body msg)); try discriminate. reflexivity.
Qed.

(** X2. Deliveries whose body does not decode do not matter to the
    others: taking them out of the schedule leaves the final state of the
    service and the outcome of every other delivery as they were. *)
Theorem Consume_ignores_undecodable (schedule : list Delivery) (s : S) :
  (Consume b (List.filter (fun m => negb (undecodable b m)) schedule) s).2 =
    (Consume b schedule s).2 /\
  (Consume b (List.filter (fun m => negb (undecodable b m)) schedule) s).1 =
    List.filter (fun mh => negb (undecodable b mh.1)) (Consume b schedule s).1.
Proof.
  revert s. induction schedule as [|msg rest IH]; intros s; [split; reflexivity|].
  cbn [List.filter Consume].
  destruct (undecodable b msg) eqn:Eu; cbn [negb].
  - rewrite (handle_undecodable_state msg s Eu).
    destruct (IH s) as [IH2 IH1].
    destruct (Consume b rest s) as [hs s'] eqn:Ec.
    cbn [fst snd List.filter]. rewrite Eu. cbn [negb]. split; assumption.
  - cbn [Consume].
    destruct (IH (state (handle b msg s))) as [IH2 IH1].
    destruct (Consume b rest (state (handle b msg s))) as [hs s'] eqn:Ec.
    destruct (Consume b (List.filter (fun m => negb (undecodable b m)) rest)
                (state (handle b msg s))) as [hs0 s0] eqn:Ec0.
    cbn [fst snd List.filter] in *. rewrite Eu. cbn [negb].
    split; [assumption | f_equal; assumption].
Qed.
End ConsumerShapes.

(** ** Ingestion into the Mongo-backed store *)
Section IngestionStore.
Import Models Services App Ingestion.
Variable drv : Mongo.Driver.
Variable rm : RequestMethods.
Variable num : Json.Numerics.
Variable b : Broker.

Let svc : TrackingService Mongo.Collection :=
  @MongoTrackingService _ (MongoTackingRepository drv) rm num.

Lemma CreateTrackingData_docs (d : TrackingData) (c : Mongo.Collection) :
  match Mongo.CreateTrackingData drv d c with
  | (Ok stored, c') =>
      exists built id,
        Mongo.TrackingData_Build drv d = Ok built /\
        Mongo.InsertOne_result drv c built = Ok id /\
        stored = Mongo.set_ID id built /\
        Mongo.docs c' = Mongo.docs c ++ [stored]
  | (_, c') => Mongo.docs c' = Mongo.docs c
  end.
Proof.
  unfold Mongo.CreateTrackingData.
  destruct (Mongo.TrackingData_Build drv d) as [built| |]; try reflexivity.
  unfold Mongo.InsertOne.
  destruct (Mongo.InsertOne_result drv c built) as [id| |] eqn:Ei;
    cbn; eauto 10.
Qed.

Lemma TrackVehicle_docs (req : TrackingDataRequest) (c : Mongo.Collection) :
  match @svc_TrackVehicle _ svc req c with
  | (Ok _, c') =>
      exists td built id,
        Validate rm req = None /\
        ToTrackingData rm req = Ok td /\
        Mongo.TrackingData_Build drv td = Ok built /\
        Mongo.InsertOne_result drv c built = Ok id /\
        Mongo.docs c' = Mongo.docs c ++ [Mongo.set_ID id built]
  | (_, c') => Mongo.docs c' = Mongo.docs c
  end.
Proof.
  cbn [svc_TrackVehicle svc MongoTrackingService]. unfold TrackVehicle.
  destruct (Validate rm req); [reflexivity|].
  destruct (ToTrackingData rm req) as [td| |]; try reflexivity.
  cbn [repo_Create MongoTackingRepository].
  assert (Hc := CreateTrackingData_docs td c).
  destruct (Mongo.CreateTrackingData drv td c) as [[stored| |] c'];
    try exact Hc.
  destruct Hc as (built & id & Hb & Hi & -> & Hd). eauto 10.
Qed.

(** X3. Over the Mongo-backed service a delivery is positively
    acknowledged exactly when its record went into the collection: when
    the goroutine made the Ack, the documents are those before followed by
    one, the built record of the decoded submission under the identifier
    the database answered; in every other case (Nack or panic) the
    documents are those before. *)
Theorem handle_persists_iff_acked (msg : Delivery) (c : Mongo.Collection) :
  (acked (@handle _ svc b msg c) = true ->
   exists req td built id,
     Unmarshal_request b (Body msg) = Ok req /\
     Validate rm req = None /\
     ToTrackingData rm req = Ok td /\
     Mongo.TrackingData_Build drv td = Ok built /\
     Mongo.InsertOne_result drv c built = Ok id /\
     Mongo.docs (state (@handle _ svc b msg c)) =
       Mongo.docs c ++ [Mongo.set_ID id built]) /\
  (acked (@handle _ svc b msg c) = false ->
   Mongo.docs (state (@handle _ svc b msg c)) = Mongo.docs c).
Proof.
  unfold acked, handle.
  destruct (Unmarshal_request b (Body msg)) as [req|err|m] eqn:Ed.
  - assert (Ht := TrackVehicle_docs req c).
    destruct (@svc_TrackVehicle _ svc req c) as [[u|err|m] c'] eqn:Et;
      cbn [trace state].
    + rewrite calls_log_then, calls_ack. split; [|discriminate].
      intros _. destruct Ht as (td & built & id & Hv & Htd & Hb & Hi & Hd).
      eauto 10.
    + rewrite !calls_log_then, calls_nack. split; [discriminate|auto].
    + cbn. split; [discriminate|auto].
  - cbn [trace state]. rewrite calls_log_then, calls_nack.
    split; [discriminate|auto].
  - cbn. split; [discriminate|auto].
Qed.

(** X4. Over a whole schedule the collection only grows, and by one
    document per positively acknowledged delivery: the documents after
    the schedule are those before followed by as many new ones as there
    were Acks. *)
Theorem Consume_appends_one_per_ack (schedule : list Delivery)
    (c : Mongo.Collection) :
  exists new,
    Mongo.docs (@Consume _ svc b schedule c).2 = Mongo.docs c ++ new /\
    length new =
      length (List.filter (fun mh => acked mh.2) (@Consume _ svc b schedule c).1).
Proof.
  revert c. induction schedule as [|msg rest IH]; intros c.
  - exists []. cbn. rewrite app_nil_r. auto.
  - cbn [Consume].
    destruct (handle_persists_iff_acked msg c) as [Hack Hnack].
    destruct (IH (state (@handle _ svc b msg c))) as (new & Hd & Hl).
    destruct (@Consume _ svc b rest (state (@handle _ svc b msg c)))
      as [hs c'] eqn:Ec.
    cbn [fst snd List.filter] in *.
    destruct (acked (@handle _ svc b msg c)) eqn:Ea.
    + destruct (Hack eq_refl) as (req & td & built & id & _ & _ & _ & _ & _ & Hone).
      exists (Mongo.set_ID id built :: new). rewrite Hd, Hone, <- app_assoc.
      cbn. rewrite Hl. auto.
    + exists new. rewrite Hd, (Hnack eq_refl). auto.
Qed.
End IngestionStore.

(** ** Build as a normalisation *)
Section BuildNormalForm.
Import Primitive Models Repositories.

Lemma filter_eq (t u : TrackingFilter) :
  Page t = Page u -> PageSize t = PageSize u ->
  SortField t = SortField u -> SortOrder t = SortOrder u ->
  VehicleID t = VehicleID u -> Location t = Location u ->
  Mileage t = Mileage u -> Status t = Status u ->
  FuelCondition t = FuelCondition u -> vehicleID t = vehicleID u -> t = u.
Proof. destruct t, u; cbn; intros; subst; reflexivity. Qed.

Lemma Build_defaults_idempotent t :
  Build_defaults (Build_defaults t) = Build_defaults t.
Proof.
  destruct (Build_defaults_rest (Build_defaults t))
    as (Hv & Hl & Hm & Hs & Hf & Hid).
  apply filter_eq; try assumption.
  - rewrite !Build_defaults_Page.
    destruct (Page t =? 0)%Z eqn:E; [reflexivity | rewrite E; reflexivity].
  - rewrite !Build_defaults_PageSize. cbn zeta.
    destruct (PageSize t =? 0)%Z eqn:E; [reflexivity|].
    destruct (100 <? PageSize t)%Z eqn:E2; [reflexivity|].
    rewrite E, E2. reflexivity.
  - rewrite !Build_defaults_SortField.
    destruct (String.eqb (SortField t) "") eqn:E;
      [reflexivity | rewrite E; reflexivity].
  - rewrite !Build_defaults_SortOrder.
    destruct (String.eqb (SortOrder t) "") eqn:E;
      [reflexivity | rewrite E; reflexivity].
Qed.

Lemma Build_defaults_set_vehicleID id t :
  Build_defaults (set_vehicleID id t) = set_vehicleID id (Build_defaults t).
Proof.
  destruct t as [p ps sf so v l m st fc id0]. unfold Build_defaults. cbn.
  destruct (p =? 0)%Z; cbn; destruct (ps =? 0)%Z; cbn;
    try (destruct (100 <? ps)%Z; cbn);
    destruct (String.eqb sf ""); cbn; destruct (String.eqb so ""); reflexivity.
Qed.

Lemma set_vehicleID_twice id t :
  set_vehicleID id (set_vehicleID id t) = set_vehicleID id t.
Proof. destruct t; reflexivity. Qed.

(** X5. Build is idempotent: building the filter that a Build left
    behind, whether that Build succeeded or failed, changes nothing and
    ends the same way. *)
Theorem Build_idempotent t : Build (Build t).1 = Build t.
Proof.
  unfold Build at 2 3.
  set (d := Build_defaults t).
  assert (Hd : Build_defaults d = d) by apply Build_defaults_idempotent.
  clearbody d.
  destruct (negb (String.eqb (VehicleID d) "")) eqn:Ev.
  - destruct (ObjectIDFromHex (VehicleID d)) as [id|] eqn:Eid.
    + cbn [Status FuelCondition set_vehicleID].
      assert (Hb : Build_defaults (set_vehicleID id d) = set_vehicleID id d)
        by (rewrite Build_defaults_set_vehicleID, Hd; reflexivity).
      destruct (if negb (String.eqb (Status d) "")
                then VehicleStatus_Valid (Status d) else None) as [e|] eqn:Es;
        [|destruct (if negb (String.eqb (FuelCondition d) "")
                    then FuelCondition_Valid (FuelCondition d) else None)
            as [e|] eqn:Ef];
        cbn [fst]; unfold Build; rewrite Hb;
        cbn [VehicleID Status FuelCondition set_vehicleID];
        rewrite Ev, Eid; cbn [Status FuelCondition set_vehicleID];
        rewrite ?Es, ?Ef, set_vehicleID_twice; reflexivity.
    + cbn [fst]. unfold Build. rewrite Hd, Ev, Eid. reflexivity.
  - destruct (if negb (String.eqb (Status d) "")
              then VehicleStatus_Valid (Status d) else None) as [e|] eqn:Es;
      [|destruct (if negb (String.eqb (FuelCondition d) "")
                  then FuelCondition_Valid (FuelCondition d) else None)
          as [e|] eqn:Ef];
      cbn [fst]; unfold Build; rewrite Hd, Ev, ?Es, ?Ef; reflexivity.
Qed.

(** X18. Build writes into the filter before it validates, so the filter
    is changed whether Build succeeds or fails: a zero page has become 1,
    a zero page size 10 and a page size above 100 has become 100, an empty
    sort field and sort order have become created_at and asc; the vehicle
    id, location, mileage, status and fuel condition are as before; and
    the identifier is the decoded vehicle id when that is not empty and
    decodes -- also when the status or the fuel condition is then
    rejected -- and is otherwise as before. *)
Theorem Build_writes_whatever_the_outcome t :
  Page (Build t).1 = (if (Page t =? 0)%Z then 1%Z else Page t) /\
  PageSize (Build t).1 =
    (if (PageSize t =? 0)%Z then 10%Z
     else if (100 <? PageSize t)%Z then 100%Z else PageSize t) /\
  SortField (Build t).1 =
    (if String.eqb (SortField t) "" then "created_at" else SortField t) /\
  SortOrder (Build t).1 =
    (if String.eqb (SortOrder t) "" then "asc" else SortOrder t) /\
  VehicleID (Build t).1 = VehicleID t /\
  Location (Build t).1 = Location t /\
  Mileage (Build t).1 = Mileage t /\
  Status (Build t).1 = Status t /\
  FuelCondition (Build t).1 = FuelCondition t /\
  VehicleObjID (Build t).1 =
    (if String.eqb (VehicleID t) "" then VehicleObjID t
     else match ObjectIDFromHex (VehicleID t) with
          | Some id => id
          | None => VehicleObjID t
          end).
Proof.
  assert (Hps : PageSize (Build_defaults t) =
                if (PageSize t =? 0)%Z then 10%Z
                else if (100 <? PageSize t)%Z then 100%Z else PageSize t).
  { rewrite Build_defaults_PageSize. cbv zeta.
    destruct (PageSize t =? 0)%Z; reflexivity. }
  destruct (Build_defaults_rest t) as (Hv & Hl & Hm & Hs & Hf & Hid).
  assert (Hcases :
            ((Build t).1 = Build_defaults t /\
             (if String.eqb (VehicleID t) "" then True
              else ObjectIDFromHex (VehicleID t) = None)) \/
            (exists id,
               (Build t).1 = set_vehicleID id (Build_defaults t) /\
               String.eqb (VehicleID t) "" = false /\
               ObjectIDFromHex (VehicleID t) = Some id)).
  { unfold Build. rewrite <- Hv.
    set (d := Build_defaults t). clearbody d.
    destruct (String.eqb (VehicleID d) "") eqn:Ev; cbn [negb].
    - left.
      destruct (if negb (String.eqb (Status d) "")
                then VehicleStatus_Valid (Status d) else None);
        [|destruct (if negb (String.eqb (FuelCondition d) "")
                    then FuelCondition_Valid (FuelCondition d) else None)];
        auto.
    - destruct (ObjectIDFromHex (VehicleID d)) as [id|] eqn:Eid.
      + right. exists id. cbn [Status FuelCondition set_vehicleID].
        destruct (if negb (String.eqb (Status d) "")
                  then VehicleStatus_Valid (Status d) else None);
          [|destruct (if negb (String.eqb (FuelCondition d) "")
                      then FuelCondition_Valid (FuelCondition d) else None)];
          auto.
      + left. auto. }
  unfold VehicleObjID.
  destruct Hcases as [[-> Hnone]|(id & -> & Ev & Eid)].
  - rewrite Build_defaults_Page, Hps, Build_defaults_SortField,
      Build_defaults_SortOrder, Hv, Hl, Hm, Hs, Hf, Hid.
    repeat (split; [reflexivity|]).
    destruct (String.eqb (VehicleID t) ""); [reflexivity|].
    rewrite Hnone. reflexivity.
  - rewrite Ev, Eid.
    assert (HP := Build_defaults_Page t).
    assert (HF := Build_defaults_SortField t).
    assert (HO := Build_defaults_SortOrder t).
    clear Hid. set (d := Build_defaults t) in *. clearbody d.
    destruct d. cbn in *. subst. repeat split; reflexivity.
Qed.
End BuildNormalForm.

(** ** Pagination windows *)
Section PaginationWindows.
Import Primitive Models Repositories Mongo.

Lemma Skip_findOptions t :
  Skip (findOptions t) = Some (GoInt.wrap ((Page t - 1) * PageSize t)).
Proof.
  unfold findOptions. cbn [Skip SetSkip SetLimit]. rewrite wrap_mul_sub.
  reflexivity.
Qed.

Lemma Limit_findOptions t : Limit (findOptions t) = Some (PageSize t).
Proof. reflexivity. Qed.

(** X6. Consecutive pages are adjacent windows.  For a filter that builds,
    with a page between 1 and 2^55 and a page size that is not negative,
    the same filter asked for the next page builds too; both queries have
    the same limit n, between 1 and 100, the first skips (page - 1) * n
    documents and the second skips exactly n more. *)
Theorem next_page_starts_where_page_ends (t t1 : TrackingFilter) :
  (1 <= Page t < 2 ^ 55)%Z -> (0 <= PageSize t)%Z ->
  Build t = (t1, None) ->
  exists t2 n,
    Build (set_Page (Page t + 1) t) = (t2, None) /\
    (1 <= n <= 100)%Z /\
    Limit (findOptions t1) = Some n /\ Limit (findOptions t2) = Some n /\
    Skip (findOptions t1) = Some ((Page t - 1) * n)%Z /\
    Skip (findOptions t2) = Some ((Page t - 1) * n + n)%Z.
Proof.
  intros Hp Hps HB.
  assert (He : (Build (set_Page (Page t + 1) t)).2 = None).
  { rewrite Build_error. cbn [VehicleID Status FuelCondition set_Page].
    rewrite <- Build_error, HB. reflexivity. }
  destruct (Build (set_Page (Page t + 1) t)) as [t2 e] eqn:HB2.
  cbn in He. subst e.
  destruct (Build_ok _ _ HB) as (HP1 & HS1 & _).
  destruct (Build_ok _ _ HB2) as (HP2 & HS2 & _).
  rewrite Build_defaults_Page in HP1, HP2.
  rewrite Build_defaults_PageSize in HS1, HS2.
  cbn [Page PageSize set_Page] in HP2, HS2. cbn zeta in HS1, HS2.
  assert (E1 : (Page t =? 0)%Z = false) by (apply Z.eqb_neq; lia).
  assert (E2 : (Page t + 1 =? 0)%Z = false) by (apply Z.eqb_neq; lia).
  rewrite E1 in HP1. rewrite E2 in HP2.
  set (n := PageSize t1) in *.
  assert (Hn : (1 <= n <= 100)%Z).
  { rewrite HS1. destruct (PageSize t =? 0)%Z eqn:E0; cbn; [lia|].
    apply Z.eqb_neq in E0. destruct (100 <? PageSize t)%Z eqn:E100; [lia|].
    apply Z.ltb_nlt in E100. lia. }
  assert (Hn2 : PageSize t2 = n) by (rewrite HS2, <- HS1; reflexivity).
  exists t2, n. split; [reflexivity|]. split; [exact Hn|].
  rewrite !Limit_findOptions, !Skip_findOptions, Hn2, HP1, HP2.
  fold n. split; [reflexivity|]. split; [reflexivity|].
  assert (H55 : (2 ^ 55 = 36028797018963968)%Z) by reflexivity.
  split; (rewrite wrap_in_range;
          [f_equal; lia
          | unfold GoInt.min_int, GoInt.max_int;
            assert (H63 : (2 ^ 63 = 9223372036854775808)%Z) by reflexivity;
            rewrite H63; nia]).
Qed.
End PaginationWindows.

(** ** More on the filter builder *)
Section FilterBuilderMore.
Import Primitive Models Repositories Json Services.
Variable num : Numerics.

Lemma assign_vehicleID (f : field) a t t' :
  assign num f a t = Ok t' -> vehicleID t' = vehicleID t.
Proof.
  intros Ha. destruct f; cbn in Ha;
    match type of Ha with
    | bind ?d _ = _ => destruct d; cbn in Ha; try discriminate
    end;
    injection Ha as <-; reflexivity.
Qed.

Lemma Unmarshal_vehicleID (buf : json_object) t t' :
  Unmarshal num buf t = Ok t' -> vehicleID t' = vehicleID t.
Proof.
  revert t. induction buf as [|[k a] buf IH]; intros t Hu.
  - cbn in Hu. congruence.
  - cbn [Unmarshal] in Hu. destruct (field_of_key k) as [f|]; [|auto].
    destruct (assign num f a t) as [t1| |] eqn:Ea; cbn [bind] in Hu;
      try discriminate.
    rewrite (IH _ Hu). eapply assign_vehicleID. exact Ea.
Qed.

Lemma hex_val_lt (c : ascii) (n : N) : hex_val c = Some n -> (n < 16)%N.
Proof.
  unfold hex_val.
  destruct ((48 <=? N_of_ascii c)%N && (N_of_ascii c <=? 57)%N) eqn:E1.
  { apply andb_true_iff in E1. destruct E1 as [A B].
    apply N.leb_le in A, B. intros [= <-]. lia. }
  destruct ((97 <=? N_of_ascii c)%N && (N_of_ascii c <=? 102)%N) eqn:E2.
  { apply andb_true_iff in E2. destruct E2 as [A B].
    apply N.leb_le in A, B. intros [= <-]. lia. }
  destruct ((65 <=? N_of_ascii c)%N && (N_of_ascii c <=? 70)%N) eqn:E3;
    [|discriminate].
  apply andb_true_iff in E3. destruct E3 as [A B].
  apply N.leb_le in A, B. intros [= <-]. lia.
Qed.

Lemma hex_decode_bytes (bs : list N) :
  forall s, hex_decode s = Some bs ->
            String.length s = (2 * length bs)%nat /\
            Forall (fun x => (x < 256)%N) bs.
Proof.
  induction bs as [|x bs IH]; intros s Hs.
  - destruct s as [|hi [|lo s']]; cbn in Hs; try discriminate.
    + split; [reflexivity | constructor].
    + destruct (hex_val hi), (hex_val lo), (hex_decode s'); discriminate.
  - destruct s as [|hi [|lo s']]; cbn in Hs; try discriminate.
    destruct (hex_val hi) as [h|] eqn:Eh; [|discriminate].
    destruct (hex_val lo) as [l|] eqn:El; [|discriminate].
    destruct (hex_decode s') as [bs'|] eqn:Ed; [|discriminate].
    injection Hs as <- <-. destruct (IH s' Ed) as [Hlen Hall].
    split; [cbn; lia|].
    constructor; [|exact Hall].
    apply hex_val_lt in Eh, El. lia.
Qed.

Lemma Build_ok_vehicleID t t' :
  Build t = (t', None) -> VehicleID t = "" -> vehicleID t' = vehicleID t.
Proof.
  unfold Build.
  destruct (Build_defaults_rest t) as (Hv & _ & _ & _ & _ & Hid).
  set (d := Build_defaults t) in *. clearbody d. intros HB Hempty.
  rewrite Hempty in Hv. rewrite Hv in HB. cbn [String.eqb negb] in HB.
  destruct (if negb (String.eqb (Status d) "")
            then VehicleStatus_Valid (Status d) else None); [discriminate|].
  destruct (if negb (String.eqb (FuelCondition d) "")
            then FuelCondition_Valid (FuelCondition d) else None);
    [discriminate|].
  injection HB as <-. exact Hid.
Qed.

(** X7. The identifier of a resolved filter is always twelve bytes: the
    nil identifier when the filter has no vehicle id, and otherwise the
    bytes that the hex string of the filter denotes. *)
Theorem resolved_vehicle_identifier (query : gmap string (list string))
    (f : TrackingFilter) :
  resolve num query = Ok f ->
  length (VehicleObjID f) = 12%nat /\
  Forall (fun x => (x < 256)%N) (VehicleObjID f) /\
  (VehicleID f = "" -> VehicleObjID f = NilObjectID) /\
  (VehicleID f <> "" -> ObjectIDFromHex (VehicleID f) = Some (VehicleObjID f)).
Proof.
  intros Hr. destruct (resolve_Ok_inv _ _ _ Hr) as (t & Ht & HB).
  assert (Hnil : vehicleID t = NilObjectID).
  { apply to_filter_Ok_iff in Ht. destruct Ht as [_ Hd].
    apply decode_data_Ok in Hd. apply Unmarshal_vehicleID in Hd. exact Hd. }
  destruct (Build_ok _ _ HB) as (_ & _ & _ & _ & HV & _ & _ & _ & _ & Hid & _).
  unfold VehicleObjID. rewrite HV.
  destruct (String.eqb_spec (VehicleID t) "") as [E|E].
  - rewrite (Build_ok_vehicleID _ _ HB E), Hnil.
    repeat split; try reflexivity; try congruence.
    unfold NilObjectID. cbn. repeat constructor.
  - specialize (Hid E). unfold ObjectIDFromHex in Hid.
    destruct (Nat.eqb_spec (String.length (VehicleID t)) 24) as [E24|];
      [|discriminate].
    destruct (hex_decode_bytes _ _ Hid) as [Hlen Hall].
    split; [lia|]. split; [exact Hall|]. split; [congruence|].
    intros _. unfold ObjectIDFromHex. rewrite E24. exact Hid.
Qed.

(** X8. The order in which the runtime visits the entries of the query
    does not matter: visited in any order, the loop of the service
    succeeds for the same queries and builds the same map. *)
Theorem convert_loop_any_order (query : gmap string (list string))
    (entries : list (string * list string)) (d : gmap string any) :
  entries ≡ₚ map_to_list query ->
  convert_loop num entries ∅ = Ok d <-> convert num query = Ok d.
Proof.
  intros Hperm.
  assert (Hnd : NoDup entries.*1).
  { rewrite Hperm. apply NoDup_fst_map_to_list. }
  assert (Hmap : (list_to_map entries : gmap string (list string)) = query).
  { rewrite <- (list_to_map_to_list query).
    apply list_to_map_proper; assumption. }
  assert (Hspec := convert_loop_spec num entries ∅ Hnd).
  rewrite Hmap in Hspec. rewrite convert_Ok_iff.
  assert (Hall : Forall (entry_ok num) entries <->
                 forall k vs, query !! k = Some vs ->
                              is_Ok (convert_entry num k vs)).
  { rewrite <- entries_ok_iff, Hperm. reflexivity. }
  destruct (convert_loop num entries ∅) as [d0| |].
  - destruct Hspec as [Hok Hlk].
    assert (d0 = converted num query).
    { apply map_eq. intros k. rewrite Hlk, lookup_converted, lookup_empty.
      reflexivity. }
    subst d0. split.
    + intros [= <-]. split; [apply Hall, Hok | reflexivity].
    + intros [_ ->]. reflexivity.
  - split; [discriminate|]. intros [Hq _]. exfalso. apply Hspec, Hall, Hq.
  - split; [discriminate|]. intros [Hq _]. exfalso. apply Hspec, Hall, Hq.
Qed.

Lemma convert_entry_take (k : string) (vs : list string) :
  convert_entry num k (take 1 vs) = convert_entry num k vs.
Proof. destruct vs; reflexivity. Qed.

(** X9. Only the first value of a parameter is used: cutting every value
    list of the bag down to its first value leaves the resolved filter, or
    the absence of one, as it was. *)
Theorem only_first_values_matter (query : gmap string (list string))
    (f : TrackingFilter) :
  resolve num (take 1 <$> query) = Ok f <-> resolve num query = Ok f.
Proof.
  assert (Hc : converted num (take 1 <$> query) = converted num query).
  { apply map_eq. intros k. rewrite !lookup_converted, lookup_fmap.
    destruct (query !! k) as [vs|]; cbn; [|reflexivity].
    rewrite convert_entry_take. reflexivity. }
  assert (Ht : forall t, to_filter num (take 1 <$> query) = Ok t <->
                         to_filter num query = Ok t).
  { intros t. rewrite !to_filter_Ok_iff, Hc.
    split; intros [Hall Hd]; (split; [|exact Hd]); intros k vs Hk.
    - rewrite <- convert_entry_take. apply (Hall k).
      rewrite lookup_fmap, Hk. reflexivity.
    - rewrite lookup_fmap in Hk.
      destruct (query !! k) as [vs0|] eqn:Ek; cbn in Hk; [|discriminate].
      injection Hk as <-. rewrite convert_entry_take. apply (Hall k). exact Ek. }
  unfold resolve.
  destruct (to_filter num (take 1 <$> query)) as [t1| |] eqn:E1;
    destruct (to_filter num query) as [t0| |] eqn:E0; cbn [bind];
    try (split; discriminate).
  - destruct (Ht t1) as [Hx _]. specialize (Hx eq_refl).
    injection Hx as ->. reflexivity.
  - destruct (Ht t1) as [Hx _]. specialize (Hx eq_refl). discriminate.
  - destruct (Ht t1) as [Hx _]. specialize (Hx eq_refl). discriminate.
  - destruct (Ht t0) as [_ Hx]. specialize (Hx eq_refl). discriminate.
  - destruct (Ht t0) as [_ Hx]. specialize (Hx eq_refl). discriminate.
Qed.
End FilterBuilderMore.

(** ** When the query becomes a filter, and what the filter then holds *)
Section FilterSuccess.
Import Primitive Models Repositories Json Services.
Variable num : Numerics.

Lemma Atoi_in_range (s : string) (z : Z) :
  Strconv.Atoi s = Ok z -> GoInt.in_range z = true.
Proof.
  unfold Strconv.Atoi.
  destruct (match s with
            | String "-"%char r => (true, r)
            | String "+"%char r => (false, r)
            | _ => (false, s)
            end) as [neg body].
  destruct body as [|c body]; [discriminate|].
  destruct (Strconv.parse_digits 0 (String c body)) as [n|]; [|discriminate].
  destruct (GoInt.in_range (if neg then (- n)%Z else n)) eqn:E; [|discriminate].
  intros [= <-]. exact E.
Qed.

Lemma convert_entry_cases (k : string) (vs : list string) (a : any) :
  convert_entry num k vs = Ok a ->
  exists v vs', vs = v :: vs' /\
    ((k ∈ ["page"; "limit"] /\ exists z, Strconv.Atoi v = Ok z /\ a = AInt z) \/
     (k = "mileage" /\ exists x, ParseFloat num v = Some x /\ a = AFloat x) \/
     ((k ∉ ["page"; "limit"; "mileage"]) /\ a = AString v)).
Proof.
  destruct vs as [|v vs']; [discriminate|]. cbn [convert_entry].
  intros Hc. exists v, vs'. split; [reflexivity|].
  destruct (String.eqb_spec k "page") as [->|Hp].
  { cbn in Hc. destruct (Strconv.Atoi v) as [z| |]; cbn in Hc;
      try discriminate. injection Hc as <-. left. split; [list_mem|eauto]. }
  destruct (String.eqb_spec k "limit") as [->|Hl].
  { cbn in Hc. destruct (Strconv.Atoi v) as [z| |]; cbn in Hc;
      try discriminate. injection Hc as <-. left. split; [list_mem|eauto]. }
  cbn [orb] in Hc.
  destruct (String.eqb_spec k "mileage") as [->|Hm].
  { destruct (ParseFloat num v) as [x|]; [|discriminate].
    injection Hc as <-. right; left. eauto. }
  injection Hc as <-. right; right. split; [|reflexivity].
  intros Hin. repeat (apply elem_of_cons in Hin; destruct Hin as [->|Hin]);
    try congruence. inversion Hin.
Qed.

Lemma assign_ok (f : field) (a : any) (t : TrackingFilter) :
  same_kind f a = true ->
  (forall z, a = AInt z -> GoInt.in_range z = true) ->
  is_Ok (assign num f a t).
Proof.
  intros Hk Hr. destruct f, a; cbn in Hk; try discriminate; cbn;
    try rewrite (Hr z eq_refl); cbn; eexists; reflexivity.
Qed.

Lemma Unmarshal_total (buf : json_object) :
  (forall k a f, (k, a) ∈ buf -> field_of_key k = Some f ->
                 forall t, is_Ok (assign num f a t)) ->
  forall t, is_Ok (Unmarshal num buf t).
Proof.
  induction buf as [|[k a] buf IH]; intros Hsel t.
  - eexists; reflexivity.
  - cbn [Unmarshal].
    assert (Hrest : forall k0 a0 f0, (k0, a0) ∈ buf ->
              field_of_key k0 = Some f0 ->
              forall t0, is_Ok (assign num f0 a0 t0))
      by (intros k0 a0 f0 Hin; apply (Hsel k0 a0 f0); right; exact Hin).
    destruct (field_of_key k) as [f|] eqn:Ef; [|apply IH; exact Hrest].
    destruct (Hsel k a f ltac:(left) Ef t) as [t1 Ht1]. rewrite Ht1.
    cbn [bind]. apply IH. exact Hrest.
Qed.

Lemma numeric_tag (F : field) :
  F ∈ [FPage; FPageSize; FMileage] <-> tag F ∈ ["page"; "limit"; "mileage"].
Proof.
  split; intros Hin.
  - repeat (apply elem_of_cons in Hin; destruct Hin as [->|Hin]);
      [list_mem..|inversion Hin].
  - destruct F; try list_mem;
      repeat (apply elem_of_cons in Hin; destruct Hin as [Hin|Hin];
              [discriminate|]); inversion Hin.
Qed.

Lemma string_field_kind (F : field) (v : string) :
  F ∉ [FPage; FPageSize; FMileage] -> same_kind F (AString v) = true.
Proof. intros HF. destruct F; try reflexivity; exfalso; apply HF; list_mem. Qed.

(** X10. The query becomes a filter exactly when no value list is empty,
    the first values of page and limit are integers, the first value of
    mileage is a finite float, and no key is page, limit or mileage in
    another letter case.  Nothing else makes the conversion fail. *)
Theorem to_filter_succeeds_iff (query : gmap string (list string)) :
  is_Ok (to_filter num query) <->
  parsed_values query /\
  (forall k v vs, k ∈ ["page"; "limit"] -> query !! k = Some (v :: vs) ->
                  is_Ok (Strconv.Atoi v)) /\
  (forall v vs, query !! "mileage" = Some (v :: vs) ->
                exists x, ParseFloat num v = Some x /\ float_finite x = true) /\
  (forall k, is_Some (query !! k) ->
             fold_key k ∈ ["page"; "limit"; "mileage"] -> fold_key k = k).
Proof.
  split.
  - intros [t Ht]. apply to_filter_Ok_iff in Ht. destruct Ht as [Hall Hd].
    assert (Hparsed : parsed_values query).
    { intros k Hk. destruct (Hall k [] Hk) as [a Ha]. discriminate. }
    split; [exact Hparsed|]. split; [|split].
    + intros k v vs Hin Hk. destruct (Hall _ _ Hk) as [a Ha].
      destruct (convert_entry_cases _ _ _ Ha)
        as (v0 & vs0 & [= <- <-] & [(_ & z & Hz & _)|[(-> & _)|(Hn & _)]]).
      * eexists; exact Hz.
      * exfalso. repeat (apply elem_of_cons in Hin; destruct Hin as [Hin|Hin];
                         [discriminate|]). inversion Hin.
      * exfalso. apply Hn.
        repeat (apply elem_of_cons in Hin; destruct Hin as [->|Hin]);
          [list_mem..|inversion Hin].
    + intros v vs Hk. destruct (Hall _ _ Hk) as [a Ha].
      destruct (convert_entry_cases _ _ _ Ha)
        as (v0 & vs0 & [= <- <-] & [(Hin & _)|[(_ & x & Hx & ->)|(Hn & _)]]).
      * exfalso. repeat (apply elem_of_cons in Hin; destruct Hin as [Hin|Hin];
                         [discriminate|]). inversion Hin.
      * exists x. split; [exact Hx|].
        rewrite decode_data_coerce in Hd.
        destruct (forallb (fun m => encodable m.2)
                    (members (coerce_any <$> converted num query))) eqn:Ee;
          [|discriminate].
        rewrite forallb_forall in Ee.
        apply (Ee ("mileage", AFloat x)). apply list_elem_of_In.
        apply elem_of_members.
        rewrite lookup_coerce_converted, Hk, Ha. reflexivity.
      * exfalso. apply Hn. list_mem.
    + intros k [vs Hk] Hfold.
      destruct (String.eqb_spec (fold_key k) k) as [E|E]; [exact E|exfalso].
      destruct (Hall _ _ Hk) as [a Ha].
      assert (HF : exists F, F ∈ [FPage; FPageSize; FMileage] /\
                             fold_key k = tag F).
      { repeat (apply elem_of_cons in Hfold; destruct Hfold as [Hfold|Hfold]);
          [exists FPage|exists FPageSize|exists FMileage|inversion Hfold];
          (split; [list_mem | exact Hfold]). }
      destruct HF as (F & HF & Htag).
      assert (Hne : k <> tag F) by congruence.
      rewrite (convert_entry_other num k vs
                 (variant_key_not_numeric k F Htag Hne)) in Ha.
      destruct vs as [|v0 vs]; [discriminate|]. injection Ha as <-.
      apply decode_data_Ok in Hd.
      assert (Hin : (k, AString (coerce_utf8 v0)) ∈
                    members (coerce_any <$> converted num query)).
      { apply elem_of_members.
        rewrite lookup_coerce_converted, Hk,
          (convert_entry_other num k _ (variant_key_not_numeric k F Htag Hne)).
        reflexivity. }
      apply field_of_key_fold in Htag.
      destruct (Unmarshal_selected num _ _ _ _ _ _ Hd Hin Htag) as (t1 & t2 & Ha).
      rewrite (assign_string_fails num F _ t1 HF) in Ha. discriminate.
  - intros (Hparsed & Hint & Hfloat & Hvariant).
    assert (Hall : forall k vs, query !! k = Some vs ->
                                is_Ok (convert_entry num k vs)).
    { intros k vs Hk. destruct vs as [|v vs]; [exfalso; exact (Hparsed k Hk)|].
      cbn [convert_entry].
      destruct (String.eqb_spec k "page") as [->|Hp].
      { destruct (Hint "page" v vs ltac:(list_mem) Hk) as [z Hz].
        cbn. rewrite Hz. eexists; reflexivity. }
      destruct (String.eqb_spec k "limit") as [->|Hl].
      { destruct (Hint "limit" v vs ltac:(list_mem) Hk) as [z Hz].
        cbn. rewrite Hz. eexists; reflexivity. }
      cbn [orb]. destruct (String.eqb_spec k "mileage") as [->|Hm].
      { destruct (Hfloat v vs Hk) as (x & Hx & _). rewrite Hx.
        eexists; reflexivity. }
      eexists; reflexivity. }
    assert (Hmem : forall k a,
              (k, a) ∈ members (coerce_any <$> converted num query) ->
              exists vs a0, query !! k = Some vs /\
                            convert_entry num k vs = Ok a0 /\
                            a = coerce_any a0).
    { intros k a Hin. apply elem_of_members in Hin.
      rewrite lookup_coerce_converted in Hin.
      destruct (query !! k) as [vs|]; [|discriminate]. exists vs.
      destruct (convert_entry num k vs) as [a0| |]; try discriminate.
      exists a0. injection Hin as <-. auto. }
    assert (Hd : is_Ok (decode_data num (converted num query))).
    { rewrite decode_data_coerce.
      assert (Ee : forallb (fun m => encodable m.2)
                     (members (coerce_any <$> converted num query)) = true).
      { apply forallb_forall. intros [k a] Hin. apply list_elem_of_In in Hin.
        destruct (Hmem k a Hin) as (vs & a0 & Hk & Ha & ->).
        cbn [snd]. rewrite encodable_coerce.
        destruct (convert_entry_cases _ _ _ Ha)
          as (v & vs' & -> & [(_ & z & _ & ->)|[(-> & x & Hx & ->)|(_ & ->)]]);
          try reflexivity.
        destruct (Hfloat v vs' Hk) as (x' & Hx' & Hfin). cbn. congruence. }
      rewrite Ee. apply Unmarshal_total.
      intros k a f Hin Hf t. destruct (Hmem k a Hin) as (vs & a0 & Hk & Ha & ->).
      destruct (String.eqb_spec k (tag f)) as [->|Hne].
      - apply assign_ok;
          [rewrite same_kind_coerce; eapply convert_entry_tag_kind; exact Ha|].
        intros z Hz0.
        destruct (convert_entry_cases _ _ _ Ha)
          as (v & vs' & _ & [(_ & z' & Hz & ->)|[(_ & x & _ & ->)|(_ & ->)]]);
          cbn in Hz0; try discriminate.
        injection Hz0 as <-. eapply Atoi_in_range. exact Hz.
      - apply field_of_key_fold in Hf.
        assert (Hstr : f ∉ [FPage; FPageSize; FMileage]).
        { intros HF. apply Hne. rewrite <- Hf. symmetry.
          apply Hvariant; [eauto|]. rewrite Hf. apply numeric_tag. exact HF. }
        rewrite (convert_entry_other num k vs
                   (variant_key_not_numeric k f Hf Hne)) in Ha.
        destruct vs as [|v vs]; [discriminate|]. injection Ha as <-.
        apply assign_ok; [apply string_field_kind; exact Hstr | discriminate]. }
    destruct Hd as [t Ht]. exists t. apply to_filter_Ok_iff. auto.
Qed.
End FilterSuccess.

(** ** What the resolved filter holds *)
Section ResolvedFields.
Import Primitive Models Repositories Json Services.
Variable num : Numerics.

Lemma resolve_string_field (F : field) (query : gmap string (list string))
    (f : TrackingFilter) (v : string) (vs : list string) :
  F ∈ [FVehicleID; FLocation; FStatus; FFuelCondition] ->
  resolve num query = Ok f -> query !! tag F = Some (v :: vs) ->
  field_value F f = AString (coerce_utf8 v).
Proof.
  intros HF Hr Hq. destruct (resolve_Ok_inv _ _ _ Hr) as (t & Ht & HB).
  destruct (Build_ok _ _ HB) as (_ & _ & _ & _ & HV & HL & _ & HS & HFc & _).
  destruct (to_filter_tag num F query t _ Ht Hq) as (a & Ha & Hv).
  repeat (apply elem_of_cons in HF; destruct HF as [->|HF]);
    [| | | |inversion HF]; cbn in Ha; injection Ha as <-; cbn in Hv |- *;
    congruence.
Qed.

(** X11. The resolved filter carries what the bag holds under the nine
    parameter names, whatever other spellings of a name the bag holds as
    well.  A string goes through the JSON text, so the filter holds it as
    it reads back: every byte that starts no valid UTF-8 encoding
    replaced by U+FFFD.  The location is the first value read back; the
    sort field and the sort order are the first value read back unless
    that value is empty; status, fuel_condition and vehicle_id, which the
    build has validated, are the first value as given; the mileage, the
    page and the limit are as parsed, with a zero page read as 1, a zero
    limit as 10 and a limit above 100 as 100. *)
Theorem resolved_filter_carries_parameters (query : gmap string (list string))
    (f : TrackingFilter) :
  resolve num query = Ok f ->
  (forall v vs, query !! "location" = Some (v :: vs) ->
                Location f = coerce_utf8 v) /\
  (forall v vs, query !! "status" = Some (v :: vs) -> Status f = v) /\
  (forall v vs, query !! "fuel_condition" = Some (v :: vs) ->
                FuelCondition f = v) /\
  (forall v vs, query !! "vehicle_id" = Some (v :: vs) -> VehicleID f = v) /\
  (forall v vs, query !! "sort_by" = Some (v :: vs) ->
                SortField f =
                  if String.eqb v "" then "created_at" else coerce_utf8 v) /\
  (forall v vs, query !! "sort_order" = Some (v :: vs) ->
                SortOrder f =
                  if String.eqb v "" then "asc" else coerce_utf8 v) /\
  (forall v vs, query !! "mileage" = Some (v :: vs) ->
                ParseFloat num v = Some (Mileage f)) /\
  (forall v vs, query !! "page" = Some (v :: vs) ->
                exists n, Strconv.Atoi v = Ok n /\
                          Page f = if (n =? 0)%Z then 1%Z else n) /\
  (forall v vs, query !! "limit" = Some (v :: vs) ->
                exists n, Strconv.Atoi v = Ok n /\
                          PageSize f = if (n =? 0)%Z then 10%Z
                                       else if (100 <? n)%Z then 100%Z else n).
Proof.
  intros Hr.
  destruct (resolve_Ok_inv _ _ _ Hr) as (t & Ht & HB).
  destruct (Build_ok _ _ HB)
    as (HP & HPS & HSF & HSO & HV & _ & HM & HS & HFc & Hid & Hst & Hfuel).
  split; [|split; [|split; [|split]]].
  - intros v vs Hq.
    assert (Hv := resolve_string_field FLocation query f v vs
                    ltac:(list_mem) Hr Hq).
    cbn in Hv. congruence.
  - intros v vs Hq.
    assert (Hv := resolve_string_field FStatus query f v vs
                    ltac:(list_mem) Hr Hq).
    cbn in Hv. injection Hv as Hv. rewrite Hv.
    destruct (String.eqb_spec (coerce_utf8 v) "") as [E|E].
    + rewrite E. symmetry. apply coerce_empty. exact E.
    + apply coerce_ascii_inv.
      assert (Hall := VehicleStatuses_ascii). rewrite Forall_forall in Hall.
      apply Hall. rewrite <- Hv, HS. apply Hst. congruence.
  - intros v vs Hq.
    assert (Hv := resolve_string_field FFuelCondition query f v vs
                    ltac:(list_mem) Hr Hq).
    cbn in Hv. injection Hv as Hv. rewrite Hv.
    destruct (String.eqb_spec (coerce_utf8 v) "") as [E|E].
    + rewrite E. symmetry. apply coerce_empty. exact E.
    + apply coerce_ascii_inv.
      assert (Hall := FuelConditions_ascii). rewrite Forall_forall in Hall.
      apply Hall. rewrite <- Hv, HFc. apply Hfuel. congruence.
  - intros v vs Hq.
    assert (Hv := resolve_string_field FVehicleID query f v vs
                    ltac:(list_mem) Hr Hq).
    cbn in Hv. injection Hv as Hv. rewrite Hv.
    destruct (String.eqb_spec (coerce_utf8 v) "") as [E|E].
    + rewrite E. symmetry. apply coerce_empty. exact E.
    + apply coerce_ascii_inv, ObjectIDFromHex_ascii.
      rewrite <- Hv, HV, Hid by congruence. eauto.
  - clear HV HS HFc Hid Hst Hfuel.
  rewrite HP, HPS, HSF, HSO, HM, Build_defaults_Page, Build_defaults_PageSize,
    Build_defaults_SortField, Build_defaults_SortOrder. cbn zeta.
  split; [|split; [|split; [|split]]]; intros v vs Hq.
  + destruct (to_filter_tag num FSortField query t _ Ht Hq) as (a & Ha & Hv).
    cbn in Ha. injection Ha as <-. cbn in Hv. injection Hv as ->.
    rewrite coerce_eqb_empty. reflexivity.
  + destruct (to_filter_tag num FSortOrder query t _ Ht Hq) as (a & Ha & Hv).
    cbn in Ha. injection Ha as <-. cbn in Hv. injection Hv as ->.
    rewrite coerce_eqb_empty. reflexivity.
  + destruct (to_filter_tag num FMileage query t _ Ht Hq) as (a & Ha & Hv).
    cbn in Ha. destruct (ParseFloat num v) as [x|]; [|discriminate].
    injection Ha as <-. cbn in Hv. injection Hv as ->. reflexivity.
  + destruct (to_filter_tag num FPage query t _ Ht Hq) as (a & Ha & Hv).
    cbn in Ha. destruct (Strconv.Atoi v) as [n| |]; cbn in Ha;
      try discriminate.
    injection Ha as <-. cbn in Hv. injection Hv as ->. eauto.
  + destruct (to_filter_tag num FPageSize query t _ Ht Hq) as (a & Ha & Hv).
    cbn in Ha. destruct (Strconv.Atoi v) as [n| |]; cbn in Ha;
      try discriminate.
    injection Ha as <-. cbn in Hv. injection Hv as ->.
    exists n. split; [reflexivity|].
    destruct (n =? 0)%Z; reflexivity.
Qed.

Lemma members_split_key (data : gmap string any) (k : string) (a : any) :
  data !! k = Some a ->
  exists M1 M2,
    members data = M1 ++ (k, a) :: M2 /\
    forall k' a', (k', a') ∈ M2 -> k' <> k /\ data !! k' = Some a'.
Proof.
  intros Hk.
  assert (Hin : k ∈ sorted_keys data)
    by (apply elem_of_sorted_keys; eauto).
  apply list_elem_of_split in Hin. destruct Hin as (l1 & l2 & Hsplit).
  assert (Hnd := sorted_keys_NoDup data).
  rewrite Hsplit in Hnd. apply NoDup_app in Hnd.
  destruct Hnd as (_ & _ & Hnd2). apply NoDup_cons in Hnd2.
  destruct Hnd2 as [Hk2 _].
  exists (entries data l1), (entries data l2). unfold members.
  rewrite Hsplit, entries_app. split.
  - f_equal. unfold entries at 1. cbn. rewrite Hk. reflexivity.
  - intros k' a' Hin. apply elem_of_entries in Hin. destruct Hin as [Hl Hd].
    split; [intros ->; contradiction | exact Hd].
Qed.

(** X12. A parameter name in another letter case is taken for the field
    when it is the only spelling in the bag: if the key selects one of
    vehicle_id, location, status and fuel_condition and no other key of
    the bag selects that field, the resolved filter holds in that field
    the first value under the key, as it reads back from the JSON text
    (every byte that starts no valid UTF-8 encoding replaced by
    U+FFFD). *)
Theorem lone_spelling_is_accepted (F : field)
    (query : gmap string (list string)) (k v : string) (vs : list string)
    (f : TrackingFilter) :
  F ∈ [FVehicleID; FLocation; FStatus; FFuelCondition] ->
  fold_key k = tag F ->
  query !! k = Some (v :: vs) ->
  (forall k', is_Some (query !! k') -> fold_key k' = tag F -> k' = k) ->
  resolve num query = Ok f ->
  field_value F f = AString (coerce_utf8 v).
Proof.
  intros HF Hfold Hq Hlone Hr.
  destruct (resolve_Ok_inv _ _ _ Hr) as (t & Ht & HB).
  destruct (Build_ok _ _ HB) as (_ & _ & _ & _ & HV & HL & _ & HS & HFc & _).
  assert (Hfv : field_value F f = field_value F t).
  { repeat (apply elem_of_cons in HF; destruct HF as [->|HF]);
      [| | | |inversion HF]; cbn; congruence. }
  rewrite Hfv. clear Hfv.
  assert (Hnn : k ∉ ["page"; "limit"; "mileage"]).
  { intros Hin.
    repeat (apply elem_of_cons in HF; destruct HF as [->|HF]);
      try (repeat (apply elem_of_cons in Hin; destruct Hin as [->|Hin]);
           [discriminate..|inversion Hin]).
    inversion HF. }
  apply to_filter_Ok_iff in Ht. destruct Ht as [_ Hd].
  apply decode_data_Ok in Hd.
  assert (Hk : (coerce_any <$> converted num query) !! k =
               Some (AString (coerce_utf8 v))).
  { rewrite lookup_coerce_converted, Hq, convert_entry_other by exact Hnn.
    reflexivity. }
  destruct (members_split_key _ _ _ Hk) as (M1 & M2 & Hm & Hrest).
  rewrite Hm in Hd. apply field_of_key_fold in Hfold.
  destruct (Unmarshal_last num F M1 M2 _ _ _ _ Hd Hfold)
    as (t1 & t2 & Hassign & Hfv).
  { intros k' a' Hin Hsel. destruct (Hrest _ _ Hin) as [Hne Hd'].
    apply Hne. apply Hlone; [|apply field_of_key_fold; exact Hsel].
    rewrite lookup_coerce_converted in Hd'.
    destruct (query !! k'); [eauto | discriminate]. }
  rewrite Hfv. eapply assign_same; [exact Hassign|].
  repeat (apply elem_of_cons in HF; destruct HF as [->|HF]);
    try reflexivity. inversion HF.
Qed.
End ResolvedFields.

(** ** The endpoint over the Mongo-backed service *)
Section EndpointOverStore.
Import Models Repositories Json Services.
Variable num : Numerics.
Variable drv : Mongo.Driver.
Variable rm : RequestMethods.
Variable encode_result : Handler.Envelope -> option error.

Let svc : TrackingService Mongo.Collection :=
  @MongoTrackingService _ (MongoTackingRepository drv) rm num.

Lemma endpoint_get (query : gmap string (list string)) (c : Mongo.Collection) :
  @Handler.FindTrackingData _ svc encode_result
    (Handler.mkHttpRequest "GET" query) c =
  match resolve num query with
  | Fail err =>
      (Ok (Handler.HandleError Handler.StatusBadRequest err, []), c)
  | Panic m => (Panic m, c)
  | Ok f =>
      let c' := Mongo.mkCollection (Mongo.docs c)
                  (Mongo.ops c ++
                   [Mongo.OpFind (Mongo.bsonMFilter f) (Mongo.findOptions f)]) in
      match Mongo.Find_result drv c (Mongo.bsonMFilter f) (Mongo.findOptions f) with
      | Fail err =>
          (Ok (Handler.HandleError Handler.StatusBadRequest err, []), c')
      | Panic m => (Panic m, c')
      | Ok [] =>
          (Ok (Handler.HandleError Handler.StatusNotFound ErrNotFound, []), c')
      | Ok vehicles =>
          match Handler.Encode encode_result
                  (Handler.DefaultSuccessResponse vehicles
                     "successfully fetched tracking data") with
          | (resp, Some err) => (Ok (resp, [Handler.LogEncodeFailed err]), c')
          | (resp, None) => (Ok (resp, []), c')
          end
      end
  end.
Proof.
  unfold Handler.FindTrackingData. cbn [Handler.Method Handler.Query].
  change (String.eqb "GET" Handler.MethodGet) with true. cbn [negb].
  cbn [svc_FindTrackingData svc MongoTrackingService].
  rewrite FindTrackingData_resolve.
  destruct (resolve num query) as [f|err|m]; try reflexivity.
  unfold Mongo.Find. cbn zeta.
  destruct (Mongo.Find_result drv c _ _) as [[|v vs]|err|m]; reflexivity.
Qed.

(** X13. A failure of the store is answered like a bad request: when the
    bag resolves and the collection's find returns an error, the endpoint
    answers 400 with that error, after asking the collection once. *)
Theorem store_failure_is_bad_request (query : gmap string (list string))
    (c : Mongo.Collection) (f : TrackingFilter) (err : error) :
  resolve num query = Ok f ->
  Mongo.Find_result drv c (Mongo.bsonMFilter f) (Mongo.findOptions f) = Fail err ->
  @Handler.FindTrackingData _ svc encode_result
    (Handler.mkHttpRequest "GET" query) c =
  (Ok (Handler.mkResponse 400 (Some (Handler.ErrorEnvelope err)), []),
   Mongo.mkCollection (Mongo.docs c)
     (Mongo.ops c ++
      [Mongo.OpFind (Mongo.bsonMFilter f) (Mongo.findOptions f)])).
Proof.
  intros Hr Hf. rewrite endpoint_get, Hr. cbn zeta. rewrite Hf. reflexivity.
Qed.

(** X14. The endpoint only reads.  For every method and every query the
    documents of the collection are those before; the collection is asked
    at most once, and only by a GET whose bag resolves, with the document
    and the options of the resolved filter; and a response, when there is
    one, has status 200, 400, 404 or 405. *)
Theorem endpoint_only_reads (r : Handler.Request) (c : Mongo.Collection) :
  Mongo.docs (@Handler.FindTrackingData _ svc encode_result r c).2 =
    Mongo.docs c /\
  (Mongo.ops (@Handler.FindTrackingData _ svc encode_result r c).2 =
     Mongo.ops c \/
   exists f,
     Handler.Method r = "GET" /\ resolve num (Handler.Query r) = Ok f /\
     Mongo.ops (@Handler.FindTrackingData _ svc encode_result r c).2 =
       Mongo.ops c ++
       [Mongo.OpFind (Mongo.bsonMFilter f) (Mongo.findOptions f)]) /\
  (forall resp logs,
     (@Handler.FindTrackingData _ svc encode_result r c).1 = Ok (resp, logs) ->
     Handler.StatusCode resp ∈ [200%Z; 400%Z; 404%Z; 405%Z]).
Proof.
  destruct r as [method query].
  destruct (String.eqb_spec method "GET") as [->|Hne].
  - rewrite endpoint_get. cbn [Handler.Method Handler.Query].
    destruct (resolve num query) as [f|err|m].
    + cbn zeta.
      destruct (Mongo.Find_result drv c _ _) as [[|v vs]|err|m];
        try (unfold Handler.Encode;
             destruct (encode_result _));
        cbn [fst snd Mongo.docs Mongo.ops];
        (split; [reflexivity|]);
        (split; [right; exists f; auto|]);
        intros resp logs [= <- <-] || intros resp logs [=]; cbn; list_mem.
    + cbn. split; [reflexivity|]. split; [left; reflexivity|].
      intros resp logs [= <- <-]. cbn. list_mem.
    + cbn. split; [reflexivity|]. split; [left; reflexivity|].
      intros resp logs [=].
  - unfold Handler.FindTrackingData. cbn [Handler.Method].
    apply String.eqb_neq in Hne. unfold Handler.MethodGet. rewrite Hne.
    cbn. split; [reflexivity|]. split; [left; reflexivity|].
    intros resp logs [= <- <-]. cbn. list_mem.
Qed.
End EndpointOverStore.

(** ** Startup and shutdown *)
Section LifecycleProperties.
Import App Lifecycle.
Variable pf : Platform.

Lemma close_rabbit_calls (conn : option string) :
  (close_rabbit pf conn).1 =
  match conn with Some url => [CallClose url] | None => [] end.
Proof.
  destruct conn as [url|]; [|reflexivity]. cbn.
  destruct (Close_result pf url); reflexivity.
Qed.

Lemma disconnect_db_calls (client : option string) :
  (disconnect_db pf client).1 =
  match client with Some uri => [CallDisconnect uri] | None => [] end.
Proof.
  destruct client as [uri|]; [|reflexivity]. cbn.
  destruct (Disconnect_result pf uri); reflexivity.
Qed.

(** [Shutdown] on an open channel that holds a value. *)
Lemma Shutdown_holding (a : AppState) (v : option appError)
    (rest : list (option appError)) :
  buffer (shutdown a) = v :: rest -> closed (shutdown a) = false ->
  sd_status (Shutdown pf a) = Returned /\
  sd_error (Shutdown pf a) = v /\
  sd_calls (Shutdown pf a) = releases a /\
  shutdown (sd_app (Shutdown pf a)) = mkChan rest true.
Proof.
  intros Hb Hc. unfold Shutdown, recv, releases. rewrite Hb, Hc.
  rewrite <- close_rabbit_calls, <- disconnect_db_calls.
  destruct (close_rabbit pf (rabbitConn a)) as [calls1 logs1].
  destruct (disconnect_db pf (db a)) as [calls2 logs2].
  unfold close. cbn. auto.
Qed.

End LifecycleProperties.

Section LifecycleTheorems.
Import App Lifecycle.
Variable pf : Platform.


(** X16. After a startup that went all the way, on an app whose
    shutdown channel was empty and open: Run has
    made the five library calls in order, declaring the tracking queue
    durable and subscribing to the same queue without automatic
    acknowledgment, and has started the consumer and the server; Shutdown
    blocks as long as nothing was sent; after a termination signal it
    returns nil, and after the server ended with an error other than
    ErrServerClosed it returns that error, in both cases closing the
    broker connection and then disconnecting the database client; a
    server that ended with ErrServerClosed sends nothing. *)
Theorem running_app_shuts_down_on_signal_or_server_error (a : AppState)
    (c : RunConfig) :
  buffer (shutdown a) = [] -> closed (shutdown a) = false ->
  cfg a = Some c ->
  Connect_result pf (DatabaseURL c) = None ->
  Channel_result pf (RabbitmqUrl c) = None ->
  QueueDeclare_result pf (TrackingQueue c) = None ->
  Consume_result pf (TrackingQueue c) = None ->
  run_status (Run pf a) = Returned /\
  run_calls (Run pf a) = full_startup c /\
  run_started (Run pf a) =
    [GoConsume (TrackingQueue c) (consumer_config c);
     GoListenAndServe (Host c ++ ":" ++ Port c)%string] /\
  sd_status (Shutdown pf (run_app (Run pf a))) = Blocked /\
  (exists a', on_signal (run_app (Run pf a)) = Done a' /\
              sd_status (Shutdown pf a') = Returned /\
              sd_error (Shutdown pf a') = None /\
              sd_calls (Shutdown pf a') =
                [CallClose (RabbitmqUrl c); CallDisconnect (DatabaseURL c)]) /\
  (forall err, IsServerClosed pf err = true ->
     server_exit pf err (run_app (Run pf a)) = Done (run_app (Run pf a))) /\
  (forall err, IsServerClosed pf err = false ->
     exists a', server_exit pf err (run_app (Run pf a)) = Done a' /\
                sd_status (Shutdown pf a') = Returned /\
                sd_error (Shutdown pf a') = Some (LibraryError err) /\
                sd_calls (Shutdown pf a') =
                  [CallClose (RabbitmqUrl c); CallDisconnect (DatabaseURL c)]).
Proof.
  intros Hb Hc Hcfg H1 H2 H3 H4. unfold Run.
  rewrite Hcfg, H1, H2, H3, H4. cbn [run_status run_calls run_started run_app].
  split; [reflexivity|]. split; [reflexivity|]. split; [reflexivity|].
  split.
  { unfold Shutdown, recv. cbn. rewrite Hb, Hc. reflexivity. }
  split.
  { unfold on_signal, send. cbn. rewrite Hb, Hc. cbn. eexists.
    split; [reflexivity|].
    match goal with
    | |- context [Shutdown pf ?x] =>
        destruct (Shutdown_holding pf x None [] eq_refl eq_refl)
          as (S1 & S2 & S3 & _)
    end.
    rewrite S1, S2, S3. auto. }
  split.
  { intros err He. unfold server_exit. rewrite He. reflexivity. }
  intros err He. unfold server_exit, send. rewrite He. cbn.
  rewrite Hb, Hc. cbn. eexists. split; [reflexivity|].
  match goal with
  | |- context [Shutdown pf ?x] =>
      destruct (Shutdown_holding pf x (Some (LibraryError err)) []
                  eq_refl eq_refl) as (S1 & S2 & S3 & _)
  end.
  rewrite S1, S2, S3. auto.
Qed.

(** X17. Shutdown is good for one call.  After a Shutdown that returned,
    a second Shutdown does not block: it releases the broker connection
    and the database client once more and then panics on closing the
    channel that is already closed. *)
Theorem second_Shutdown_panics (a : AppState) :
  sd_status (Shutdown pf a) = Returned ->
  sd_status (Shutdown pf (sd_app (Shutdown pf a))) = Panicked /\
  sd_calls (Shutdown pf (sd_app (Shutdown pf a))) = sd_calls (Shutdown pf a).
Proof.
  destruct a as [va ca da ra [buf cl]]. unfold Shutdown, recv, close.
  cbn [shutdown buffer closed rabbitConn db set_shutdown].
  destruct (close_rabbit pf ra) as [calls1 logs1] eqn:E1.
  destruct (disconnect_db pf da) as [calls2 logs2] eqn:E2.
  destruct buf as [|v rest], cl; cbn; try discriminate.
  intros _. destruct rest; cbn; rewrite E1, E2; cbn; auto.
Qed.
End LifecycleTheorems.

(** * Closed examples of the further properties *)

Section FurtherExamples.
Import Primitive Models Repositories Json Services App Ingestion Lifecycle.
Import Fixtures MoreFixtures.

Lemma handle_persists_witness :
  acked (@handle _ plain_service plain_broker (mkDelivery [Byte.x7b] 7)
           empty_collection) = true /\
  length (Mongo.docs (state (@handle _ plain_service plain_broker
                               (mkDelivery [Byte.x7b] 7) empty_collection)))
    = 1%nat.
Proof.
  destruct (handle_persists_iff_acked plain_driver spec_methods plain_numerics
              plain_broker (mkDelivery [Byte.x7b] 7) empty_collection)
    as [Hack _].
  assert (Ha : acked (@handle _ plain_service plain_broker
                        (mkDelivery [Byte.x7b] 7) empty_collection) = true)
    by (vm_compute; reflexivity).
  split; [exact Ha|].
  destruct (Hack Ha) as (req & td & built & id & _ & _ & _ & _ & _ & Hone).
  change plain_service
    with (@MongoTrackingService _ (MongoTackingRepository plain_driver)
            spec_methods plain_numerics).
  rewrite Hone. reflexivity.
Defined.

Lemma next_page_witness :
  exists t1 t2 n,
    Build second_page = (t1, None) /\
    Build (set_Page 3 second_page) = (t2, None) /\
    (1 <= n <= 100)%Z /\
    Mongo.Limit (Mongo.findOptions t1) = Some n /\
    Mongo.Limit (Mongo.findOptions t2) = Some n /\
    Mongo.Skip (Mongo.findOptions t1) = Some ((2 - 1) * n)%Z /\
    Mongo.Skip (Mongo.findOptions t2) = Some ((2 - 1) * n + n)%Z.
Proof.
  assert (Hp : (1 <= Page second_page < 2 ^ 55)%Z) by (cbn; lia).
  assert (Hs : (0 <= PageSize second_page)%Z) by (cbn; lia).
  destruct (next_page_starts_where_page_ends second_page (Build second_page).1
              Hp Hs eq_refl) as (t2 & n & H).
  exists (Build second_page).1, t2, n. split; [reflexivity|]. exact H.
Defined.

Lemma resolved_vehicle_identifier_witness :
  exists f,
    resolve plain_numerics vehicle_bag = Ok f /\
    VehicleID f = "1735cc0f1af72af5f7cdcdee" /\
    length (VehicleObjID f) = 12%nat /\
    ObjectIDFromHex (VehicleID f) = Some (VehicleObjID f).
Proof.
  assert (Hr : exists f, resolve plain_numerics vehicle_bag = Ok f /\
                         VehicleID f = "1735cc0f1af72af5f7cdcdee").
  { eexists. split; vm_compute; reflexivity. }
  destruct Hr as (f & Hr & Hv). exists f.
  destruct (resolved_vehicle_identifier plain_numerics vehicle_bag f Hr)
    as (Hlen & _ & _ & Hhex).
  split; [exact Hr|]. split; [exact Hv|]. split; [exact Hlen|].
  apply Hhex. rewrite Hv. discriminate.
Defined.

Lemma convert_loop_any_order_witness :
  exists d,
    convert plain_numerics paging_bag = Ok d /\
    convert_loop plain_numerics limit_first ∅ = Ok d /\
    convert_loop plain_numerics page_first ∅ = Ok d.
Proof.
  assert (Hl : map_to_list paging_bag = limit_first)
    by (vm_compute; reflexivity).
  assert (H1 : limit_first ≡ₚ map_to_list paging_bag)
    by (rewrite Hl; reflexivity).
  assert (H2 : page_first ≡ₚ map_to_list paging_bag)
    by (rewrite Hl; apply perm_swap).
  destruct (convert plain_numerics paging_bag) as [d|e|m] eqn:Hc;
    [|exfalso; vm_compute in Hc; discriminate..].
  exists d. split; [reflexivity|]. split.
  - apply (convert_loop_any_order plain_numerics paging_bag limit_first d H1).
    exact Hc.
  - apply (convert_loop_any_order plain_numerics paging_bag page_first d H2).
    exact Hc.
Defined.

Lemma resolved_filter_carries_witness :
  exists f,
    resolve plain_numerics carried_bag = Ok f /\
    Location f = ("Y" ++ replacement ++ "n")%string /\ PageSize f = 10%Z.
Proof.
  destruct (resolve plain_numerics carried_bag) as [f|e|m] eqn:Hr;
    [|exfalso; vm_compute in Hr; discriminate..].
  exists f. split; [reflexivity|].
  destruct (resolved_filter_carries_parameters plain_numerics carried_bag f Hr)
    as (Hloc & _ & _ & _ & _ & _ & _ & _ & Hlim).
  assert (Q1 : carried_bag !! "location" = Some [broken_location; "Mandalay"])
    by (vm_compute; reflexivity).
  assert (Q2 : carried_bag !! "limit" = Some ["0"])
    by (vm_compute; reflexivity).
  split.
  - exact (Hloc _ _ Q1).
  - destruct (Hlim _ _ Q2) as (n & Hn & Hp).
    vm_compute in Hn. injection Hn as <-. exact Hp.
Defined.

Lemma lone_spelling_witness :
  exists f,
    resolve plain_numerics capital_status_bag = Ok f /\ Status f = "sold".
Proof.
  destruct (resolve plain_numerics capital_status_bag) as [f|e|m] eqn:Hr;
    [|exfalso; vm_compute in Hr; discriminate..].
  exists f. split; [reflexivity|].
  assert (HF : FStatus ∈ [FVehicleID; FLocation; FStatus; FFuelCondition])
    by list_mem.
  assert (Hq : capital_status_bag !! "Status" = Some ["sold"])
    by (vm_compute; reflexivity).
  assert (Hlone : forall k', is_Some (capital_status_bag !! k') ->
                    fold_key k' = tag FStatus -> k' = "Status").
  { intros k' [x Hx] _. unfold capital_status_bag in Hx.
    destruct (decide (k' = "Status")) as [E|E]; [exact E|].
    rewrite lookup_insert_ne in Hx by congruence.
    rewrite lookup_empty in Hx. discriminate. }
  assert (H := lone_spelling_is_accepted plain_numerics FStatus
                 capital_status_bag "Status" "sold" [] f HF eq_refl Hq
                 Hlone Hr).
  cbn in H. injection H as H. exact H.
Defined.

Lemma store_failure_witness :
  exists f,
    resolve plain_numerics location_bag = Ok f /\
    (@Handler.FindTrackingData _ failing_service (fun _ => None)
       (Handler.mkHttpRequest "GET" location_bag) empty_collection).1 =
    Ok (Handler.mkResponse 400
          (Some (Handler.ErrorEnvelope
                   (ErrExternal "server selection timeout"))), []).
Proof.
  destruct (resolve plain_numerics location_bag) as [f|e|m] eqn:Hr;
    [|exfalso; vm_compute in Hr; discriminate..].
  exists f. split; [reflexivity|].
  assert (H := store_failure_is_bad_request plain_numerics failing_driver
                 spec_methods (fun _ => None) location_bag empty_collection
                 f (ErrExternal "server selection timeout") Hr eq_refl).
  exact (f_equal fst H).
Defined.


Lemma running_app_witness :
  run_calls (Run good_platform (SetConfig sample_config NewApp)) =
    full_startup sample_config /\
  sd_status (Shutdown good_platform
               (run_app (Run good_platform (SetConfig sample_config NewApp))))
    = Blocked /\
  exists a',
    on_signal (run_app (Run good_platform (SetConfig sample_config NewApp)))
      = Done a' /\
    sd_status (Shutdown good_platform a') = Returned /\
    sd_error (Shutdown good_platform a') = None /\
    sd_calls (Shutdown good_platform a') =
      [CallClose "amqp://broker"; CallDisconnect "mongodb://db"].
Proof.
  destruct (running_app_shuts_down_on_signal_or_server_error good_platform
              (SetConfig sample_config NewApp) sample_config
              eq_refl eq_refl eq_refl eq_refl eq_refl eq_refl eq_refl)
    as (_ & Hcalls & _ & Hblocked & Hsignal & _).
  split; [exact Hcalls|]. split; [exact Hblocked|]. exact Hsignal.
Defined.

Lemma second_Shutdown_witness :
  sd_status (Shutdown good_platform
               (set_shutdown (mkChan [None] false) NewApp)) = Returned /\
  sd_status (Shutdown good_platform
               (sd_app (Shutdown good_platform
                          (set_shutdown (mkChan [None] false) NewApp))))
    = Panicked.
Proof.
  split; [reflexivity|].
  exact (proj1 (second_Shutdown_panics good_platform
                  (set_shutdown (mkChan [None] false) NewApp) eq_refl)).
Defined.
End FurtherExamples.
